(** * AirQuality: the data fusion engine and the forecast API

  A shallow embedding of the multi-source air-quality pipeline of
  [src/api/data_sources.py] (TEMPO satellite, OpenAQ ground sensors,
  AQICN, OpenWeather, and the [DataFusionEngine] that combines them) and
  of the forecast endpoint of [src/api/main.py], followed by the
  properties of the engine that the specification states and by further
  properties of the code.

  Conventions of the embedding.
  - A Python [float] is an exact rational ([Q]); a Python [int] is [Z].
    [round], [int], [%] and the [:.3f] formatting are written out on
    rationals in module [Py]. Binary rounding error is not modelled: a
    decimal that is an exact tie as a rational ([round(0.125, 2)]) may
    round the other way as a float. The concrete evaluations below stay
    away from ties.
  - A JSON value has the type the code uses it at; a value of another
    type raises inside the adapter's [try] and is covered by the
    failing-response case of the network.
  - The health counters of an adapter ([last_successful_call],
    [error_count]) are written and never read; they are left out.
  - A Python [dict] is an insertion-ordered association list with unique
    keys (module [Dict]); a [dict] with a fixed set of keys is a record,
    an optional key an [option] field.
  - The [random] module is an explicit generator state threaded through
    the code (the monad [M]); [hashlib.md5], [random] and [geodesic] are
    members of the interface [PyLib], not part of this repository.
  - Timestamps ([datetime.utcnow()]) and log output ([print]) carry no
    data of the pipeline and are left out of the records. *)

From Stdlib Require Import QArith Qround Qminmax Qabs Lqa ZArith Lia.
From Stdlib Require Import Bool List String Ascii DecimalString.
Import ListNotations.

Set Implicit Arguments.

Open Scope Q_scope.

(* ================================================================= *)
(** ** Python numerics on rationals *)

Module Py.

(** [x <= y] and [x < y] as Python evaluates them, to a [bool]. *)
Definition leb (x y : Q) : bool := Qle_bool x y.
Definition ltb (x y : Q) : bool := negb (Qle_bool y x).
Definition eqb (x y : Q) : bool := Qeq_bool x y.

(** [round(x)]: nearest integer, ties to the even one. *)
Definition round (x : Q) : Z :=
  let f := Qfloor x in
  match Qcompare (x - inject_Z f) (1 # 2) with
  | Lt => f
  | Gt => (f + 1)%Z
  | Eq => if Z.even f then f else (f + 1)%Z
  end.

(** [10 ** n] *)
Definition pow10 (n : nat) : Q := inject_Z (10 ^ Z.of_nat n).

(** [round(x, n)]: [x] rounded to [n] decimal places. *)
Definition round_n (x : Q) (n : nat) : Q :=
  inject_Z (round (x * pow10 n)) / pow10 n.

(** [int(x)]: truncation towards zero. *)
Definition int (x : Q) : Z :=
  if leb 0%Q x then Qfloor x else Qceiling x.

(** [abs(x)] *)
Definition abs (x : Q) : Q := Qabs x.

(** [x % m] on floats, for a positive modulus [m]. *)
Definition fmod (x m : Q) : Q := x - inject_Z (Qfloor (x / m)) * m.

(** [max(xs)] of a non-empty list, [min(a, b)]. *)
Definition max_list (x : Q) (xs : list Q) : Q :=
  fold_left (fun m y => if ltb m y then y else m) xs x.
Definition min (a b : Q) : Q := if ltb b a then b else a.

(** Decimal digits of a natural number, left-padded with zeros to
    [width] characters. *)
Definition digits (n : Z) : string :=
  NilZero.string_of_uint (N.to_uint (Z.to_N n)).

Fixpoint pad (k : nat) (s : string) : string :=
  match k with
  | O => s
  | S k' => String "0"%char (pad k' s)
  end.

Definition zfill (width : nat) (s : string) : string :=
  pad (width - String.length s) s.

(** [f"{x:.nf}"] for [n >= 1]: sign, integer part, point, [n] digits. The
    sign is that of [x] itself, so a small negative number prints as
    [-0.000]. *)
Definition format_f (n : nat) (x : Q) : string :=
  let scaled := round (Qabs x * pow10 n)%Q in
  let unit := (10 ^ Z.of_nat n)%Z in
  ((if ltb x 0 then "-" else EmptyString)
     ++ digits (scaled / unit) ++ "." ++ zfill n (digits (scaled mod unit)))%string.

End Py.

(* ================================================================= *)
(** ** Python dictionaries *)

(** A [dict] keeps its keys in insertion order and holds each key once:
    assigning to a key that is present replaces its value in place. *)

Module Dict.

Class EqKey (K : Type) := {
  key_eqb : K -> K -> bool;
  key_eqb_eq : forall a b, key_eqb a b = true <-> a = b
}.

#[global] Instance string_EqKey : EqKey string :=
  {| key_eqb := String.eqb; key_eqb_eq := String.eqb_eq |}.

Definition option_eqb {K} `{EqKey K} (a b : option K) : bool :=
  match a, b with
  | None, None => true
  | Some x, Some y => key_eqb x y
  | _, _ => false
  end.

#[global] Instance option_EqKey {K} `{EqKey K} : EqKey (option K).
Proof.
  refine {| key_eqb := option_eqb; key_eqb_eq := _ |}.
  intros [x|] [y|]; simpl; try (split; congruence).
  rewrite key_eqb_eq. split; congruence.
Defined.

Definition dict (K V : Type) : Type := list (K * V).

Section Operations.

Context {K V : Type} `{EqKey K}.

(** [{}] *)
Definition empty : dict K V := [].

(** [d.get(k)] *)
Fixpoint get (k : K) (d : dict K V) : option V :=
  match d with
  | [] => None
  | (k', v) :: rest => if key_eqb k k' then Some v else get k rest
  end.

(** [k in d] *)
Definition contains (k : K) (d : dict K V) : bool :=
  match get k d with Some _ => true | None => false end.

(** [d[k] = v] *)
Fixpoint set (k : K) (v : V) (d : dict K V) : dict K V :=
  match d with
  | [] => [(k, v)]
  | (k', v') :: rest =>
      if key_eqb k k' then (k, v) :: rest else (k', v') :: set k v rest
  end.

(** [d.items()], [d.keys()], [d.values()], [len(d)], truthiness of [d] *)
Definition items (d : dict K V) : list (K * V) := d.
Definition keys (d : dict K V) : list K := map fst d.
Definition values (d : dict K V) : list V := map snd d.
Definition len (d : dict K V) : nat := List.length d.
Definition truthy (d : dict K V) : bool :=
  match d with [] => false | _ => true end.

(** The invariant of a Python dictionary: no key twice. *)
Definition wf (d : dict K V) : Prop := NoDup (keys d).

End Operations.

End Dict.

Abbreviation dict := Dict.dict.

(* ================================================================= *)
(** ** The Python library under the code *)

(** What the pipeline takes from outside the repository: the MD5 digest
    used to seed the generator, the [random] module's generator, and
    [geopy]'s geodesic distance. The generator is a state with a seeding
    function and two draws: [random()] in [[0, 1)] and the integer draw
    below a bound that [randint] and [choice] are built on. *)
Class PyLib := {
  (** [int(hashlib.md5(s.encode()).hexdigest()[:8], 16)] *)
  md5_hex8 : string -> Z;
  rng : Type;
  (** the state after [random.seed(n)] *)
  rng_seed : Z -> rng;
  (** [random.random()] *)
  rng_random : rng -> Q * rng;
  (** [random._randbelow(n)] *)
  rng_randbelow : Z -> rng -> Z * rng;
  rng_random_range :
    forall s, 0 <= fst (rng_random s) /\ fst (rng_random s) < 1;
  rng_randbelow_range :
    forall n s, (0 < n)%Z -> (0 <= fst (rng_randbelow n s) < n)%Z;
  (** [geodesic(p, q).kilometers]; [None] when the call raises *)
  geodesic_km : Q * Q -> Q * Q -> option Q;
  geodesic_km_nonneg : forall p q d, geodesic_km p q = Some d -> 0 <= d
}.

(** Code that draws random numbers is a function of the generator state. *)
Definition M `{PyLib} (A : Type) : Type := rng -> A * rng.

Definition ret `{PyLib} {A} (a : A) : M A := fun s => (a, s).

Definition bind `{PyLib} {A B} (c : M A) (k : A -> M B) : M B :=
  fun s => let (a, s') := c s in k a s'.

Notation "x <- c ;; k" := (bind c (fun x => k))
  (at level 61, c at next level, right associativity).
Notation "c ;;; k" := (bind c (fun _ => k))
  (at level 61, right associativity).

Module Random.

Section Draws.

Context `{PyLib}.

(** [random.seed(n)] *)
Definition seed (n : Z) : M unit := fun _ => (tt, rng_seed n).

(** [random.random()] *)
Definition random : M Q := rng_random.

(** [random.uniform(a, b)] is [a + (b - a) * random()]. *)
Definition uniform (a b : Q) : M Q :=
  u <- random ;; ret (a + (b - a) * u).

(** [random.randint(a, b)] is [a + _randbelow(b - a + 1)]. *)
Definition randint (a b : Z) : M Z :=
  fun s => let (k, s') := rng_randbelow (b - a + 1) s in ((a + k)%Z, s').

(** [random.choice(seq)] is [seq[_randbelow(len(seq))]]. *)
Definition choice {A} (default : A) (seq : list A) : M A :=
  fun s =>
    let (k, s') := rng_randbelow (Z.of_nat (List.length seq)) s in
    (nth (Z.to_nat k) seq default, s').

End Draws.

End Random.

(* ================================================================= *)
(** ** Configuration and the network *)

(** The module-level configuration read from the environment. *)
Record Config := {
  NASA_TEMPO_TOKEN : option string;
  OPENAQ_API_KEY : option string;
  WAQI_API_KEY : option string;
  OPENWEATHER_API_KEY : option string
}.

(** Truthiness of an environment variable: set and not empty. *)
Definition is_set (v : option string) : bool :=
  match v with
  | Some s => negb (String.eqb s EmptyString)
  | None => false
  end.

(** What one [await client.get(...)] gives: the call raises (timeout,
    connection error), or a response with a status code whose [.json()]
    yields a body or raises ([None]). A body that does not have the shape
    the code reads raises inside the adapter's [try] just as a failing
    [.json()] does, and is covered by [None]. *)
Inductive http (A : Type) : Type :=
| HttpRaises
| HttpResponse (status_code : Z) (json : option A).

Arguments HttpRaises {A}.
Arguments HttpResponse {A} status_code json.

(** The result slot of one task of [asyncio.gather(..., return_exceptions=True)]:
    the exception it raised, or what it returned. *)
Inductive outcome (A : Type) : Type :=
| Raised (message : string)
| Returned (value : option A).

Arguments Raised {A} message.
Arguments Returned {A} value.

(* ================================================================= *)
(** ** NASA TEMPO satellite data *)

Module TempoDataSource.

Record pollutant := {
  value : Q;
  unit : string;
  quality : string
}.

Record reading := {
  source : string;
  type : string;
  location : Q * Q;
  pollutants : dict string pollutant;
  spatial_resolution : string;
  temporal_resolution : string;
  coverage : option string
}.

Section Methods.

Context `{PyLib}.
Variable cfg : Config.

Definition _generate_mock_tempo_data (lat lon : Q) : M reading :=
  let base_no2 := 0.5 + Py.fmod ((Py.abs lat + Py.abs lon) * 0.01) 2.0 in
  u <- Random.uniform (-5) 10 ;;
  let base_o3 := 35.0 + u in
  ret {| source := "NASA TEMPO";
         type := "satellite";
         location := (lat, lon);
         pollutants :=
           [ ("no2"%string,
              {| value := Py.round_n base_no2 2; unit := "mol/m²"; quality := "good" |});
             ("o3"%string,
              {| value := Py.round_n base_o3 1; unit := "DU"; quality := "good" |}) ];
         spatial_resolution := "2.1km x 4.4km";
         temporal_resolution := "hourly";
         coverage := Some "North America"%string |}.

(** The coverage test of [get_satellite_data]. *)
Definition outside_coverage (lat lon : Q) : bool :=
  Py.ltb lat 18.0 || Py.ltb 71.0 lat || Py.ltb lon (-175.0) || Py.ltb (-40.0) lon.

Definition get_satellite_data (lat lon : Q) : M (option reading) :=
  if negb (is_set (NASA_TEMPO_TOKEN cfg)) then
    r <- _generate_mock_tempo_data lat lon ;; ret (Some r)
  else if outside_coverage lat lon then
    ret None
  else
    r <- _generate_mock_tempo_data lat lon ;; ret (Some r).

End Methods.

End TempoDataSource.

(* ================================================================= *)
(** ** OpenAQ ground-based sensors *)

Module OpenAQDataSource.

(** *** The JSON of the [latest] endpoint, as far as the code reads it *)

Record api_coordinates := {
  latitude : option Q;
  longitude : option Q
}.

(** One entry of a result's ["measurements"] list. *)
Record api_measure := {
  parameter : option string;
  api_value : option Q;
  api_unit : option string
}.

(** One entry of ["results"]: keys ["location"], ["coordinates"],
    ["measurements"] and ["sourceName"], each possibly absent. *)
Record api_result := {
  api_location : option string;
  api_coords : option api_coordinates;
  api_measurements : option (list api_measure);
  sourceName : option string
}.

(** *** The standardized reading *)

(** [station["measurements"][param]] *)
Record measurement := {
  value : option Q;
  unit : option string;
  source : option string
}.

Record station := {
  name : option string;
  coordinates : api_coordinates;
  distance_km : Q;
  measurements : dict string measurement
}.

(** [averaged_measurements[param]]: keys ["value"] and ["confidence"]. *)
Record averaged := {
  avg_value : Q;
  confidence : Q
}.

Record reading := {
  r_source : string;
  r_type : string;
  location : Q * Q;
  stations_count : nat;
  stations_data : list station;
  averaged_measurements : dict string averaged
}.

(** The running sums of [_calculate_weighted_average]. *)
Record sums := {
  total_value : Q;
  total_weight : Q
}.

(** The endpoint: coordinates, radius in metres and limit of the query to
    the response. *)
Definition endpoint : Type := Q -> Q -> Z -> Z -> http (list api_result).

Section Methods.

Context `{PyLib}.
Variable latest : endpoint.

(** [f"{lat:.3f},{lon:.3f}"], the text that is hashed into the seed. *)
Definition location_key (lat lon : Q) : string :=
  (Py.format_f 3 lat ++ "," ++ Py.format_f 3 lon)%string.

Definition location_seed (lat lon : Q) : Z := md5_hex8 (location_key lat lon).

Definition is_india (lat lon : Q) : bool :=
  Py.leb 6.0 lat && Py.leb lat 37.0 && Py.leb 68.0 lon && Py.leb lon 97.0.

Definition is_urban (lat lon : Q) : bool :=
  Py.ltb (Py.abs (lat - inject_Z (Py.round lat))) 0.1
  && Py.ltb (Py.abs (lon - inject_Z (Py.round lon))) 0.1.

(** The three base values drawn by [_generate_mock_openaq_data], in the
    order the code draws them. *)
Definition mock_bases (lat lon : Q) : M (Q * Q * Q) :=
  if is_india lat lon then
    base_pm25 <- (if is_urban lat lon then Random.uniform 25 65
                  else Random.uniform 15 45) ;;
    k <- Random.uniform 1.5 2.5 ;;
    let base_pm10 := base_pm25 * k in
    base_no2 <- (if is_urban lat lon then Random.uniform 20 60
                 else Random.uniform 10 30) ;;
    ret (base_pm25, base_pm10, base_no2)
  else
    base_pm25 <- (if is_urban lat lon then Random.uniform 8 25
                  else Random.uniform 5 15) ;;
    k <- Random.uniform 1.2 2.0 ;;
    let base_pm10 := base_pm25 * k in
    base_no2 <- (if is_urban lat lon then Random.uniform 15 40
                 else Random.uniform 5 20) ;;
    ret (base_pm25, base_pm10, base_no2).

Definition estimate (v : Q) : measurement :=
  {| value := Some (Py.round_n v 1);
     unit := Some "μg/m³"%string;
     source := Some "Location-based estimate"%string |}.

Definition _generate_mock_openaq_data (lat lon : Q) : M reading :=
  Random.seed (location_seed lat lon) ;;;
  bases <- mock_bases lat lon ;;
  let '(base_pm25, base_pm10, base_no2) := bases in
  let mock_station :=
    {| name := Some ("Estimated Station "
                       ++ Py.format_f 2 lat ++ "," ++ Py.format_f 2 lon)%string;
       coordinates := {| latitude := Some lat; longitude := Some lon |};
       distance_km := 0;
       measurements :=
         [ ("pm25"%string, estimate base_pm25);
           ("pm10"%string, estimate base_pm10);
           ("no2"%string, estimate base_no2) ] |} in
  ret {| r_source := "OpenAQ (Enhanced)";
         r_type := "ground_sensors";
         location := (lat, lon);
         stations_count := 1;
         stations_data := [mock_station];
         averaged_measurements :=
           [ ("pm25"%string, {| avg_value := Py.round_n base_pm25 1; confidence := 75 |});
             ("pm10"%string, {| avg_value := Py.round_n base_pm10 1; confidence := 75 |});
             ("no2"%string, {| avg_value := Py.round_n base_no2 1; confidence := 70 |}) ] |}.

(** [_calculate_distance]: the geodesic distance rounded to two places, or
    the sentinel 999.0 when the computation raises. *)
Definition _calculate_distance (lat1 lon1 lat2 lon2 : Q) : Q :=
  match geodesic_km (lat1, lon1) (lat2, lon2) with
  | Some km => Py.round_n km 2
  | None => 999.0
  end.

(** The body of the inner loop of [_calculate_weighted_average] for one
    [(param, measurement)] item of a station. *)
Definition accumulate (weight : Q) (weighted : dict string sums)
    (item : string * measurement) : dict string sums :=
  let (param, m) := item in
  let weighted :=
    if Dict.contains param weighted then weighted
    else Dict.set param {| total_value := 0; total_weight := 0 |} weighted in
  match value m, Dict.get param weighted with
  | Some v, Some acc =>
      Dict.set param {| total_value := total_value acc + v * weight;
                        total_weight := total_weight acc + weight |} weighted
  | _, _ => weighted
  end.

(** The body of the outer loop for one station; [None] is the
    [ZeroDivisionError] of [1 / (distance + 1)] at distance -1. *)
Definition add_station (weighted : option (dict string sums)) (st : station)
    : option (dict string sums) :=
  match weighted with
  | None => None
  | Some w =>
      let distance := distance_km st in
      if Py.eqb (distance + 1) 0 then None
      else
        let weight := 1 / (distance + 1) in
        Some (fold_left (accumulate weight) (Dict.items (measurements st)) w)
  end.

(** The final loop: a parameter is reported when its total weight is
    positive. *)
Definition finish (result : dict string averaged) (item : string * sums)
    : dict string averaged :=
  let (param, data) := item in
  if Py.ltb 0 (total_weight data) then
    Dict.set param
      {| avg_value := Py.round_n (total_value data / total_weight data) 2;
         confidence := Py.min (total_weight data * 10) 100 |} result
  else result.

Definition _calculate_weighted_average {K} (stations : dict K station)
    : option (dict string averaged) :=
  match fold_left add_station (Dict.values stations) (Some Dict.empty) with
  | Some weighted => Some (fold_left finish (Dict.items weighted) Dict.empty)
  | None => None
  end.

(** One [measure] of a result, stored under its parameter when it has a
    non-empty one. *)
Definition add_measure (src : option string) (ms : dict string measurement)
    (m : api_measure) : dict string measurement :=
  match parameter m with
  | Some param =>
      if String.eqb param EmptyString then ms
      else Dict.set param
             {| value := api_value m; unit := api_unit m; source := src |} ms
  | None => ms
  end.

Definition no_coordinates : api_coordinates :=
  {| latitude := None; longitude := None |}.

Definition or_default {A} (o : option A) (d : A) : A :=
  match o with Some a => a | None => d end.

(** The grouping loop of [_process_openaq_data] for one result: create
    the station on first sight, then store the result's measures. *)
Definition add_result (lat lon : Q) (stations : dict (option string) station)
    (r : api_result) : dict (option string) station :=
  let station_id := api_location r in
  let coords := or_default (api_coords r) no_coordinates in
  let stations :=
    if Dict.contains station_id stations then stations
    else Dict.set station_id
           {| name := api_location r;
              coordinates := coords;
              distance_km :=
                _calculate_distance lat lon
                  (or_default (latitude coords) lat)
                  (or_default (longitude coords) lon);
              measurements := Dict.empty |} stations in
  match Dict.get station_id stations with
  | Some st =>
      Dict.set station_id
        {| name := name st;
           coordinates := coordinates st;
           distance_km := distance_km st;
           measurements :=
             fold_left (add_measure (sourceName r))
               (or_default (api_measurements r) []) (measurements st) |}
        stations
  | None => stations
  end.

Definition group_by_station (results : list api_result) (lat lon : Q)
    : dict (option string) station :=
  fold_left (add_result lat lon) results Dict.empty.

(** [_process_openaq_data]: [Returned None] for an empty list, [Raised]
    when the averaging divides by zero. *)
Definition _process_openaq_data (results : list api_result) (lat lon : Q)
    : outcome reading :=
  match results with
  | [] => Returned None
  | _ =>
      let stations := group_by_station results lat lon in
      match _calculate_weighted_average stations with
      | None => Raised "float division by zero"
      | Some averaged_data =>
          Returned (Some
            {| r_source := "OpenAQ";
               r_type := "ground_sensors";
               location := (lat, lon);
               stations_count := Dict.len stations;
               stations_data := firstn 3 (Dict.values stations);
               averaged_measurements := averaged_data |})
      end
  end.

(** [get_ground_data]. Every exception inside the [try] ends in the mock
    data; a first response whose status is not 200 leaves [measurements]
    unbound, and the test that follows raises there. *)
Definition get_ground_data (lat lon : Q) (radius_km : Z) : M (option reading) :=
  let mock := (r <- _generate_mock_openaq_data lat lon ;; ret (Some r)) in
  let processed results :=
    match _process_openaq_data results lat lon with
    | Returned r => ret r
    | Raised _ => mock
    end in
  match latest lat lon (radius_km * 1000)%Z 50%Z with
  | HttpRaises => mock
  | HttpResponse status json =>
      if negb (status =? 200)%Z then mock
      else
        match json with
        | None => mock
        | Some ((_ :: _) as measurements) => processed measurements
        | Some [] =>
            match latest lat lon 100000%Z 20%Z with
            | HttpRaises => mock
            | HttpResponse broader_status broader_json =>
                if negb (broader_status =? 200)%Z then mock
                else
                  match broader_json with
                  | None => mock
                  | Some ((_ :: _) as broader) => processed broader
                  | Some [] => mock
                  end
            end
        end
  end.

End Methods.

End OpenAQDataSource.

(* ================================================================= *)
(** ** Weather data *)

(** [s.lower()] on ASCII letters, and [needle in s] on strings. *)
Definition lower_ascii (c : ascii) : ascii :=
  let n := nat_of_ascii c in
  if (65 <=? n)%nat && (n <=? 90)%nat then ascii_of_nat (n + 32) else c.

Fixpoint lower (s : string) : string :=
  match s with
  | EmptyString => EmptyString
  | String c rest => String (lower_ascii c) (lower rest)
  end.

Fixpoint substring_in (needle s : string) : bool :=
  String.prefix needle s
  || match s with
     | EmptyString => false
     | String _ rest => substring_in needle rest
     end.

Module WeatherDataSource.

(** *** The JSON of the current-weather endpoint, as far as it is read *)

Record api_main := {
  temp : option Q;
  api_humidity : option Q;
  api_pressure : option Q
}.

Record api_wind := {
  speed : option Q;
  deg : option Q
}.

(** One entry of the ["weather"] list: its ["main"] key. *)
Record api_condition := {
  main : option string
}.

Record api_data := {
  api_main_ : option api_main;
  api_wind_ : option api_wind;
  api_visibility : option Q;
  api_weather : option (list api_condition)
}.

(** *** The standardized reading *)

Record reading := {
  source : string;
  type : string;
  temperature : option Q;
  humidity : option Q;
  pressure : option Q;
  wind_speed : option Q;
  wind_direction : option Q;
  visibility : option Q;
  weather_condition : option string;
  air_quality_impact : string
}.

(** The endpoint: coordinates to the response. *)
Definition endpoint : Type := Q -> Q -> http api_data.

Definition get_main {A} (data : api_data) (f : api_main -> option A) : option A :=
  match api_main_ data with Some m => f m | None => None end.

Definition get_wind {A} (data : api_data) (f : api_wind -> option A) : option A :=
  match api_wind_ data with Some w => f w | None => None end.

(** [data.get("weather", [{}])[0].get("main")]: [None] at the outer level
    is the [IndexError] of an empty list. *)
Definition first_condition (data : api_data) : option (option string) :=
  match api_weather data with
  | None => Some None
  | Some [] => None
  | Some (c :: _) => Some (main c)
  end.

Definition or_else {A} (o : option A) (d : A) : A :=
  match o with Some a => a | None => d end.

(** [_assess_weather_impact]; [None] when it raises. *)
Definition _assess_weather_impact (weather_data : api_data) : option string :=
  let wind_speed := or_else (get_wind weather_data speed) 0 in
  let humidity := or_else (get_main weather_data api_humidity) 50 in
  match first_condition weather_data with
  | None => None
  | Some m =>
      let condition := lower (or_else m EmptyString) in
      Some (if Py.ltb 5 wind_speed then "good_dispersion"
            else if substring_in "rain" condition then "cleansing"
            else if Py.ltb 80 humidity then "poor_dispersion"
            else if Py.ltb wind_speed 2 then "stagnant"
            else "moderate")%string
  end.

(** [_process_weather_data]; [None] when it raises. *)
Definition _process_weather_data (data : api_data) : option reading :=
  match first_condition data, _assess_weather_impact data with
  | Some condition, Some impact =>
      Some {| source := "OpenWeather";
              type := "weather";
              temperature := get_main data temp;
              humidity := get_main data api_humidity;
              pressure := get_main data api_pressure;
              wind_speed := get_wind data speed;
              wind_direction := get_wind data deg;
              visibility := api_visibility data;
              weather_condition := condition;
              air_quality_impact := impact |}
  | _, _ => None
  end.

Section Methods.

Context `{PyLib}.
Variable cfg : Config.
Variable current : endpoint.

Definition _get_mock_weather_data (lat lon : Q) : M reading :=
  t <- Random.uniform (-10) 20 ;;
  h <- Random.randint 30 90 ;;
  p <- Random.randint 980 1030 ;;
  w <- Random.uniform 0 15 ;;
  d <- Random.randint 0 360 ;;
  v <- Random.randint 5000 15000 ;;
  c <- Random.choice "Clear"%string ["Clear"; "Clouds"; "Rain"; "Haze"]%string ;;
  ret {| source := "Mock Weather";
         type := "weather";
         temperature := Some (Py.round_n (15 + t) 1);
         humidity := Some (inject_Z h);
         pressure := Some (inject_Z p);
         wind_speed := Some (Py.round_n w 1);
         wind_direction := Some (inject_Z d);
         visibility := Some (inject_Z v);
         weather_condition := Some c;
         air_quality_impact := "moderate" |}.

(** [not OPENWEATHER_API_KEY or OPENWEATHER_API_KEY == "your_openweather_key_here"] *)
Definition no_weather_key : bool :=
  negb (is_set (OPENWEATHER_API_KEY cfg))
  || match OPENWEATHER_API_KEY cfg with
     | Some k => String.eqb k "your_openweather_key_here"
     | None => false
     end.

Definition get_weather_data (lat lon : Q) : M (option reading) :=
  let mock := (r <- _get_mock_weather_data lat lon ;; ret (Some r)) in
  if no_weather_key then mock
  else
    match current lat lon with
    | HttpRaises => mock
    | HttpResponse status json =>
        if negb (status =? 200)%Z then mock
        else
          match json with
          | None => mock
          | Some data =>
              match _process_weather_data data with
              | Some r => ret (Some r)
              | None => mock
              end
          end
    end.

End Methods.

End WeatherDataSource.

(* ================================================================= *)
(** ** Pollutant entries of the fused result *)

(** One value of a ["pollutants"] dictionary: keys ["value"], ["aqi"],
    ["unit"], ["source"] and ["spatial_resolution"], the second and the
    last not on every entry. *)
Module Pollutant.

Record entry := {
  value : option Q;
  aqi : option Q;
  unit : string;
  source : string;
  spatial_resolution : option string
}.

End Pollutant.

(* ================================================================= *)
(** ** AQICN / World Air Quality Index *)

Module AQICNDataSource.

(** *** The JSON of the feed and search endpoints, as far as it is read *)

Record api_city := {
  city_name : option string;
  geo : option (list Q);
  url : option string
}.

(** The ["data"] object of a feed reply; ["iaqi"] maps a pollutant code
    to its ["v"]. *)
Record api_feed := {
  city : option api_city;
  iaqi : option (dict string (option Q));
  api_aqi : option Q
}.

Record feed_reply := {
  feed_status : option string;
  feed_data : option api_feed
}.

Record search_station := {
  uid : option Z
}.

Record search_reply := {
  search_status : option string;
  search_data : option (list search_station)
}.

(** *** The standardized reading *)

Record station_info := {
  name : string;
  coordinates : list Q;
  station_url : string
}.

Record reading := {
  source : string;
  type : string;
  location : Q * Q;
  station : station_info;
  overall_aqi : option Q;
  pollutants : dict string Pollutant.entry
}.

Record endpoints := {
  feed_geo : Q -> Q -> http feed_reply;
  search : Q -> Q -> http search_reply;
  feed_station : Z -> http feed_reply
}.

Definition pollutant_mapping : list (string * string) :=
  [ ("pm25", "PM2.5"); ("pm10", "PM10"); ("no2", "NO2");
    ("so2", "SO2"); ("o3", "O3"); ("co", "CO") ]%string.

Definition add_pollutant (measurements : dict string (option Q))
    (pollutants : dict string Pollutant.entry) (item : string * string)
    : dict string Pollutant.entry :=
  let (code, _) := item in
  match Dict.get code measurements with
  | Some v =>
      Dict.set code
        {| Pollutant.value := v;
           Pollutant.unit :=
             if String.eqb code "pm25" || String.eqb code "pm10"
             then "AQI" else "μg/m³";
           Pollutant.aqi := v;
           Pollutant.source := "AQICN";
           Pollutant.spatial_resolution := None |} pollutants
  | None => pollutants
  end.

Definition _process_aqicn_data (data : api_feed) (lat lon : Q) : reading :=
  let station_info_ :=
    match city data with
    | Some c => c
    | None => {| city_name := None; geo := None; url := None |}
    end in
  let measurements :=
    match iaqi data with Some m => m | None => Dict.empty end in
  {| source := "AQICN (World Air Quality Index)";
     type := "ground_sensors";
     location := (lat, lon);
     station :=
       {| name := match city_name station_info_ with
                  | Some n => n | None => "Unknown Station"%string end;
          coordinates := match geo station_info_ with
                         | Some g => g | None => [lat; lon] end;
          station_url := match url station_info_ with
                         | Some u => u | None => EmptyString end |};
     overall_aqi := api_aqi data;
     pollutants := fold_left (add_pollutant measurements) pollutant_mapping Dict.empty |}.

(** [data.get("status") == "ok" and data.get("data")] on a reply whose
    status code is 200; the data when the test passes. *)
Definition usable (r : http feed_reply) : option (option api_feed) :=
  match r with
  | HttpRaises => None
  | HttpResponse status json =>
      if negb (status =? 200)%Z then Some None
      else
        match json with
        | None => None
        | Some reply =>
            match feed_status reply with
            | Some s => if String.eqb s "ok" then Some (feed_data reply) else Some None
            | None => Some None
            end
        end
  end.

Section Methods.

Variable cfg : Config.
Variable api : endpoints.

(** [get_aqicn_data] draws no random number; the outer [option] of
    [usable] being [None] is an exception, which the [try] turns into
    [None]. *)
Definition get_aqicn_data (lat lon : Q) : option reading :=
  if negb (is_set (WAQI_API_KEY cfg)) then None
  else
    match usable (feed_geo api lat lon) with
    | None => None
    | Some (Some data) => Some (_process_aqicn_data data lat lon)
    | Some None =>
        match search api lat lon with
        | HttpRaises => None
        | HttpResponse status json =>
            if negb (status =? 200)%Z then None
            else
              match json with
              | None => None
              | Some reply =>
                  match search_status reply, search_data reply with
                  | Some s, Some (first :: _) =>
                      if String.eqb s "ok" then
                        match uid first with
                        | None => None
                        | Some id =>
                            match usable (feed_station api id) with
                            | Some (Some data) =>
                                Some (_process_aqicn_data data lat lon)
                            | _ => None
                            end
                        end
                      else None
                  | _, _ => None
                  end
              end
        end
    end.

End Methods.

End AQICNDataSource.

(* ================================================================= *)
(** ** The data fusion engine *)

Module DataFusionEngine.

(** *** Concentration to index *)

(** The EPA breakpoints for PM2.5: [(bp_lo, bp_hi, aqi_lo, aqi_hi)]. *)
Definition breakpoints : list (Q * Q * Q * Q) :=
  [ (0, 12.0, 0, 50);
    (12.1, 35.4, 51, 100);
    (35.5, 55.4, 101, 150);
    (55.5, 150.4, 151, 200);
    (150.5, 250.4, 201, 300);
    (250.5, 500.4, 301, 500) ].

(** The interpolation inside one band, before rounding. *)
Definition interpolate (band : Q * Q * Q * Q) (c : Q) : Q :=
  let '(bp_lo, bp_hi, aqi_lo, aqi_hi) := band in
  ((aqi_hi - aqi_lo) / (bp_hi - bp_lo)) * (c - bp_lo) + aqi_lo.

Definition in_band (band : Q * Q * Q * Q) (c : Q) : bool :=
  let '(bp_lo, bp_hi, _, _) := band in
  Py.leb bp_lo c && Py.leb c bp_hi.

(** The loop of [_pm25_to_aqi] over a list of bands: the first band that
    holds the concentration decides; 500 when none does. *)
Fixpoint scan_breakpoints (bands : list (Q * Q * Q * Q)) (c : Q) : Z :=
  match bands with
  | [] => 500
  | band :: rest =>
      if in_band band c then Py.round (interpolate band c)
      else scan_breakpoints rest c
  end.

Definition _pm25_to_aqi (pm25_concentration : Q) : Z :=
  scan_breakpoints breakpoints pm25_concentration.

Definition _o3_to_aqi (o3_concentration : Q) : Q :=
  let c := o3_concentration in
  if Py.leb c 54 then (50 / 54) * c
  else if Py.leb c 70 then 51 + ((100 - 51) / (70 - 55)) * (c - 55)
  else if Py.leb c 85 then 101 + ((150 - 101) / (85 - 71)) * (c - 71)
  else if Py.leb c 105 then 151 + ((200 - 151) / (105 - 86)) * (c - 86)
  else Py.min 500 (201 + (c - 106) * 2).

Definition _no2_to_aqi (no2_concentration : Q) : Q :=
  let c := no2_concentration in
  if Py.leb c 53 then (50 / 53) * c
  else if Py.leb c 100 then 51 + ((100 - 51) / (100 - 54)) * (c - 54)
  else if Py.leb c 360 then 101 + ((150 - 101) / (360 - 101)) * (c - 101)
  else Py.min 500 (151 + (c - 361) * 0.5).

(** *** Data of the engine *)

(** [aqicn_data or openaq_data]: the ground reading that feeds the index,
    a dictionary of one of two shapes. *)
Inductive sensor_data : Type :=
| OfOpenAQ (r : OpenAQDataSource.reading)
| OfAQICN (r : AQICNDataSource.reading).

(** [sensor_data.get(key)] for the keys the engine reads; a key of the
    other shape is absent. *)
Definition get_source (d : sensor_data) : string :=
  match d with
  | OfOpenAQ r => OpenAQDataSource.r_source r
  | OfAQICN r => AQICNDataSource.source r
  end.

Definition get_overall_aqi (d : sensor_data) : option Q :=
  match d with
  | OfOpenAQ _ => None
  | OfAQICN r => AQICNDataSource.overall_aqi r
  end.

Definition get_pollutants (d : sensor_data) : dict string Pollutant.entry :=
  match d with
  | OfOpenAQ _ => Dict.empty
  | OfAQICN r => AQICNDataSource.pollutants r
  end.

Definition get_averaged_measurements (d : sensor_data)
    : option (dict string OpenAQDataSource.averaged) :=
  match d with
  | OfOpenAQ r => Some (OpenAQDataSource.averaged_measurements r)
  | OfAQICN _ => None
  end.

(** The metrics dictionary that [_calculate_primary_aqi] creates and the
    enhancement and weather steps extend; the keys added later are
    optional. *)
Record metrics := {
  overall_aqi : Q;
  pollutants : dict string Pollutant.entry;
  primary_source : string;
  confidence : string;
  satellite_enhancement : option bool;
  data_fusion : option string;
  weather_adjusted_aqi : option Z;
  weather_impact : option string;
  weather_data : option WeatherDataSource.reading
}.

Record data_sources := {
  satellite : bool;
  ground_sensors : bool;
  aqicn : bool;
  weather : bool
}.

Record raw_data := {
  raw_tempo : option TempoDataSource.reading;
  raw_openaq : option OpenAQDataSource.reading;
  raw_aqicn : option AQICNDataSource.reading;
  raw_weather : option WeatherDataSource.reading
}.

(** The dictionary [get_comprehensive_air_quality] returns; [fused] holds
    the keys that [result.update(weather_adjusted)] merges in, and
    [data_source_errors] is present only when a source raised. *)
Record result := {
  location : Q * Q;
  sources : data_sources;
  data_quality : string;
  raw : raw_data;
  fused : metrics;
  data_source_errors : option (dict string string)
}.

Definition ground_entry (v aqi_ : Q) : Pollutant.entry :=
  {| Pollutant.value := Some v;
     Pollutant.aqi := Some aqi_;
     Pollutant.unit := "μg/m³";
     Pollutant.source := "ground_sensor";
     Pollutant.spatial_resolution := None |}.

(** The three conversion steps of [_calculate_primary_aqi]: each present
    pollutant appends its index to [aqi_values] and its entry to
    [pollutants]. *)
Definition convert_present (measurements : dict string OpenAQDataSource.averaged)
    : list Q * dict string Pollutant.entry :=
  let step (key : string) (to_aqi : Q -> Q)
           (acc : list Q * dict string Pollutant.entry) :=
    match Dict.get key measurements with
    | Some m =>
        let v := OpenAQDataSource.avg_value m in
        (fst acc ++ [to_aqi v], Dict.set key (ground_entry v (to_aqi v)) (snd acc))
    | None => acc
    end in
  step "no2"%string _no2_to_aqi
    (step "o3"%string _o3_to_aqi
       (step "pm25"%string (fun v => inject_Z (_pm25_to_aqi v)) ([], Dict.empty))).

(** [max(aqi_values) if aqi_values else 50] *)
Definition max_or_50 (aqi_values : list Q) : Q :=
  match aqi_values with
  | [] => 50
  | x :: xs => Py.max_list x xs
  end.

Section Methods.

Context `{PyLib}.

Definition _generate_fallback_aqi : M metrics :=
  base_aqi <- Random.randint 25 150 ;;
  u <- Random.uniform (-5) 5 ;;
  ret {| overall_aqi := inject_Z base_aqi;
         pollutants :=
           [ ("pm25"%string,
              {| Pollutant.value := Some (Py.round_n (inject_Z base_aqi * 0.4 + u) 1);
                 Pollutant.aqi := Some (inject_Z base_aqi);
                 Pollutant.unit := "μg/m³";
                 Pollutant.source := "estimated";
                 Pollutant.spatial_resolution := None |}) ];
         primary_source := "fallback_model";
         confidence := "low";
         satellite_enhancement := None;
         data_fusion := None;
         weather_adjusted_aqi := None;
         weather_impact := None;
         weather_data := None |}.

(** The branch of [_calculate_primary_aqi] for the AQICN format: taken
    when the source tag matches and [overall_aqi] is truthy. *)
Definition aqicn_index (d : sensor_data) : option Q :=
  if String.eqb (get_source d) "AQICN (World Air Quality Index)" then
    match get_overall_aqi d with
    | Some a => if Py.eqb a 0 then None else Some a
    | None => None
    end
  else None.

Definition _calculate_primary_aqi (sensor : option sensor_data) : M metrics :=
  match sensor with
  | None => _generate_fallback_aqi
  | Some d =>
      match aqicn_index d with
      | Some a =>
          ret {| overall_aqi := a;
                 pollutants := get_pollutants d;
                 primary_source := "aqicn";
                 confidence := "high";
                 satellite_enhancement := None;
                 data_fusion := None;
                 weather_adjusted_aqi := None;
                 weather_impact := None;
                 weather_data := None |}
      | None =>
          match get_averaged_measurements d with
          | None => _generate_fallback_aqi
          | Some measurements =>
              if negb (Dict.truthy measurements) then _generate_fallback_aqi
              else
                let (aqi_values, pollutants_) := convert_present measurements in
                ret {| overall_aqi := inject_Z (Py.int (max_or_50 aqi_values));
                       pollutants := pollutants_;
                       primary_source := "ground_sensors";
                       confidence :=
                         if (2 <=? List.length aqi_values)%nat then "high" else "medium";
                       satellite_enhancement := None;
                       data_fusion := None;
                       weather_adjusted_aqi := None;
                       weather_impact := None;
                       weather_data := None |}
          end
      end
  end.

End Methods.

(** [_enhance_with_satellite_data] *)
Definition _enhance_with_satellite_data (primary_metrics : metrics)
    (tempo_data : option TempoDataSource.reading) : metrics :=
  match tempo_data with
  | Some t =>
      let satellite_pollutants := TempoDataSource.pollutants t in
      if Dict.truthy satellite_pollutants then
        let pollutants_ :=
          match Dict.get "no2"%string satellite_pollutants with
          | Some no2 =>
              let no2_column := TempoDataSource.value no2 in
              let estimated_surface_no2 := no2_column * 0.1 in
              Dict.set "no2_satellite"%string
                {| Pollutant.value := Some (Py.round_n estimated_surface_no2 2);
                   Pollutant.aqi := None;
                   Pollutant.unit := "μg/m³ (estimated)";
                   Pollutant.source := "satellite";
                   Pollutant.spatial_resolution := Some "2.1km x 4.4km"%string |}
                (pollutants primary_metrics)
          | None => pollutants primary_metrics
          end in
        {| overall_aqi := overall_aqi primary_metrics;
           pollutants := pollutants_;
           primary_source := primary_source primary_metrics;
           confidence := confidence primary_metrics;
           satellite_enhancement := Some true;
           data_fusion := Some "ground_satellite_combined"%string;
           weather_adjusted_aqi := weather_adjusted_aqi primary_metrics;
           weather_impact := weather_impact primary_metrics;
           weather_data := weather_data primary_metrics |}
      else primary_metrics
  | None => primary_metrics
  end.

(** The factor chosen by [_apply_weather_corrections]. *)
Definition adjustment_factor (weather_impact_ : string) : Q :=
  if String.eqb weather_impact_ "good_dispersion" then 0.9
  else if String.eqb weather_impact_ "poor_dispersion"
          || String.eqb weather_impact_ "stagnant" then 1.1
  else if String.eqb weather_impact_ "cleansing" then 0.8
  else 1.0.

(** [_apply_weather_corrections] *)
Definition _apply_weather_corrections (m : metrics)
    (weather_data_ : option WeatherDataSource.reading) : metrics :=
  match weather_data_ with
  | Some w =>
      let weather_impact_ := WeatherDataSource.air_quality_impact w in
      let original_aqi := overall_aqi m in
      let weather_adjusted_aqi_ :=
        Py.int (original_aqi * adjustment_factor weather_impact_) in
      {| overall_aqi := overall_aqi m;
         pollutants := pollutants m;
         primary_source := primary_source m;
         confidence := confidence m;
         satellite_enhancement := satellite_enhancement m;
         data_fusion := data_fusion m;
         weather_adjusted_aqi := Some weather_adjusted_aqi_;
         weather_impact := Some weather_impact_;
         weather_data := Some w |}
  | None => m
  end.

(** The four adapters of an engine, as [asyncio.gather] sees them: each
    call ends in an exception or in a returned value. *)
Record adapters `{PyLib} := {
  tempo_source : Q -> Q -> M (outcome TempoDataSource.reading);
  openaq_source : Q -> Q -> M (outcome OpenAQDataSource.reading);
  aqicn_source : Q -> Q -> M (outcome AQICNDataSource.reading);
  weather_source : Q -> Q -> M (outcome WeatherDataSource.reading)
}.

(** The endpoints one request can reach. *)
Record Network := {
  openaq_latest : OpenAQDataSource.endpoint;
  openweather_current : WeatherDataSource.endpoint;
  waqi : AQICNDataSource.endpoints
}.

Section Engine.

Context `{PyLib}.

Definition emergency_estimate (v : Q) : OpenAQDataSource.measurement :=
  {| OpenAQDataSource.value := Some (Py.round_n v 1);
     OpenAQDataSource.unit := Some "μg/m³"%string;
     OpenAQDataSource.source := Some "Emergency fallback estimate"%string |}.

(** The base values of the emergency data, computed from the coordinates
    as they are passed in. *)
Definition pm25_base (lat lon : Q) : Q :=
  25 + Py.fmod ((Py.abs lat + Py.abs lon) * 0.5) 40.
Definition pm10_base (lat lon : Q) : Q := pm25_base lat lon * 1.7.
Definition no2_base (lat : Q) : Q := 10 + Py.fmod (Py.abs lat * 0.3) 20.

(** [_generate_emergency_fallback_data]: six draws, the station's three
    measurements first, the three averaged values after them. *)
Definition _generate_emergency_fallback_data (lat lon : Q)
    : M OpenAQDataSource.reading :=
  Random.seed (OpenAQDataSource.location_seed lat lon) ;;;
  s_pm25 <- Random.uniform (-5) 5 ;;
  s_pm10 <- Random.uniform (-8) 8 ;;
  s_no2 <- Random.uniform (-3) 3 ;;
  a_pm25 <- Random.uniform (-5) 5 ;;
  a_pm10 <- Random.uniform (-8) 8 ;;
  a_no2 <- Random.uniform (-3) 3 ;;
  ret {| OpenAQDataSource.r_source := "OpenAQ (Emergency Fallback)";
         OpenAQDataSource.r_type := "ground_sensors";
         OpenAQDataSource.location := (lat, lon);
         OpenAQDataSource.stations_count := 1;
         OpenAQDataSource.stations_data :=
           [ {| OpenAQDataSource.name :=
                  Some ("Emergency Fallback Station "
                          ++ Py.format_f 2 lat ++ "," ++ Py.format_f 2 lon)%string;
                OpenAQDataSource.coordinates :=
                  {| OpenAQDataSource.latitude := Some lat;
                     OpenAQDataSource.longitude := Some lon |};
                OpenAQDataSource.distance_km := 0;
                OpenAQDataSource.measurements :=
                  [ ("pm25"%string, emergency_estimate (pm25_base lat lon + s_pm25));
                    ("pm10"%string, emergency_estimate (pm10_base lat lon + s_pm10));
                    ("no2"%string, emergency_estimate (no2_base lat + s_no2)) ] |} ];
         OpenAQDataSource.averaged_measurements :=
           [ ("pm25"%string,
              {| OpenAQDataSource.avg_value := Py.round_n (pm25_base lat lon + a_pm25) 1;
                 OpenAQDataSource.confidence := 50 |});
             ("pm10"%string,
              {| OpenAQDataSource.avg_value := Py.round_n (pm10_base lat lon + a_pm10) 1;
                 OpenAQDataSource.confidence := 50 |});
             ("no2"%string,
              {| OpenAQDataSource.avg_value := Py.round_n (no2_base lat + a_no2) 1;
                 OpenAQDataSource.confidence := 45 |}) ] |}.

(** [aqicn_data or openaq_data] *)
Definition preferred_sensor (openaq_data : option OpenAQDataSource.reading)
    (aqicn_data : option AQICNDataSource.reading) : option sensor_data :=
  match aqicn_data with
  | Some a => Some (OfAQICN a)
  | None => option_map OfOpenAQ openaq_data
  end.

Definition present {A} (o : option A) : bool :=
  match o with Some _ => true | None => false end.

(** The AQICN reading as [raw_data] shows it after the fusion: when the
    metrics were taken from it, its ["pollutants"] dictionary is the very
    object the satellite step added to. *)
Definition aqicn_after (aqicn_data : option AQICNDataSource.reading)
    (m : metrics) : option AQICNDataSource.reading :=
  match aqicn_data with
  | Some a =>
      if String.eqb (primary_source m) "aqicn" then
        Some {| AQICNDataSource.source := AQICNDataSource.source a;
                AQICNDataSource.type := AQICNDataSource.type a;
                AQICNDataSource.location := AQICNDataSource.location a;
                AQICNDataSource.station := AQICNDataSource.station a;
                AQICNDataSource.overall_aqi := AQICNDataSource.overall_aqi a;
                AQICNDataSource.pollutants := pollutants m |}
      else Some a
  | None => None
  end.

Definition _fuse_data_sources
    (tempo_data : option TempoDataSource.reading)
    (openaq_data : option OpenAQDataSource.reading)
    (aqicn_data : option AQICNDataSource.reading)
    (weather_data_ : option WeatherDataSource.reading)
    (lat lon : Q) : M result :=
  primary_aqi <- _calculate_primary_aqi (preferred_sensor openaq_data aqicn_data) ;;
  let enhanced_metrics := _enhance_with_satellite_data primary_aqi tempo_data in
  let weather_adjusted := _apply_weather_corrections enhanced_metrics weather_data_ in
  ret {| location := (lat, lon);
         sources :=
           {| satellite := present tempo_data;
              ground_sensors := present openaq_data || present aqicn_data;
              aqicn := present aqicn_data;
              weather := present weather_data_ |};
         data_quality :=
           if present tempo_data
              && (present openaq_data || present aqicn_data)
              && present weather_data_
           then "high" else "medium";
         raw :=
           {| raw_tempo := tempo_data;
              raw_openaq := openaq_data;
              raw_aqicn := aqicn_after aqicn_data weather_adjusted;
              raw_weather := weather_data_ |};
         fused := weather_adjusted;
         data_source_errors := None |}.

(** [results[i] if not isinstance(results[i], Exception) else None] *)
Definition data_of {A} (o : outcome A) : option A :=
  match o with
  | Raised _ => None
  | Returned v => v
  end.

(** [errors[key] = str(results[i])] when the slot holds an exception. *)
Definition log_failure {A} (key : string) (o : outcome A)
    (errors : dict string string) : dict string string :=
  match o with
  | Raised message => Dict.set key message errors
  | Returned _ => errors
  end.

(** [not any([tempo_data, openaq_data, aqicn_data, weather_data])] *)
Definition all_sources_failed
    (tempo_data : option TempoDataSource.reading)
    (openaq_data : option OpenAQDataSource.reading)
    (aqicn_data : option AQICNDataSource.reading)
    (weather_data_ : option WeatherDataSource.reading) : bool :=
  negb (present tempo_data || present openaq_data
        || present aqicn_data || present weather_data_).

(** [asyncio.gather] over the four adapters. A coroutine draws its random
    numbers in one uninterrupted step; the satellite coroutine never
    awaits and so runs first, the AQICN coroutine draws nothing, and the
    ground and weather coroutines finish in the order the event loop
    decides, which [weather_first] records. *)
Definition gather (e : adapters) (weather_first : bool) (lat lon : Q)
    : M (outcome TempoDataSource.reading * outcome OpenAQDataSource.reading
         * outcome AQICNDataSource.reading * outcome WeatherDataSource.reading) :=
  r0 <- tempo_source e lat lon ;;
  r2 <- aqicn_source e lat lon ;;
  if weather_first then
    r3 <- weather_source e lat lon ;;
    r1 <- openaq_source e lat lon ;;
    ret (r0, r1, r2, r3)
  else
    r1 <- openaq_source e lat lon ;;
    r3 <- weather_source e lat lon ;;
    ret (r0, r1, r2, r3).

(** The body of [get_comprehensive_air_quality] below the [gather]: from
    the four result slots to the returned dictionary. *)
Definition fuse_results
    (results : outcome TempoDataSource.reading * outcome OpenAQDataSource.reading
               * outcome AQICNDataSource.reading * outcome WeatherDataSource.reading)
    (lat lon : Q) : M result :=
  let '(r0, r1, r2, r3) := results in
  let tempo_data := data_of r0 in
  let openaq_data := data_of r1 in
  let aqicn_data := data_of r2 in
  let weather_data_ := data_of r3 in
  let errors :=
    log_failure "weather" r3
      (log_failure "aqicn" r2
         (log_failure "openaq" r1
            (log_failure "tempo" r0 Dict.empty))) in
  openaq_data <-
    (if all_sources_failed tempo_data openaq_data aqicn_data weather_data_
     then r <- _generate_emergency_fallback_data lat lon ;; ret (Some r)
     else ret openaq_data) ;;
  combined_data <-
    _fuse_data_sources tempo_data openaq_data aqicn_data weather_data_ lat lon ;;
  ret (if Dict.truthy errors then
         {| location := location combined_data;
            sources := sources combined_data;
            data_quality := data_quality combined_data;
            raw := raw combined_data;
            fused := fused combined_data;
            data_source_errors := Some errors |}
       else combined_data).

Definition get_comprehensive_air_quality (e : adapters) (weather_first : bool)
    (lat lon : Q) : M result :=
  results <- gather e weather_first lat lon ;;
  fuse_results results lat lon.

(** The engine of the module: the global [data_fusion_engine], its four
    adapters reading the configuration and the network. None of them lets
    an exception escape. *)
Definition data_fusion_engine (cfg : Config) (net : Network) : adapters :=
  {| tempo_source := fun lat lon =>
       r <- TempoDataSource.get_satellite_data cfg lat lon ;; ret (Returned r);
     openaq_source := fun lat lon =>
       r <- OpenAQDataSource.get_ground_data (openaq_latest net) lat lon 50 ;;
       ret (Returned r);
     aqicn_source := fun lat lon =>
       ret (Returned (AQICNDataSource.get_aqicn_data cfg (waqi net) lat lon));
     weather_source := fun lat lon =>
       r <- WeatherDataSource.get_weather_data cfg (openweather_current net) lat lon ;;
       ret (Returned r) |}.

End Engine.

End DataFusionEngine.

(* ================================================================= *)
(** ** The forecast API of [src/api/main.py] *)

(** The [/forecast] endpoint and the functions under it. The clock
    ([datetime.utcnow().hour]) is an argument: the hour that iteration
    [i] of the forecast loop reads. The endpoints that return constants
    ([/health], [/aq/now], [/calendar/score], [/aqi/reference]) are left
    out. *)

Module Main.

(** [get_aqi_category] *)
Definition get_aqi_category (aqi : Z) : string :=
  if (aqi <=? 50)%Z then "Good"
  else if (aqi <=? 100)%Z then "Moderate"
  else if (aqi <=? 150)%Z then "Unhealthy for Sensitive Groups"
  else if (aqi <=? 200)%Z then "Unhealthy"
  else if (aqi <=? 300)%Z then "Very Unhealthy"
  else "Hazardous".

(** The dictionary that [get_health_recommendations] returns. *)
Record advice := {
  level : string;
  message : string;
  recommendations : list string;
  sensitive_groups : string;
  mask_needed : bool;
  outdoor_activities : string
}.

Definition get_health_recommendations (aqi : Z) : advice :=
  if (aqi <=? 50)%Z then
    {| level := "Good";
       message := "Air quality is excellent! Perfect for all outdoor activities.";
       recommendations :=
         [ "ðŸš´â€â™‚ï¸ Great time for outdoor exercise and activities";
           "ðŸŒ³ Enjoy walks in parks and nature";
           "ðŸƒâ€â™€ï¸ Perfect for jogging and running";
           "ðŸ‘¶ Safe for children to play outside" ]%string;
       sensitive_groups := "No precautions needed for any group";
       mask_needed := false;
       outdoor_activities := "Highly recommended" |}
  else if (aqi <=? 100)%Z then
    {| level := "Moderate";
       message := "Air quality is acceptable for most people.";
       recommendations :=
         [ "ðŸš¶â€â™‚ï¸ Outdoor activities are generally safe";
           "ðŸ‘¥ Sensitive individuals should consider reducing prolonged outdoor activities";
           "ðŸŒ… Early morning and evening are best times for outdoor exercise";
           "ðŸ’¨ Ensure good ventilation indoors" ]%string;
       sensitive_groups := "Sensitive individuals may experience minor symptoms";
       mask_needed := false;
       outdoor_activities := "Generally safe" |}
  else if (aqi <=? 150)%Z then
    {| level := "Unhealthy for Sensitive Groups";
       message := "Sensitive groups should take precautions.";
       recommendations :=
         [ "ðŸ˜· Consider wearing masks for sensitive individuals";
           "ðŸ  Limit prolonged outdoor activities for sensitive groups";
           "ðŸŒ¬ï¸ Use air purifiers indoors";
           "âš¡ Reduce outdoor exercise intensity";
           "ðŸ‘´ Elderly and children should stay indoors when possible" ]%string;
       sensitive_groups := "Children, elderly, and people with heart/lung conditions should limit outdoor exposure";
       mask_needed := true;
       outdoor_activities := "Limited for sensitive groups" |}
  else if (aqi <=? 200)%Z then
    {| level := "Unhealthy";
       message := "Everyone should take precautions to limit exposure.";
       recommendations :=
         [ "ðŸ˜· Wear N95 or equivalent masks when outdoors";
           "ðŸ  Stay indoors as much as possible";
           "ðŸš« Avoid outdoor exercise and strenuous activities";
           "ðŸªŸ Keep windows and doors closed";
           "ðŸŒ¬ï¸ Use HEPA air purifiers indoors";
           "ðŸ’Š Have medications ready if you have respiratory conditions" ]%string;
       sensitive_groups := "High risk - should avoid outdoor activities entirely";
       mask_needed := true;
       outdoor_activities := "Not recommended" |}
  else if (aqi <=? 300)%Z then
    {| level := "Very Unhealthy";
       message := "Health alert! Everyone should avoid outdoor activities.";
       recommendations :=
         [ "ðŸš¨ Emergency precautions - stay indoors";
           "ðŸ˜· Wear N95/P100 masks if you must go outside";
           "ðŸ¥ Seek medical attention if experiencing symptoms";
           "ðŸš« Cancel all outdoor activities and events";
           "ðŸŒ¬ï¸ Use multiple air purifiers and seal windows";
           "ðŸ“ž Check on elderly neighbors and relatives" ]%string;
       sensitive_groups := "Emergency risk - seek immediate medical attention if experiencing symptoms";
       mask_needed := true;
       outdoor_activities := "Strongly discouraged" |}
  else
    {| level := "Hazardous";
       message := "Health emergency! Avoid all outdoor exposure.";
       recommendations :=
         [ "ðŸ†˜ Emergency conditions - stay indoors immediately";
           "ðŸ˜· N95/P100 masks required for any outdoor exposure";
           "ðŸ¥ Seek immediate medical attention if experiencing any symptoms";
           "ðŸ“± Monitor local emergency alerts";
           "ðŸŒ¬ï¸ Seal all air leaks and use professional air filtration";
           "ðŸš¨ Consider evacuation if conditions persist" ]%string;
       sensitive_groups := "Life-threatening conditions - immediate medical attention may be required";
       mask_needed := true;
       outdoor_activities := "Prohibited" |}.

(** The ["real_time_sources"] of the first forecast entry. *)
Record real_time_sources_flags := {
  satellite_data : bool;
  ground_sensors : bool;
  weather_data : bool
}.

(** One entry of a forecast. The realistic forecast sets
    ["health_recommendations"] and ["real_time_sources"] on the entry of
    hour 0 only; the mock forecast has no ["real_time_sources"] and
    stores [None] under ["health_recommendations"] after hour 0. *)
Record forecast_entry := {
  hour : Z;
  aqi : Z;
  aqi_lower : Z;
  aqi_upper : Z;
  pm25 : Q;
  category : string;
  health_recommendations : option advice;
  real_time_sources : option real_time_sources_flags
}.

(** The dictionary that [/forecast] returns; the mock forecast has no
    ["real_time_data"], ["data_sources"] and ["data_quality"]. *)
Record forecast_response := {
  lat : Q;
  lon : Q;
  forecast : list forecast_entry;
  real_time_data : option DataFusionEngine.result;
  model : string;
  data_sources : option DataFusionEngine.data_sources;
  data_quality : option string
}.

(** [range(n)] *)
Definition range (n : Z) : list Z := map Z.of_nat (seq 0 (Z.to_nat n)).

(** [max(0, x)] on floats *)
Definition max0 (x : Q) : Q := if Py.ltb 0 x then x else 0.

(** The daily pattern of [generate_realistic_forecast]. *)
Definition daily_factor (hour_of_day : Z) : Q :=
  if ((7 <=? hour_of_day) && (hour_of_day <=? 9)
      || (17 <=? hour_of_day) && (hour_of_day <=? 19))%Z then 1.2
  else if ((22 <=? hour_of_day) || (hour_of_day <=? 5))%Z then 0.8
  else if ((10 <=? hour_of_day) && (hour_of_day <=? 16))%Z then 1.1
  else 1.0.

(** The weather influence of [generate_realistic_forecast] at hour [i]. *)
Definition weather_factor (weather_impact : string) (i : Z) : Q :=
  if String.eqb weather_impact "good_dispersion" then 0.9 - inject_Z i * 0.01
  else if String.eqb weather_impact "poor_dispersion" then 1.1 + inject_Z i * 0.01
  else if String.eqb weather_impact "cleansing" then 0.8 + inject_Z i * 0.02
  else 1.0.

(** [real_time_data.get("weather_data", {}).get("air_quality_impact", "moderate")] *)
Definition weather_impact_of (real_time_data_ : DataFusionEngine.result) : string :=
  match DataFusionEngine.weather_data (DataFusionEngine.fused real_time_data_) with
  | Some w => WeatherDataSource.air_quality_impact w
  | None => "moderate"
  end.

(** The body of the loop of [generate_realistic_forecast] for hour [i];
    [None] is the [TypeError] of multiplying a PM2.5 value that is
    [None]. *)
Definition realistic_hour (utc_hour : Z -> Z) (current_aqi : Q)
    (current_pm25 : option Q) (real_time_data_ : DataFusionEngine.result) (i : Z)
    : option forecast_entry :=
  let weather_impact := weather_impact_of real_time_data_ in
  let hour_of_day := ((utc_hour i + i) mod 24)%Z in
  let daily := daily_factor hour_of_day in
  let weather := weather_factor weather_impact i in
  let forecasted_aqi := Z.max 5 (Z.min 300 (Py.int (current_aqi * daily * weather))) in
  match current_pm25 with
  | None => None
  | Some pm =>
      let forecasted_pm25 := max0 (pm * daily * weather) in
      let uncertainty := (10 + i * 2)%Z in
      let lower_bound := Z.max 0 (forecasted_aqi - uncertainty) in
      let upper_bound := Z.min 500 (forecasted_aqi + uncertainty) in
      Some {| hour := i;
              aqi := forecasted_aqi;
              aqi_lower := lower_bound;
              aqi_upper := upper_bound;
              pm25 := Py.round_n forecasted_pm25 1;
              category := get_aqi_category forecasted_aqi;
              health_recommendations :=
                if (i =? 0)%Z then Some (get_health_recommendations forecasted_aqi)
                else None;
              real_time_sources :=
                if (i =? 0)%Z then
                  let flags := DataFusionEngine.sources real_time_data_ in
                  Some {| satellite_data := DataFusionEngine.satellite flags;
                          ground_sensors := DataFusionEngine.ground_sensors flags;
                          weather_data := DataFusionEngine.weather flags |}
                else None |}
  end.

(** A loop that appends one entry per item and stops at the first
    exception. *)
Fixpoint collect {A B} (body : A -> option B) (items : list A) : option (list B) :=
  match items with
  | [] => Some []
  | x :: rest =>
      match body x with
      | None => None
      | Some y =>
          match collect body rest with
          | None => None
          | Some ys => Some (y :: ys)
          end
      end
  end.

Definition generate_realistic_forecast (utc_hour : Z -> Z) (lat_ lon_ : Q)
    (current_aqi : Q) (current_pm25 : option Q) (horizon : Z)
    (real_time_data_ : DataFusionEngine.result) : option (list forecast_entry) :=
  collect (realistic_hour utc_hour current_aqi current_pm25 real_time_data_)
    (range horizon).

(** [real_time_data.get("weather_adjusted_aqi") or real_time_data.get("overall_aqi", 50)];
    the fused result always holds ["overall_aqi"]. *)
Definition current_aqi_of (real_time_data_ : DataFusionEngine.result) : Q :=
  let m := DataFusionEngine.fused real_time_data_ in
  match DataFusionEngine.weather_adjusted_aqi m with
  | Some a => if (a =? 0)%Z then DataFusionEngine.overall_aqi m else inject_Z a
  | None => DataFusionEngine.overall_aqi m
  end.

(** The PM2.5 value of the current conditions: the ["value"] of the
    ["pm25"] pollutant, which may be [None], or 0.4 times the index. *)
Definition current_pm25_of (real_time_data_ : DataFusionEngine.result)
    (current_aqi : Q) : option Q :=
  match Dict.get "pm25"%string
          (DataFusionEngine.pollutants (DataFusionEngine.fused real_time_data_)) with
  | Some entry => Pollutant.value entry
  | None => Some (current_aqi * 0.4)
  end.

Section Endpoints.

Context `{PyLib}.

(** A loop whose body draws random numbers. *)
Fixpoint for_each {A B} (body : A -> M B) (items : list A) : M (list B) :=
  match items with
  | [] => ret []
  | x :: rest =>
      y <- body x ;;
      ys <- for_each body rest ;;
      ret (y :: ys)
  end.

(** [f"{lat:.2f},{lon:.2f}"] hashed into the seed of the mock forecast. *)
Definition location_seed (lat_ lon_ : Q) : Z :=
  md5_hex8 (Py.format_f 2 lat_ ++ "," ++ Py.format_f 2 lon_)%string.

(** The daily pattern of [generate_mock_forecast]. *)
Definition mock_daily_factor (hour_of_day : Z) : Q :=
  if ((7 <=? hour_of_day) && (hour_of_day <=? 9)
      || (17 <=? hour_of_day) && (hour_of_day <=? 19))%Z then 1.3
  else if ((22 <=? hour_of_day) || (hour_of_day <=? 5))%Z then 0.7
  else 1.0.

(** The body of the loop of [generate_mock_forecast] for hour [i]: four
    draws, in the order the code makes them. *)
Definition mock_hour (base_aqi : Z) (i : Z) : M forecast_entry :=
  let hour_of_day := (i mod 24)%Z in
  let daily := mock_daily_factor hour_of_day in
  u <- Random.uniform (-0.1) 0.1 ;;
  let trend_factor := 1 + inject_Z i * 0.02 + u in
  let aqi_ := Z.max 5 (Z.min 300 (Py.int (inject_Z base_aqi * daily * trend_factor))) in
  below <- Random.randint 15 25 ;;
  let lower_bound := Z.max 0 (aqi_ - below) in
  above <- Random.randint 15 25 ;;
  let upper_bound := Z.min 500 (aqi_ + above) in
  v <- Random.uniform (-2) 2 ;;
  ret {| hour := i;
         aqi := aqi_;
         aqi_lower := lower_bound;
         aqi_upper := upper_bound;
         pm25 := Py.round_n (inject_Z aqi_ * 0.3 + v) 1;
         category := get_aqi_category aqi_;
         health_recommendations :=
           if (i =? 0)%Z then Some (get_health_recommendations aqi_) else None;
         real_time_sources := None |}.

(** The base index of the mock forecast: location part, random part and
    clamp. *)
Definition mock_base_aqi (lat_ lon_ : Q) : M Z :=
  let base_aqi := (30 + Py.int ((Py.abs lat_ + Py.abs lon_) * 2) mod 120)%Z in
  k <- Random.randint (-15) 15 ;;
  ret (Z.max 10 (Z.min 200 (base_aqi + k))).

Definition generate_mock_forecast (lat_ lon_ : Q) (horizon : Z) : M forecast_response :=
  Random.seed (location_seed lat_ lon_) ;;;
  base_aqi <- mock_base_aqi lat_ lon_ ;;
  forecast_data <- for_each (mock_hour base_aqi) (range horizon) ;;
  ret {| lat := lat_;
         lon := lon_;
         forecast := forecast_data;
         real_time_data := None;
         model := "mock_data_fallback";
         data_sources := None;
         data_quality := None |}.

(** [get_air_quality_forecast], the [/forecast] endpoint, on the engine
    of the given configuration and network. An exception of the forecast
    ends in the mock forecast. *)
Definition get_air_quality_forecast (cfg : Config) (net : DataFusionEngine.Network)
    (weather_first : bool) (utc_hour : Z -> Z)
    (lat_ lon_ : Q) (horizon : Z) (use_real_data : bool) : M forecast_response :=
  if use_real_data then
    real_time_data_ <-
      DataFusionEngine.get_comprehensive_air_quality
        (DataFusionEngine.data_fusion_engine cfg net) weather_first lat_ lon_ ;;
    let current_aqi := current_aqi_of real_time_data_ in
    let current_pm25 := current_pm25_of real_time_data_ current_aqi in
    match generate_realistic_forecast utc_hour lat_ lon_ current_aqi current_pm25
            horizon real_time_data_ with
    | Some forecast_data =>
        ret {| lat := lat_;
               lon := lon_;
               forecast := forecast_data;
               real_time_data := Some real_time_data_;
               model := "tempo_openaq_integrated_v1";
               data_sources := Some (DataFusionEngine.sources real_time_data_);
               data_quality := Some (DataFusionEngine.data_quality real_time_data_) |}
    | None => generate_mock_forecast lat_ lon_ horizon
    end
  else generate_mock_forecast lat_ lon_ horizon.

End Endpoints.

End Main.

(* ================================================================= *)
(** ** A library instance to run the model on *)

(** A small deterministic instance of [PyLib]: a linear congruential
    generator, a checksum for the digest and a taxicab distance. The
    theorems below hold for every instance; this one lets the model be
    evaluated on concrete requests. *)
Module Sample.

Definition next (s : Z) : Z := ((s * 1103515245 + 12345) mod 2147483648)%Z.

Definition random (s : Z) : Q * Z := (inject_Z (s mod 1024) / 1024, next s).

Definition randbelow (n s : Z) : Z * Z := ((s mod n)%Z, next s).

Fixpoint checksum (s : string) (acc : Z) : Z :=
  match s with
  | EmptyString => acc
  | String c rest =>
      checksum rest ((acc * 31 + Z.of_nat (nat_of_ascii c)) mod 4294967296)%Z
  end.

Definition taxicab_km (p q : Q * Q) : option Q :=
  Some (111 * (Qabs (fst p - fst q) + Qabs (snd p - snd q))).

Definition lib : PyLib.
Proof.
  refine {| md5_hex8 := fun s => checksum s 0;
            rng := Z;
            rng_seed := fun n => n;
            rng_random := random;
            rng_randbelow := randbelow;
            rng_random_range := _;
            rng_randbelow_range := _;
            geodesic_km := taxicab_km;
            geodesic_km_nonneg := _ |}.
  - intro s. unfold random. simpl fst.
    pose proof (Z.mod_pos_bound s 1024 ltac:(lia)) as [Hlo Hhi].
    split.
    + apply Qle_shift_div_l; [reflexivity|].
      rewrite Qmult_0_l. change 0 with (inject_Z 0). now rewrite <- Zle_Qle.
    + apply Qlt_shift_div_r; [reflexivity|].
      rewrite Qmult_1_l. change 1024 with (inject_Z 1024). now rewrite <- Zlt_Qlt.
  - intros n s Hn. simpl. now apply Z.mod_pos_bound.
  - intros p q d E.
    assert (Hd : d = 111 * (Qabs (fst p - fst q) + Qabs (snd p - snd q)))
      by (unfold taxicab_km in E; congruence).
    rewrite Hd. clear E Hd.
    pose proof (Qabs_nonneg (fst p - fst q)) as Ha.
    pose proof (Qabs_nonneg (snd p - snd q)) as Hb.
    set (a := Qabs (fst p - fst q)) in *. set (b := Qabs (snd p - snd q)) in *.
    clearbody a b. apply Qmult_le_0_compat; [discriminate | lra].
Defined.

End Sample.

(* ================================================================= *)
(** * Definitions for the statements *)

Import DataFusionEngine.

Unset Implicit Arguments.

(** ** Readings and engines to state the scenarios with *)

(** A ground reading with the given averaged measurements. *)
Definition ground_reading (averaged : dict string OpenAQDataSource.averaged)
    : OpenAQDataSource.reading :=
  {| OpenAQDataSource.r_source := "OpenAQ";
     OpenAQDataSource.r_type := "ground_sensors";
     OpenAQDataSource.location := (0, 0);
     OpenAQDataSource.stations_count := 0;
     OpenAQDataSource.stations_data := [];
     OpenAQDataSource.averaged_measurements := averaged |}.

Definition averaged_of (v : Q) : OpenAQDataSource.averaged :=
  {| OpenAQDataSource.avg_value := v; OpenAQDataSource.confidence := 100 |}.

(** A weather reading with the given dispersion impact. *)
Definition weather_reading (impact : string) : WeatherDataSource.reading :=
  {| WeatherDataSource.source := "OpenWeather";
     WeatherDataSource.type := "weather";
     WeatherDataSource.temperature := None;
     WeatherDataSource.humidity := None;
     WeatherDataSource.pressure := None;
     WeatherDataSource.wind_speed := None;
     WeatherDataSource.wind_direction := None;
     WeatherDataSource.visibility := None;
     WeatherDataSource.weather_condition := None;
     WeatherDataSource.air_quality_impact := impact |}.

(** An AQICN reading with the given overall index and no pollutants. *)
Definition aqicn_reading (index : option Q) : AQICNDataSource.reading :=
  {| AQICNDataSource.source := "AQICN (World Air Quality Index)";
     AQICNDataSource.type := "ground_sensors";
     AQICNDataSource.location := (0, 0);
     AQICNDataSource.station :=
       {| AQICNDataSource.name := "Unknown Station";
          AQICNDataSource.coordinates := [0; 0];
          AQICNDataSource.station_url := EmptyString |};
     AQICNDataSource.overall_aqi := index;
     AQICNDataSource.pollutants := Dict.empty |}.

(** The ozone and nitrogen dioxide concentrations of a ground reading are
    not negative. *)
Definition gas_concentrations_nonneg (g : OpenAQDataSource.reading) : Prop :=
  forall key m,
    key = "o3"%string \/ key = "no2"%string ->
    Dict.get key (OpenAQDataSource.averaged_measurements g) = Some m ->
    0 <= OpenAQDataSource.avg_value m.

(** The ground reading that enters the fusion. *)
Definition fused_ground `{PyLib}
    (r0 : outcome TempoDataSource.reading) (r1 : outcome OpenAQDataSource.reading)
    (r2 : outcome AQICNDataSource.reading) (r3 : outcome WeatherDataSource.reading)
    (lat lon : Q) (s : rng) : option OpenAQDataSource.reading :=
  if all_sources_failed (data_of r0) (data_of r1) (data_of r2) (data_of r3)
  then Some (fst (_generate_emergency_fallback_data lat lon s))
  else data_of r1.

Definition logged_errors
    (r0 : outcome TempoDataSource.reading) (r1 : outcome OpenAQDataSource.reading)
    (r2 : outcome AQICNDataSource.reading) (r3 : outcome WeatherDataSource.reading)
    : dict string string :=
  log_failure "weather" r3
    (log_failure "aqicn" r2
       (log_failure "openaq" r1
          (log_failure "tempo" r0 Dict.empty))).

(** An adapter that is forced to fail: every call raises. *)
Definition always_raises `{PyLib} {A} (fetch : Q -> Q -> M (outcome A)) : Prop :=
  forall lat lon s, exists message, fst (fetch lat lon s) = Raised message.

(** The engine whose four adapters raise. *)
Definition failing_engine `{PyLib} : adapters :=
  {| tempo_source := fun _ _ => ret (Raised "satellite down");
     openaq_source := fun _ _ => ret (Raised "ground sensors down");
     aqicn_source := fun _ _ => ret (Raised "aqicn down");
     weather_source := fun _ _ => ret (Raised "weather down") |}.

(** A configuration with the given satellite token and no other key, and a
    network on which every request fails. *)
Definition config_with_token (token : option string) : Config :=
  {| NASA_TEMPO_TOKEN := token;
     OPENAQ_API_KEY := None;
     WAQI_API_KEY := None;
     OPENWEATHER_API_KEY := None |}.

Definition unreachable_network : Network :=
  {| openaq_latest := fun _ _ _ _ => HttpRaises;
     openweather_current := fun _ _ => HttpRaises;
     waqi := {| AQICNDataSource.feed_geo := fun _ _ => HttpRaises;
                AQICNDataSource.search := fun _ _ => HttpRaises;
                AQICNDataSource.feed_station := fun _ => HttpRaises |} |}.

(** A station at the given distance that reports one PM2.5 value. *)
Definition pm25_station (distance value_ : Q) : OpenAQDataSource.station :=
  {| OpenAQDataSource.name := None;
     OpenAQDataSource.coordinates := OpenAQDataSource.no_coordinates;
     OpenAQDataSource.distance_km := distance;
     OpenAQDataSource.measurements :=
       [ ("pm25"%string,
          {| OpenAQDataSource.value := Some value_;
             OpenAQDataSource.unit := None;
             OpenAQDataSource.source := None |}) ] |}.

(** The pollutant values of a synthesized ground reading: the averaged
    measurements and the measurements of its stations. *)
Definition pollutant_values (g : OpenAQDataSource.reading)
    : dict string OpenAQDataSource.averaged
      * list (dict string OpenAQDataSource.measurement) :=
  (OpenAQDataSource.averaged_measurements g,
   map OpenAQDataSource.measurements (OpenAQDataSource.stations_data g)).

(** The synthesized ground reading and weather reading, as the adapters
    return them. *)
Definition synthesized_ground `{PyLib} (lat lon : Q)
    : M (option OpenAQDataSource.reading) :=
  r <- OpenAQDataSource._generate_mock_openaq_data lat lon ;; ret (Some r).

Definition synthesized_weather `{PyLib} (lat lon : Q)
    : M (option WeatherDataSource.reading) :=
  r <- WeatherDataSource._get_mock_weather_data lat lon ;; ret (Some r).

(** A response that is an error for the adapter: the request raised, the
    status is not 200, or the body cannot be read. *)
Definition failed {A} (response : http A) : Prop :=
  match response with
  | HttpRaises => True
  | HttpResponse status json => status <> 200%Z \/ json = None
  end.

(** A response that holds no result. *)
Definition holds_nothing {A} (response : http (list A)) : Prop :=
  response = HttpResponse 200 (Some []).

(** ** Quantized coordinates *)

(** Two coordinates that [f"{x:.3f}"] prints alike: the same sign and, in
    absolute value, the same rounding to three decimal places. *)
Definition same_quantized (x y : Q) : Prop :=
  Py.ltb x 0 = Py.ltb y 0
  /\ Py.round (Py.abs x * Py.pow10 3) = Py.round (Py.abs y * Py.pow10 3).

(** The pollutant values of an emergency reading with the six offsets
    [u1 .. u6]: the averaged measurements and the measurements of its one
    station. *)
Definition emergency_values_at (lat lon u1 u2 u3 u4 u5 u6 : Q)
    : dict string OpenAQDataSource.averaged
      * list (dict string OpenAQDataSource.measurement) :=
  ([ ("pm25"%string,
      {| OpenAQDataSource.avg_value := Py.round_n (pm25_base lat lon + u4) 1;
         OpenAQDataSource.confidence := 50 |});
     ("pm10"%string,
      {| OpenAQDataSource.avg_value := Py.round_n (pm10_base lat lon + u5) 1;
         OpenAQDataSource.confidence := 50 |});
     ("no2"%string,
      {| OpenAQDataSource.avg_value := Py.round_n (no2_base lat + u6) 1;
         OpenAQDataSource.confidence := 45 |}) ],
   [ [ ("pm25"%string, emergency_estimate (pm25_base lat lon + u1));
       ("pm10"%string, emergency_estimate (pm10_base lat lon + u2));
       ("no2"%string, emergency_estimate (no2_base lat + u3)) ] ]).

(** ** Stations of a result list *)

(** The locations of a result list, each once, in the order of their
    first appearance. *)
Definition first_seen (locations : list (option string)) : list (option string) :=
  fold_left (fun seen loc =>
               if existsb (Dict.key_eqb loc) seen then seen else seen ++ [loc])
    locations [].

(** Every station is stored under its own name. *)
Definition named (stations : dict (option string) OpenAQDataSource.station) : Prop :=
  Forall (fun item => OpenAQDataSource.name (snd item) = fst item) stations.

(** ** Forecast entries *)

(** What the realistic forecast guarantees for the entry of hour [i]. *)
Definition realistic_entry_ok (i : Z) (e : Main.forecast_entry) : Prop :=
  Main.hour e = i
  /\ (5 <= Main.aqi e <= 300)%Z
  /\ (0 <= Main.aqi_lower e < Main.aqi e)%Z
  /\ (Main.aqi e < Main.aqi_upper e <= 500)%Z
  /\ 0 <= Main.pm25 e
  /\ Main.category e = Main.get_aqi_category (Main.aqi e)
  /\ Main.category e <> "Hazardous"%string
  /\ match Main.health_recommendations e with
     | Some advice => i = 0%Z /\ Main.level advice = Main.category e
     | None => i <> 0%Z
     end
  /\ match Main.real_time_sources e with
     | Some _ => i = 0%Z
     | None => i <> 0%Z
     end.

(** What the mock forecast guarantees for the entry of hour [i]. *)
Definition mock_entry_ok (i : Z) (e : Main.forecast_entry) : Prop :=
  Main.hour e = i
  /\ (5 <= Main.aqi e <= 300)%Z
  /\ (0 <= Main.aqi_lower e <= Main.aqi e - 5)%Z
  /\ (Main.aqi e - 25 <= Main.aqi_lower e)%Z
  /\ (Main.aqi e + 15 <= Main.aqi_upper e <= Main.aqi e + 25)%Z
  /\ -0.5 <= Main.pm25 e <= 92
  /\ Main.category e = Main.get_aqi_category (Main.aqi e)
  /\ Main.category e <> "Hazardous"%string
  /\ Main.real_time_sources e = None
  /\ match Main.health_recommendations e with
     | Some advice => i = 0%Z /\ Main.level advice = Main.category e
     | None => i <> 0%Z
     end.

(** ** The specification's formulas *)

(** The adjustment in the words of the specification:
    [clamp(round(overall_index * factor), 0, 500)]. *)
Definition specified_weather_adjusted (overall_index factor : Q) : Z :=
  Z.max 0 (Z.min 500 (Py.round (overall_index * factor))).

(** The indices of the pollutants that are present, in the words of the
    specification: each of pm25, o3 and no2 that the averaged measurements
    hold, converted. *)
Definition specified_indices (measurements : dict string OpenAQDataSource.averaged)
    : list Q :=
  let converted (key : string) (to_index : Q -> Q) :=
    match Dict.get key measurements with
    | Some m => [to_index (OpenAQDataSource.avg_value m)]
    | None => []
    end in
  converted "pm25"%string (fun c => inject_Z (_pm25_to_aqi c))
  ++ converted "o3"%string _o3_to_aqi
  ++ converted "no2"%string _no2_to_aqi.

(** The selection rule in the words of the specification: the index of
    an AQICN reading that has one, with confidence "high"; otherwise the
    maximum of the converted indices of the ground reading, 50 when there
    is none, with confidence "high" for two or more of them and "medium"
    for fewer. *)
Definition specified_primary (aqicn_data : option AQICNDataSource.reading)
    (openaq_data : option OpenAQDataSource.reading) : Q * string :=
  let from_ground :=
    let indices :=
      match openaq_data with
      | Some g => specified_indices (OpenAQDataSource.averaged_measurements g)
      | None => []
      end in
    (max_or_50 indices,
     if (2 <=? List.length indices)%nat then "high" else "medium")%string in
  match aqicn_data with
  | Some a =>
      match AQICNDataSource.overall_aqi a with
      | Some i => (i, "high"%string)
      | None => from_ground
      end
  | None => from_ground
  end.

(** ** The sums of the spatial averaging *)

Module Averaging.

Import OpenAQDataSource.

(** The inverse-distance weight of a station. *)
Definition weight_of (st : station) : Q := 1 / (distance_km st + 1).

(** The value a station reports for a pollutant, when it reports one. *)
Definition reported (param : string) (st : station) : option Q :=
  match Dict.get param (measurements st) with
  | Some m => value m
  | None => None
  end.

(** The [(value, weight)] pairs of the stations that report a pollutant. *)
Definition reports (param : string) (sts : list station) : list (Q * Q) :=
  flat_map (fun st => match reported param st with
                      | Some v => [(v, weight_of st)]
                      | None => []
                      end) sts.

Definition sum_list (xs : list Q) : Q := fold_right Qplus 0 xs.

(** The two sums of the specification: [Σ(value·weight)] and [Σ(weight)]
    over the stations that report the pollutant. *)
Definition weighted_sum (param : string) (sts : list station) : Q :=
  sum_list (map (fun vw => fst vw * snd vw) (reports param sts)).

Definition weight_sum (param : string) (sts : list station) : Q :=
  sum_list (map snd (reports param sts)).

(** A station as the averaging expects it: a distance that is not
    negative and a measurements dictionary. *)
Definition well_formed (st : station) : Prop :=
  0 <= distance_km st /\ Dict.wf (measurements st).

Definition zero_sums : sums := {| total_value := 0; total_weight := 0 |}.

Definition sums_or_zero (o : option sums) : sums :=
  match o with Some acc => acc | None => zero_sums end.

(** What one measurement adds to the running sums of its parameter. *)
Definition add_to (weight : Q) (m : measurement) (acc : sums) : sums :=
  match value m with
  | Some v => {| total_value := total_value acc + v * weight;
                 total_weight := total_weight acc + weight |}
  | None => acc
  end.

End Averaging.

(* ================================================================= *)
(** * Properties *)

(** ** Facts about the Python numerics *)

Set Implicit Arguments.

Module PyFacts.

Import Py.

Lemma leb_le x y : leb x y = true <-> x <= y.
Proof. apply Qle_bool_iff. Qed.

Lemma leb_gt x y : leb x y = false <-> y < x.
Proof.
  unfold leb. split; intro H.
  - apply Qnot_le_lt. intro L. apply Qle_bool_iff in L. congruence.
  - destruct (Qle_bool x y) eqn:E; [|reflexivity].
    apply Qle_bool_iff in E. apply Qle_not_lt in E. contradiction.
Qed.

Lemma ltb_lt x y : ltb x y = true <-> x < y.
Proof.
  unfold ltb. rewrite negb_true_iff. apply leb_gt.
Qed.

Lemma ltb_ge x y : ltb x y = false <-> y <= x.
Proof.
  unfold ltb. rewrite negb_false_iff. apply leb_le.
Qed.

Lemma round_floor_bounds x : (Qfloor x <= round x <= Qfloor x + 1)%Z.
Proof.
  unfold round.
  destruct (x - inject_Z (Qfloor x) ?= 1 # 2); [destruct (Z.even _)| |]; lia.
Qed.

(** Rounding never crosses an integer: an integer below [x] stays below
    [round x], and one above stays above. *)
Lemma round_ge_Z (z : Z) x : inject_Z z <= x -> (z <= round x)%Z.
Proof.
  intro H. apply Qfloor_resp_le in H. rewrite Qfloor_Z in H.
  pose proof (round_floor_bounds x). lia.
Qed.

Lemma round_le_Z (z : Z) x : x <= inject_Z z -> (round x <= z)%Z.
Proof.
  intro H.
  assert (Hf : (Qfloor x <= z)%Z).
  { apply Qfloor_resp_le in H. now rewrite Qfloor_Z in H. }
  destruct (Z.eq_dec (Qfloor x) z) as [E|NE].
  - unfold round. rewrite E.
    assert (Hx : x - inject_Z z <= 0) by lra.
    destruct (x - inject_Z z ?= 1 # 2) eqn:C.
    + apply Qeq_alt in C. lra.
    + lia.
    + apply Qgt_alt in C. lra.
  - pose proof (round_floor_bounds x). lia.
Qed.

Lemma round_Z (z : Z) : round (inject_Z z) = z.
Proof.
  apply Z.le_antisymm; [apply round_le_Z | apply round_ge_Z]; apply Qle_refl.
Qed.

Lemma round_comp x y : x == y -> round x = round y.
Proof.
  intro H. unfold round. rewrite (Qfloor_comp _ _ H).
  assert (E : (x - inject_Z (Qfloor y) ?= 1 # 2) = (y - inject_Z (Qfloor y) ?= 1 # 2)).
  { apply Qcompare_comp; [rewrite H|]; reflexivity. }
  now rewrite E.
Qed.

Lemma pow10_pos n : 0 < pow10 n.
Proof.
  unfold pow10. change 0 with (inject_Z 0). rewrite <- Zlt_Qlt.
  apply Z.pow_pos_nonneg; lia.
Qed.

Lemma round_n_ge_Z (z : Z) x n : inject_Z z <= x -> inject_Z z <= round_n x n.
Proof.
  intro H. unfold round_n. pose proof (pow10_pos n) as Hp.
  apply Qle_shift_div_l; [exact Hp|].
  unfold pow10 in *. rewrite <- inject_Z_mult, <- Zle_Qle.
  apply round_ge_Z. rewrite inject_Z_mult.
  apply Qmult_le_compat_r; [exact H | now apply Qlt_le_weak].
Qed.

Lemma round_n_le_Z (z : Z) x n : x <= inject_Z z -> round_n x n <= inject_Z z.
Proof.
  intro H. unfold round_n. pose proof (pow10_pos n) as Hp.
  apply Qle_shift_div_r; [exact Hp|].
  unfold pow10 in *. rewrite <- inject_Z_mult, <- Zle_Qle.
  apply round_le_Z. rewrite inject_Z_mult.
  apply Qmult_le_compat_r; [exact H | now apply Qlt_le_weak].
Qed.

Lemma int_nonneg x : 0 <= x -> (0 <= int x)%Z /\ inject_Z (int x) <= x.
Proof.
  intro H. unfold int.
  assert (E : leb 0 x = true) by now apply leb_le.
  rewrite E. split.
  - apply Qfloor_resp_le in H. exact H.
  - apply Qfloor_le.
Qed.

Lemma int_le_Z (z : Z) x : 0 <= x -> x <= inject_Z z -> (0 <= int x <= z)%Z.
Proof.
  intros H0 Hz. destruct (int_nonneg H0) as [Ha Hb]. split; [exact Ha|].
  rewrite Zle_Qle. lra.
Qed.

Lemma int_Z (z : Z) : int (inject_Z z) = z.
Proof.
  unfold int. destruct (leb 0 (inject_Z z)); [apply Qfloor_Z | apply Qceiling_Z].
Qed.

Lemma fmod_range x m : 0 < m -> 0 <= fmod x m /\ fmod x m < m.
Proof.
  intro Hm. unfold fmod.
  pose proof (Qfloor_le (x / m)) as Hlo.
  pose proof (Qlt_floor (x / m)) as Hhi.
  rewrite inject_Z_plus in Hhi.
  assert (Hx : x == (x / m) * m) by (field; lra).
  set (q := x / m) in *. set (f := inject_Z (Qfloor q)) in *.
  change (inject_Z 1) with 1 in Hhi.
  split.
  - assert (f * m <= q * m) by (apply Qmult_le_compat_r; lra). lra.
  - assert (q * m < (f + 1) * m) by (apply Qmult_lt_compat_r; lra). lra.
Qed.

Lemma max_list_ge_init x xs : x <= max_list x xs.
Proof.
  unfold max_list. revert x. induction xs as [|y ys IH]; intro x; simpl.
  - apply Qle_refl.
  - destruct (ltb x y) eqn:E.
    + apply ltb_lt in E. specialize (IH y). lra.
    + apply IH.
Qed.

Lemma max_list_bounds lo hi x xs :
  lo <= x <= hi -> Forall (fun y => lo <= y <= hi) xs ->
  lo <= max_list x xs <= hi.
Proof.
  unfold max_list. revert x. induction xs as [|y ys IH]; intros x Hx Hall; simpl.
  - exact Hx.
  - inversion Hall; subst. destruct (ltb x y); apply IH; assumption.
Qed.

End PyFacts.

(** ** Facts about dictionaries *)

Module DictFacts.

Import Dict.

Section Facts.

Context {K V : Type} `{EqKey K}.

Implicit Types (k : K) (v : V) (d : dict K V).

Lemma key_eqb_refl (k : K) : key_eqb k k = true.
Proof. now apply key_eqb_eq. Qed.

Lemma key_eqb_neq (a b : K) : a <> b -> key_eqb a b = false.
Proof.
  intro N. destruct (key_eqb a b) eqn:E; [|reflexivity].
  apply key_eqb_eq in E. contradiction.
Qed.

Lemma get_set_same k v d : get k (set k v d) = Some v.
Proof.
  induction d as [|[k' v'] rest IH]; simpl.
  - now rewrite key_eqb_refl.
  - destruct (key_eqb k k') eqn:E; simpl.
    + now rewrite key_eqb_refl.
    + now rewrite E.
Qed.

Lemma get_set_other k k' v d : k <> k' -> get k' (set k v d) = get k' d.
Proof.
  intro N. induction d as [|[k0 v0] rest IH]; simpl.
  - rewrite key_eqb_neq; [reflexivity | congruence].
  - destruct (key_eqb k k0) eqn:E; simpl.
    + apply key_eqb_eq in E. subst k0.
      rewrite key_eqb_neq; [reflexivity | congruence].
    + now rewrite IH.
Qed.

Lemma keys_set_In k v d k' : In k' (keys (set k v d)) <-> k' = k \/ In k' (keys d).
Proof.
  unfold keys. induction d as [|[k0 v0] rest IH]; simpl.
  - intuition.
  - destruct (key_eqb k k0) eqn:E; simpl.
    + apply key_eqb_eq in E. subst k0. intuition.
    + rewrite IH. intuition.
Qed.

Lemma wf_empty : wf (@empty K V).
Proof. constructor. Qed.

Lemma wf_set k v d : wf d -> wf (set k v d).
Proof.
  unfold wf. induction d as [|[k0 v0] rest IH]; simpl; intro W.
  - constructor; [intros []|constructor].
  - inversion W as [|? ? Hnot Hrest]; subst.
    destruct (key_eqb k k0) eqn:E; simpl.
    + apply key_eqb_eq in E. subst k0. now constructor.
    + constructor; [|now apply IH].
      intro Hin. apply keys_set_In in Hin. destruct Hin as [->|Hin].
      * rewrite key_eqb_refl in E. discriminate.
      * contradiction.
Qed.

Lemma get_None_notin k d : get k d = None <-> ~ In k (keys d).
Proof.
  unfold keys. induction d as [|[k0 v0] rest IH]; simpl.
  - intuition.
  - destruct (key_eqb k k0) eqn:E.
    + apply key_eqb_eq in E. subst. split; [discriminate | intuition].
    + rewrite IH. split.
      * intros Hn [->|Hin]; [rewrite key_eqb_refl in E; discriminate | auto].
      * intuition.
Qed.

Lemma contains_set k k' v d :
  contains k' (set k v d) = key_eqb k' k || contains k' d.
Proof.
  unfold contains. destruct (key_eqb k' k) eqn:E; simpl.
  - apply key_eqb_eq in E. subst. now rewrite get_set_same.
  - rewrite get_set_other; [reflexivity|].
    intro; subst. rewrite key_eqb_refl in E. discriminate.
Qed.

End Facts.

End DictFacts.

(** ** Facts about the random draws *)

Module RandomFacts.

Import Random.

Section Facts.

Context `{PyLib}.

Lemma uniform_range a b s :
  a <= b -> a <= fst (uniform a b s) <= b.
Proof.
  intro Hab. unfold uniform, bind, random, ret.
  pose proof (rng_random_range s) as [H0 H1].
  destruct (rng_random s) as [u s']. simpl in *.
  split; nra.
Qed.

Lemma randint_range a b s :
  (a <= b)%Z -> (a <= fst (randint a b s) <= b)%Z.
Proof.
  intro Hab. unfold randint.
  pose proof (@rng_randbelow_range _ (b - a + 1)%Z s ltac:(lia)) as Hr.
  destruct (rng_randbelow (b - a + 1) s) as [k s']. simpl in *. lia.
Qed.

End Facts.

End RandomFacts.

Unset Implicit Arguments.

(** ** Proof tools *)

(** Settle every comparison of the goal whose outcome follows from the
    linear facts in the context. *)
Ltac settle_comparisons :=
  repeat match goal with
  | |- context [Py.leb ?a ?b] =>
      first [ rewrite (proj2 (PyFacts.leb_le a b)) by lra
            | rewrite (proj2 (PyFacts.leb_gt a b)) by lra ]
  | |- context [Py.ltb ?a ?b] =>
      first [ rewrite (proj2 (PyFacts.ltb_lt a b)) by lra
            | rewrite (proj2 (PyFacts.ltb_ge a b)) by lra ]
  end.

(** Case analysis on every comparison of the goal. *)
Ltac split_comparisons :=
  repeat match goal with
  | |- context [Py.leb ?a ?b] =>
      let E := fresh "E" in
      destruct (Py.leb a b) eqn:E;
      [apply PyFacts.leb_le in E | apply PyFacts.leb_gt in E]
  | |- context [Py.ltb ?a ?b] =>
      let E := fresh "E" in
      destruct (Py.ltb a b) eqn:E;
      [apply PyFacts.ltb_lt in E | apply PyFacts.ltb_ge in E]
  end.

(** Replace each quotient of two constants by its value, which linear
    arithmetic needs. *)
Ltac fold_quotients :=
  repeat match goal with
  | |- context [Qdiv ?a ?b] =>
      let v := eval vm_compute in (Qred (a / b)) in
      setoid_replace (a / b) with v by reflexivity
  end.

(** ** The converters *)

Lemma pm25_in_band bp_lo bp_hi aqi_lo aqi_hi c :
  In (bp_lo, bp_hi, aqi_lo, aqi_hi) breakpoints ->
  bp_lo <= c <= bp_hi ->
  _pm25_to_aqi c
  = Py.round (((aqi_hi - aqi_lo) / (bp_hi - bp_lo)) * (c - bp_lo) + aqi_lo).
Proof.
  intros Hin [Hlo Hhi].
  unfold breakpoints in Hin. simpl in Hin.
  repeat (destruct Hin as [Hin|Hin]; [injection Hin as <- <- <- <-|]);
    try contradiction;
    unfold _pm25_to_aqi, breakpoints, scan_breakpoints, in_band, interpolate;
    settle_comparisons; rewrite ?andb_false_r; reflexivity.
Qed.


(** Inside a band the interpolated value stays between the band's two
    index ends. *)
Lemma interpolate_bounds bp_lo bp_hi aqi_lo aqi_hi c :
  bp_lo < bp_hi -> aqi_lo <= aqi_hi -> bp_lo <= c <= bp_hi ->
  aqi_lo <= interpolate (bp_lo, bp_hi, aqi_lo, aqi_hi) c <= aqi_hi.
Proof.
  intros Hbp Haqi [Hlo Hhi]. unfold interpolate.
  set (slope := (aqi_hi - aqi_lo) / (bp_hi - bp_lo)).
  assert (Hs : 0 <= slope).
  { unfold slope. apply Qle_shift_div_l; lra. }
  assert (Hfull : slope * (bp_hi - bp_lo) == aqi_hi - aqi_lo).
  { unfold slope. field. lra. }
  assert (H0 : 0 <= slope * (c - bp_lo)).
  { apply Qmult_le_0_compat; lra. }
  assert (H1 : slope * (c - bp_lo) <= slope * (bp_hi - bp_lo)).
  { rewrite !(Qmult_comm slope). apply Qmult_le_compat_r; lra. }
  clearbody slope. lra.
Qed.

(** The PM2.5 index is within 0..500 for every concentration, negative
    ones included (they match no band and get 500). *)
Lemma pm25_range c : (0 <= _pm25_to_aqi c <= 500)%Z.
Proof.
  unfold _pm25_to_aqi, breakpoints, scan_breakpoints.
  repeat match goal with
  | |- context [in_band (?lo, ?hi, ?alo, ?ahi) c] =>
      let E := fresh "E" in
      destruct (in_band (lo, hi, alo, ahi) c) eqn:E;
      [ unfold in_band in E; apply andb_true_iff in E; destruct E as [E1 E2];
        apply PyFacts.leb_le in E1; apply PyFacts.leb_le in E2;
        pose proof (@interpolate_bounds lo hi alo ahi c
                      ltac:(reflexivity) ltac:(discriminate) (conj E1 E2)) as [B1 B2];
        set (x := interpolate (lo, hi, alo, ahi) c) in *; clearbody x;
        split; [apply PyFacts.round_ge_Z; change (inject_Z 0) with 0
               | apply PyFacts.round_le_Z; change (inject_Z 500) with 500];
        lra
      | clear E ]
  end.
  lia.
Qed.

Lemma o3_range c : 0 <= c -> 0 <= _o3_to_aqi c <= 500.
Proof.
  intro Hc. unfold _o3_to_aqi, Py.min. split_comparisons; fold_quotients; lra.
Qed.

Lemma no2_range c : 0 <= c -> 0 <= _no2_to_aqi c <= 500.
Proof.
  intro Hc. unfold _no2_to_aqi, Py.min. split_comparisons; fold_quotients; lra.
Qed.



(** C2. The converters are not monotonic. A PM2.5 concentration between
    two bands matches none and gets 500, above its neighbours; the ozone
    and nitrogen dioxide lines restart below the end of the segment
    before them. *)
Theorem converters_not_monotonic :
  (12.05 < 12.1
   /\ _pm25_to_aqi 12.05 = 500%Z /\ _pm25_to_aqi 12.1 = 51%Z)
  /\ (54 < 54.5
      /\ _o3_to_aqi 54 == 50 /\ _o3_to_aqi 54.5 == 1481 # 30
      /\ _o3_to_aqi 54.5 < _o3_to_aqi 54)
  /\ (53 < 53.01
      /\ _no2_to_aqi 53 == 50 /\ _no2_to_aqi 53.01 == 229749 # 4600
      /\ _no2_to_aqi 53.01 < _no2_to_aqi 53).
Proof.
  repeat split; vm_compute; reflexivity.
Qed.

(** ** The steps of the fusion *)

Lemma enhance_keeps_index m tempo :
  overall_aqi (_enhance_with_satellite_data m tempo) = overall_aqi m.
Proof.
  unfold _enhance_with_satellite_data.
  destruct tempo as [t|]; [|reflexivity].
  destruct (Dict.truthy (TempoDataSource.pollutants t)); reflexivity.
Qed.

Lemma enhance_keeps_confidence m tempo :
  confidence (_enhance_with_satellite_data m tempo) = confidence m.
Proof.
  unfold _enhance_with_satellite_data.
  destruct tempo as [t|]; [|reflexivity].
  destruct (Dict.truthy (TempoDataSource.pollutants t)); reflexivity.
Qed.

Lemma enhance_keeps_adjusted m tempo :
  weather_adjusted_aqi (_enhance_with_satellite_data m tempo)
  = weather_adjusted_aqi m.
Proof.
  unfold _enhance_with_satellite_data.
  destruct tempo as [t|]; [|reflexivity].
  destruct (Dict.truthy (TempoDataSource.pollutants t)); reflexivity.
Qed.

Lemma weather_keeps_index m w :
  overall_aqi (_apply_weather_corrections m w) = overall_aqi m.
Proof. destruct w; reflexivity. Qed.

Lemma weather_keeps_confidence m w :
  confidence (_apply_weather_corrections m w) = confidence m.
Proof. destruct w; reflexivity. Qed.

(** The metrics of a fusion are those of the primary index, enhanced and
    weather-corrected. *)
Lemma fuse_metrics `{PyLib} tempo openaq aqicn w lat lon s :
  fused (fst (_fuse_data_sources tempo openaq aqicn w lat lon s))
  = _apply_weather_corrections
      (_enhance_with_satellite_data
         (fst (_calculate_primary_aqi (preferred_sensor openaq aqicn) s)) tempo) w.
Proof.
  unfold _fuse_data_sources, bind.
  destruct (_calculate_primary_aqi (preferred_sensor openaq aqicn) s) as [m s'].
  reflexivity.
Qed.

Lemma fuse_index `{PyLib} tempo openaq aqicn w lat lon s :
  overall_aqi (fused (fst (_fuse_data_sources tempo openaq aqicn w lat lon s)))
  = overall_aqi (fst (_calculate_primary_aqi (preferred_sensor openaq aqicn) s)).
Proof.
  now rewrite fuse_metrics, weather_keeps_index, enhance_keeps_index.
Qed.

Lemma fuse_confidence `{PyLib} tempo openaq aqicn w lat lon s :
  confidence (fused (fst (_fuse_data_sources tempo openaq aqicn w lat lon s)))
  = confidence (fst (_calculate_primary_aqi (preferred_sensor openaq aqicn) s)).
Proof.
  now rewrite fuse_metrics, weather_keeps_confidence, enhance_keeps_confidence.
Qed.

(** ** The weather adjustment *)

Lemma adjustment_factor_cases impact :
  (impact = "good_dispersion"%string -> adjustment_factor impact = 0.9)
  /\ (impact = "poor_dispersion"%string \/ impact = "stagnant"%string ->
      adjustment_factor impact = 1.1)
  /\ (impact = "cleansing"%string -> adjustment_factor impact = 0.8)
  /\ (impact <> "good_dispersion"%string -> impact <> "poor_dispersion"%string ->
      impact <> "stagnant"%string -> impact <> "cleansing"%string ->
      adjustment_factor impact = 1.0).
Proof.
  unfold adjustment_factor. repeat split.
  - intros ->. reflexivity.
  - intros [-> | ->]; reflexivity.
  - intros ->. reflexivity.
  - intros N1 N2 N3 N4.
    apply String.eqb_neq in N1, N2, N3, N4. now rewrite N1, N2, N3, N4.
Qed.

(** C5, as the code has it. Whenever a weather reading is present, the
    weather-adjusted index is [int(overall_index * factor)], the product
    truncated towards zero and not clamped, where the factor is 0.9 for
    good_dispersion, 1.1 for poor_dispersion or stagnant, 0.8 for
    cleansing and 1.0 for any other impact. *)
Theorem weather_adjusted_is_truncated_product `{PyLib} :
  forall tempo openaq aqicn w lat lon s,
    let r := fst (_fuse_data_sources tempo openaq aqicn (Some w) lat lon s) in
    let impact := WeatherDataSource.air_quality_impact w in
    exists factor,
      weather_adjusted_aqi (fused r)
      = Some (Py.int (overall_aqi (fused r) * factor))
      /\ (impact = "good_dispersion"%string -> factor = 0.9)
      /\ (impact = "poor_dispersion"%string \/ impact = "stagnant"%string ->
          factor = 1.1)
      /\ (impact = "cleansing"%string -> factor = 0.8)
      /\ (impact <> "good_dispersion"%string -> impact <> "poor_dispersion"%string ->
          impact <> "stagnant"%string -> impact <> "cleansing"%string ->
          factor = 1.0).
Proof.
  intros tempo openaq aqicn w lat lon s r impact.
  exists (adjustment_factor impact). split.
  - unfold r. rewrite fuse_metrics. reflexivity.
  - apply adjustment_factor_cases.
Qed.

(** The adjustment on a request with a ground reading of PM2.5 12.6 and
    cleansing weather: index 52, factor 0.8, adjusted index 41. *)
Lemma weather_adjusted_is_truncated_product_witness :
  exists factor,
    weather_adjusted_aqi
      (fused (fst (@_fuse_data_sources Sample.lib None
                     (Some (ground_reading [("pm25"%string, averaged_of 12.6)]))
                     None (Some (weather_reading "cleansing")) 0 0 7%Z)))
    = Some (Py.int (52 * factor))
    /\ factor = 0.8.
Proof.
  destruct (@weather_adjusted_is_truncated_product Sample.lib None
              (Some (ground_reading [("pm25"%string, averaged_of 12.6)]))
              None (weather_reading "cleansing") 0 0 7%Z)
    as [factor [Hadj [_ [_ [Hcleansing _]]]]].
  exists factor. split; [exact Hadj | exact (Hcleansing eq_refl)].
Defined.

(** C5 as stated fails twice: the code truncates where the claim rounds
    (index 52, factor 0.9: 46 against 47), and it does not clamp (index
    500, factor 1.1: 550 against 500). *)
Lemma weather_adjustment_not_as_specified :
  (forall (L : PyLib) (s : rng),
      let r := fst (_fuse_data_sources None
                      (Some (ground_reading [("pm25"%string, averaged_of 12.6)]))
                      None (Some (weather_reading "good_dispersion")) 0 0 s) in
      overall_aqi (fused r) = 52 /\ weather_adjusted_aqi (fused r) = Some 46%Z)
  /\ specified_weather_adjusted 52 0.9 = 47%Z
  /\ (forall (L : PyLib) (s : rng),
      let r := fst (_fuse_data_sources None
                      (Some (ground_reading [("pm25"%string, averaged_of 500)]))
                      None (Some (weather_reading "stagnant")) 0 0 s) in
      overall_aqi (fused r) = 500 /\ weather_adjusted_aqi (fused r) = Some 550%Z)
  /\ specified_weather_adjusted 500 1.1 = 500%Z.
Proof.
  repeat split; intros; vm_compute; reflexivity.
Qed.

Lemma max_list_In x xs : In (Py.max_list x xs) (x :: xs).
Proof.
  unfold Py.max_list. revert x. induction xs as [|y ys IH]; intro x; simpl.
  - now left.
  - destruct (Py.ltb x y).
    + right. apply IH.
    + destruct (IH x) as [E|Hin]; [now left | right; now right].
Qed.

Lemma max_list_upper x xs : Forall (fun y => y <= Py.max_list x xs) (x :: xs).
Proof.
  unfold Py.max_list. revert x. induction xs as [|y ys IH]; intro x; simpl.
  - constructor; [apply Qle_refl | constructor].
  - destruct (Py.ltb x y) eqn:E.
    + apply PyFacts.ltb_lt in E. specialize (IH y). inversion IH as [|? ? Hy Hys]; subst.
      constructor; [|constructor; assumption].
      eapply Qle_trans; [apply Qlt_le_weak; exact E | exact Hy].
    + apply PyFacts.ltb_ge in E. specialize (IH x). inversion IH as [|? ? Hx Hys]; subst.
      constructor; [exact Hx|]. constructor; [|exact Hys].
      eapply Qle_trans; [exact E | exact Hx].
Qed.

(** ** The primary index *)

Lemma convert_present_indices measurements :
  fst (convert_present measurements) = specified_indices measurements.
Proof.
  unfold convert_present, specified_indices.
  destruct (Dict.get "pm25"%string measurements);
    destruct (Dict.get "o3"%string measurements);
    destruct (Dict.get "no2"%string measurements); reflexivity.
Qed.

Lemma aqicn_index_ground g : aqicn_index (OfOpenAQ g) = None.
Proof.
  unfold aqicn_index. simpl.
  now destruct (String.eqb _ _).
Qed.

(** The index and the confidence computed from a ground reading whose
    averaged measurements are not empty. *)
Lemma primary_from_ground `{PyLib} g s :
  OpenAQDataSource.averaged_measurements g <> [] ->
  let m := fst (_calculate_primary_aqi (Some (OfOpenAQ g)) s) in
  let indices := specified_indices (OpenAQDataSource.averaged_measurements g) in
  overall_aqi m = inject_Z (Py.int (max_or_50 indices))
  /\ confidence m = (if (2 <=? List.length indices)%nat then "high" else "medium")%string.
Proof.
  intros Hne. destruct g as [src ty loc cnt sd am]. simpl in Hne |- *.
  destruct am as [|kv rest]; [contradiction|].
  unfold _calculate_primary_aqi. rewrite aqicn_index_ground.
  simpl get_averaged_measurements. simpl Dict.truthy. cbn [negb].
  rewrite <- convert_present_indices.
  destruct (convert_present (kv :: rest)) as [values ps]. simpl. split; reflexivity.
Qed.

Lemma fallback_metrics `{PyLib} s :
  let m := fst (_generate_fallback_aqi s) in
  confidence m = "low"%string
  /\ exists z, overall_aqi m = inject_Z z /\ (25 <= z <= 150)%Z.
Proof.
  unfold _generate_fallback_aqi, bind.
  pose proof (@RandomFacts.randint_range _ 25%Z 150%Z s ltac:(lia)) as Hr.
  destruct (Random.randint 25 150 s) as [base s1]. simpl in Hr.
  destruct (Random.uniform (-5) 5 s1) as [u s2]. simpl.
  split; [reflexivity|]. exists base. split; [reflexivity | exact Hr].
Qed.

Lemma primary_from_aqicn `{PyLib} a i s :
  AQICNDataSource.source a = "AQICN (World Air Quality Index)"%string ->
  AQICNDataSource.overall_aqi a = Some i -> ~ i == 0 ->
  let m := fst (_calculate_primary_aqi (Some (OfAQICN a)) s) in
  overall_aqi m = i /\ confidence m = "high"%string.
Proof.
  intros Hsrc Hidx Hnz m. unfold m, _calculate_primary_aqi, aqicn_index. simpl.
  rewrite Hsrc, Hidx. simpl.
  destruct (Py.eqb i 0) eqn:E.
  - apply Qeq_bool_iff in E. contradiction.
  - simpl. split; reflexivity.
Qed.

(** C6, as the code has it. An AQICN reading with a non-zero overall
    index gives that index with confidence "high". Without an AQICN
    reading, a ground reading with non-empty averaged measurements gives
    the maximum of the indices of whichever of pm25, o3 and no2 are
    present, truncated to an integer, 50 when none is present, with
    confidence "high" exactly for two or more indices and "medium"
    otherwise. Without an AQICN reading and with no ground reading or
    one with empty averaged measurements, the fallback model gives an
    integer in 25..150 with confidence "low". *)
Theorem primary_index_selection `{PyLib} :
  (forall tempo openaq a w lat lon i s,
      AQICNDataSource.source a = "AQICN (World Air Quality Index)"%string ->
      AQICNDataSource.overall_aqi a = Some i -> ~ i == 0 ->
      let m := fused (fst (_fuse_data_sources tempo openaq (Some a) w lat lon s)) in
      overall_aqi m = i /\ confidence m = "high"%string)
  /\ (forall tempo g w lat lon s,
      OpenAQDataSource.averaged_measurements g <> [] ->
      let m := fused (fst (_fuse_data_sources tempo (Some g) None w lat lon s)) in
      let indices := specified_indices (OpenAQDataSource.averaged_measurements g) in
      (indices = [] -> overall_aqi m = 50)
      /\ (indices <> [] ->
          exists top, In top indices /\ Forall (fun y => y <= top) indices
                      /\ overall_aqi m = inject_Z (Py.int top))
      /\ (confidence m = "high"%string <-> (2 <= List.length indices)%nat)
      /\ (confidence m = "medium"%string <-> (List.length indices < 2)%nat))
  /\ (forall tempo openaq w lat lon s,
      openaq = None
      \/ (exists g, openaq = Some g /\ OpenAQDataSource.averaged_measurements g = []) ->
      let m := fused (fst (_fuse_data_sources tempo openaq None w lat lon s)) in
      confidence m = "low"%string
      /\ exists z, overall_aqi m = inject_Z z /\ (25 <= z <= 150)%Z).
Proof.
  split; [|split].
  - intros tempo openaq a w lat lon i s Hsrc Hidx Hnz m. unfold m.
    rewrite fuse_index, fuse_confidence. simpl preferred_sensor.
    now apply primary_from_aqicn.
  - intros tempo g w lat lon s Hne m indices. unfold m.
    rewrite fuse_index, fuse_confidence. simpl preferred_sensor.
    destruct (primary_from_ground g s Hne) as [Hidx Hconf].
    fold indices in Hidx, Hconf. rewrite Hidx, Hconf. clear Hidx Hconf.
    split; [|split; [|split]].
    + intros ->. reflexivity.
    + intro Hnn. destruct indices as [|x xs] eqn:E; [contradiction|].
      exists (Py.max_list x xs). split; [apply max_list_In|].
      split; [apply max_list_upper | reflexivity].
    + destruct (2 <=? List.length indices)%nat eqn:E.
      * apply Nat.leb_le in E. split; auto.
      * apply Nat.leb_gt in E. split; [discriminate | lia].
    + destruct (2 <=? List.length indices)%nat eqn:E.
      * apply Nat.leb_le in E. split; [discriminate | lia].
      * apply Nat.leb_gt in E. split; auto.
  - intros tempo openaq w lat lon s Hcase m. unfold m.
    rewrite fuse_index, fuse_confidence.
    destruct Hcase as [-> | [g [-> Hempty]]].
    + simpl preferred_sensor. unfold _calculate_primary_aqi. apply fallback_metrics.
    + destruct g as [src ty loc cnt sd am]. simpl in Hempty. subst am.
      simpl preferred_sensor. unfold _calculate_primary_aqi.
      rewrite aqicn_index_ground. simpl. apply fallback_metrics.
Qed.

(** C6 as stated fails on three requests: an ozone-only reading of 10 has
    index 250/27, and the code reports 9; empty averaged measurements get
    the fallback model's confidence "low", not 50 with "medium"; and an
    AQICN index of 0 counts as absent. *)
Lemma primary_index_not_as_specified :
  (forall (L : PyLib) (s : rng),
      overall_aqi
        (fused (fst (_fuse_data_sources None
                       (Some (ground_reading [("o3"%string, averaged_of 10)]))
                       None None 0 0 s))) = 9)
  /\ fst (specified_primary None
            (Some (ground_reading [("o3"%string, averaged_of 10)]))) == 250 # 27
  /\ (forall (L : PyLib) (s : rng),
      confidence
        (fused (fst (_fuse_data_sources None (Some (ground_reading []))
                       None None 0 0 s))) = "low"%string)
  /\ specified_primary None (Some (ground_reading [])) = (50, "medium"%string)
  /\ (forall (L : PyLib) (s : rng),
      confidence
        (fused (fst (_fuse_data_sources None None (Some (aqicn_reading (Some 0)))
                       None 0 0 s))) = "low"%string)
  /\ specified_primary (Some (aqicn_reading (Some 0))) None = (0, "high"%string).
Proof.
  split; [intros; vm_compute; reflexivity|].
  split; [vm_compute; reflexivity|].
  split.
  { intros L s. rewrite fuse_confidence. apply (fallback_metrics s). }
  split; [reflexivity|].
  split.
  { intros L s. rewrite fuse_confidence. apply (fallback_metrics s). }
  reflexivity.
Qed.

(** The selection rule on an AQICN reading with index 42, and on a
    request without any ground reading. *)
Lemma primary_index_selection_witness :
  (let m := fused (fst (@_fuse_data_sources Sample.lib None None
                          (Some (aqicn_reading (Some 42))) None 0 0 7%Z)) in
   overall_aqi m = 42 /\ confidence m = "high"%string)
  /\ (let m := fused (fst (@_fuse_data_sources Sample.lib None None None None 0 0 7%Z)) in
      confidence m = "low"%string
      /\ exists z, overall_aqi m = inject_Z z /\ (25 <= z <= 150)%Z).
Proof.
  split.
  - apply (proj1 (@primary_index_selection Sample.lib) None None
             (aqicn_reading (Some 42)) None 0 0 42 7%Z).
    + reflexivity.
    + reflexivity.
    + discriminate.
  - apply (proj2 (proj2 (@primary_index_selection Sample.lib)) None None None 0 0 7%Z).
    left. reflexivity.
Defined.

(** ** Bounds of the fused indices *)

Lemma specified_indices_range g :
  gas_concentrations_nonneg g ->
  Forall (fun y => 0 <= y <= 500)
    (specified_indices (OpenAQDataSource.averaged_measurements g)).
Proof.
  intro Hg. unfold specified_indices.
  set (ms := OpenAQDataSource.averaged_measurements g) in *.
  apply Forall_app. split; [|apply Forall_app; split].
  - destruct (Dict.get "pm25"%string ms) as [m|]; constructor; [|constructor].
    pose proof (pm25_range (OpenAQDataSource.avg_value m)) as [Hlo Hhi].
    split.
    + change 0 with (inject_Z 0). now rewrite <- Zle_Qle.
    + change 500 with (inject_Z 500). now rewrite <- Zle_Qle.
  - destruct (Dict.get "o3"%string ms) as [m|] eqn:E; constructor; [|constructor].
    apply o3_range. apply (Hg "o3"%string m); [now left | exact E].
  - destruct (Dict.get "no2"%string ms) as [m|] eqn:E; constructor; [|constructor].
    apply no2_range. apply (Hg "no2"%string m); [now right | exact E].
Qed.

Lemma max_or_50_range indices :
  Forall (fun y => 0 <= y <= 500) indices -> 0 <= max_or_50 indices <= 500.
Proof.
  intro Hall. destruct indices as [|x xs]; simpl.
  - split; discriminate.
  - inversion Hall; subst. now apply PyFacts.max_list_bounds.
Qed.

(** The index computed for a ground reading, or for none, is an integer
    within 0..500. *)
Lemma primary_index_range `{PyLib} openaq s :
  (forall g, openaq = Some g -> gas_concentrations_nonneg g) ->
  exists z,
    overall_aqi (fst (_calculate_primary_aqi (preferred_sensor openaq None) s))
    = inject_Z z
    /\ (0 <= z <= 500)%Z.
Proof.
  intro Hg. destruct openaq as [g|].
  - destruct (OpenAQDataSource.averaged_measurements g) as [|kv rest] eqn:E.
    + destruct g as [src ty loc cnt sd am]. simpl in E. subst am.
      simpl preferred_sensor. unfold _calculate_primary_aqi.
      rewrite aqicn_index_ground. simpl.
      destruct (fallback_metrics s) as [_ [z [Hz Hr]]].
      exists z. split; [exact Hz | lia].
    + assert (Hne : OpenAQDataSource.averaged_measurements g <> [])
        by (rewrite E; discriminate).
      destruct (primary_from_ground g s Hne) as [Hidx _].
      simpl preferred_sensor. rewrite Hidx.
      eexists. split; [reflexivity|].
      apply PyFacts.int_le_Z; apply max_or_50_range, specified_indices_range;
        now apply Hg.
  - simpl preferred_sensor. unfold _calculate_primary_aqi.
    destruct (fallback_metrics s) as [_ [z [Hz Hr]]].
    exists z. split; [exact Hz | lia].
Qed.

Lemma adjustment_factor_range impact :
  0 <= adjustment_factor impact <= 1.1.
Proof.
  unfold adjustment_factor.
  destruct (String.eqb impact "good_dispersion"); [split; discriminate|].
  destruct (String.eqb impact "poor_dispersion" || String.eqb impact "stagnant");
    [split; discriminate|].
  destruct (String.eqb impact "cleansing"); split; discriminate.
Qed.

Lemma primary_not_adjusted `{PyLib} sensor s :
  weather_adjusted_aqi (fst (_calculate_primary_aqi sensor s)) = None.
Proof.
  assert (Hf : forall s', weather_adjusted_aqi (fst (_generate_fallback_aqi s')) = None).
  { intro s'. unfold _generate_fallback_aqi, bind.
    destruct (Random.randint 25 150 s') as [b s1].
    destruct (Random.uniform (-5) 5 s1) as [u s2]. reflexivity. }
  unfold _calculate_primary_aqi.
  destruct sensor as [d|]; [|apply Hf].
  destruct (aqicn_index d); [reflexivity|].
  destruct (get_averaged_measurements d) as [ms|]; [|apply Hf].
  destruct (negb (Dict.truthy ms)); [apply Hf|].
  destruct (convert_present ms). reflexivity.
Qed.

Lemma emergency_gases_nonneg `{PyLib} lat lon s :
  gas_concentrations_nonneg (fst (_generate_emergency_fallback_data lat lon s)).
Proof.
  unfold _generate_emergency_fallback_data, bind, Random.seed.
  set (s0 := rng_seed (OpenAQDataSource.location_seed lat lon)).
  destruct (Random.uniform (-5) 5 s0) as [u1 s1].
  destruct (Random.uniform (-8) 8 s1) as [u2 s2].
  destruct (Random.uniform (-3) 3 s2) as [u3 s3].
  destruct (Random.uniform (-5) 5 s3) as [u4 s4].
  destruct (Random.uniform (-8) 8 s4) as [u5 s5].
  pose proof (@RandomFacts.uniform_range _ (-3) 3 s5 ltac:(discriminate)) as Hu.
  destruct (Random.uniform (-3) 3 s5) as [u6 s6]. simpl in Hu.
  intros key m [-> | ->] Hget; simpl in Hget.
  - discriminate.
  - injection Hget as <-. simpl.
    change 0 with (inject_Z 0). apply PyFacts.round_n_ge_Z.
    unfold no2_base.
    pose proof (@PyFacts.fmod_range (Py.abs lat * 0.3) 20 ltac:(reflexivity)) as [Hm _].
    change (inject_Z 0) with 0.
    set (f := Py.fmod (Py.abs lat * 0.3) 20) in *. clearbody f. lra.
Qed.

(** The metrics of the returned dictionary are those of the fusion, run
    on the emergency reading when every slot is empty. *)
Lemma fuse_results_metrics `{PyLib} r0 r1 r2 r3 lat lon s :
  fused (fst (fuse_results (r0, r1, r2, r3) lat lon s))
  = if all_sources_failed (data_of r0) (data_of r1) (data_of r2) (data_of r3)
    then
      fused (fst (_fuse_data_sources (data_of r0)
                    (Some (fst (_generate_emergency_fallback_data lat lon s)))
                    (data_of r2) (data_of r3) lat lon
                    (snd (_generate_emergency_fallback_data lat lon s))))
    else
      fused (fst (_fuse_data_sources (data_of r0) (data_of r1)
                    (data_of r2) (data_of r3) lat lon s)).
Proof.
  unfold fuse_results, bind.
  destruct (all_sources_failed (data_of r0) (data_of r1) (data_of r2) (data_of r3)).
  - destruct (_generate_emergency_fallback_data lat lon s) as [g s1]. simpl.
    destruct (_fuse_data_sources (data_of r0) (Some g) (data_of r2) (data_of r3) lat lon s1)
      as [c s2].
    simpl. destruct (Dict.truthy _); reflexivity.
  - simpl.
    destruct (_fuse_data_sources (data_of r0) (data_of r1) (data_of r2) (data_of r3) lat lon s)
      as [c s2].
    simpl. destruct (Dict.truthy _); reflexivity.
Qed.

(** The bounds for one fusion without an AQICN reading. *)
Lemma fuse_bounds `{PyLib} tempo openaq w lat lon s :
  (forall g, openaq = Some g -> gas_concentrations_nonneg g) ->
  let m := fused (fst (_fuse_data_sources tempo openaq None w lat lon s)) in
  (exists z, overall_aqi m = inject_Z z /\ (0 <= z <= 500)%Z)
  /\ match w with
     | Some _ => exists z, weather_adjusted_aqi m = Some z /\ (0 <= z <= 550)%Z
     | None => weather_adjusted_aqi m = None
     end.
Proof.
  intros Hg m.
  destruct (primary_index_range openaq s Hg) as [z [Hz Hr]].
  split.
  - exists z. unfold m. rewrite fuse_index. split; assumption.
  - unfold m. rewrite fuse_metrics.
    destruct w as [w|]; unfold _apply_weather_corrections;
      cbn [weather_adjusted_aqi].
    + eexists. split; [reflexivity|].
      rewrite enhance_keeps_index, Hz.
      pose proof (adjustment_factor_range (WeatherDataSource.air_quality_impact w))
        as [Hf0 Hf1].
      set (f := adjustment_factor _) in *. clearbody f.
      assert (Hz0 : 0 <= inject_Z z)
        by (change 0 with (inject_Z 0); rewrite <- Zle_Qle; lia).
      assert (Hz1 : inject_Z z <= 500)
        by (change 500 with (inject_Z 500); rewrite <- Zle_Qle; lia).
      apply PyFacts.int_le_Z.
      * apply Qmult_le_0_compat; assumption.
      * change (inject_Z 550) with 550. set (q := inject_Z z) in *. clearbody q. nra.
    + rewrite enhance_keeps_adjusted. apply primary_not_adjusted.
Qed.

(** C1, as the code has it. For every request and every combination of
    source outcomes without an AQICN reading, in which the ozone and
    nitrogen dioxide concentrations of the ground reading are not
    negative, the overall index is an integer within 0..500; the
    weather-adjusted index is present exactly when a weather reading is,
    and is then an integer within 0..550. *)
Theorem fused_indices_bounded `{PyLib} :
  forall r0 r1 r2 r3 lat lon s,
    data_of r2 = None ->
    (forall g, data_of r1 = Some g -> gas_concentrations_nonneg g) ->
    let r := fst (fuse_results (r0, r1, r2, r3) lat lon s) in
    (exists z, overall_aqi (fused r) = inject_Z z /\ (0 <= z <= 500)%Z)
    /\ match data_of r3 with
       | Some _ =>
           exists z, weather_adjusted_aqi (fused r) = Some z /\ (0 <= z <= 550)%Z
       | None => weather_adjusted_aqi (fused r) = None
       end.
Proof.
  intros r0 r1 r2 r3 lat lon s Haqicn Hg r. unfold r.
  rewrite fuse_results_metrics, Haqicn.
  destruct (all_sources_failed (data_of r0) (data_of r1) None (data_of r3)).
  - apply fuse_bounds. intros g Eg. injection Eg as <-.
    apply emergency_gases_nonneg.
  - apply fuse_bounds. exact Hg.
Qed.

(** The bounds on a request with PM2.5 at 500, nitrogen dioxide at 30 and
    stagnant weather. *)
Lemma fused_indices_bounded_witness :
  let r := fst (@fuse_results Sample.lib
                  (Returned None,
                   Returned (Some (ground_reading [("pm25"%string, averaged_of 500);
                                                   ("no2"%string, averaged_of 30)])),
                   Returned None,
                   Returned (Some (weather_reading "stagnant"))) 0 0 7%Z) in
  (exists z, overall_aqi (fused r) = inject_Z z /\ (0 <= z <= 500)%Z)
  /\ exists z, weather_adjusted_aqi (fused r) = Some z /\ (0 <= z <= 550)%Z.
Proof.
  apply (@fused_indices_bounded Sample.lib
           (Returned None)
           (Returned (Some (ground_reading [("pm25"%string, averaged_of 500);
                                            ("no2"%string, averaged_of 30)])))
           (Returned None)
           (Returned (Some (weather_reading "stagnant"))) 0 0 7%Z).
  - reflexivity.
  - intros g Eg. injection Eg as <-.
    intros key m [-> | ->] Hget; simpl in Hget.
    + discriminate.
    + injection Hget as <-. discriminate.
Defined.

(** C1 as stated fails: PM2.5 at 500 under stagnant weather gives a
    weather-adjusted index of 550; an AQICN index of 999 is passed on as
    it is; a negative ozone concentration gives a negative index. *)
Lemma fused_index_exceeds_500 :
  (forall (L : PyLib) (s : rng),
      let r := fst (fuse_results
                      (Returned None,
                       Returned (Some (ground_reading [("pm25"%string, averaged_of 500)])),
                       Returned None,
                       Returned (Some (weather_reading "stagnant"))) 0 0 s) in
      overall_aqi (fused r) = 500
      /\ weather_adjusted_aqi (fused r) = Some 550%Z)
  /\ (500 < 550)%Z
  /\ (forall (L : PyLib) (s : rng),
      let r := fst (fuse_results
                      (Returned None, Returned None,
                       Returned (Some (aqicn_reading (Some 999))),
                       Returned None) 0 0 s) in
      overall_aqi (fused r) = 999)
  /\ 500 < 999
  /\ (forall (L : PyLib) (s : rng),
      let r := fst (fuse_results
                      (Returned None,
                       Returned (Some (ground_reading [("o3"%string, averaged_of (-54))])),
                       Returned None, Returned None) 0 0 s) in
      overall_aqi (fused r) = -50)
  /\ -50 < 0.
Proof.
  repeat split; intros; vm_compute; reflexivity.
Qed.

(** ** The adapters *)

Lemma process_nonempty `{PyLib} x xs lat lon :
  OpenAQDataSource._process_openaq_data (x :: xs) lat lon <> Returned None.
Proof.
  unfold OpenAQDataSource._process_openaq_data.
  destruct (OpenAQDataSource._calculate_weighted_average _); discriminate.
Qed.

(** The ground-sensor fetch returns a reading on every path. *)
Lemma ground_data_present `{PyLib} latest lat lon radius s :
  present (fst (OpenAQDataSource.get_ground_data latest lat lon radius s)) = true.
Proof.
  assert (Hmock : forall s',
    present (fst (bind (OpenAQDataSource._generate_mock_openaq_data lat lon)
                    (fun r => ret (Some r)) s')) = true).
  { intro s'. unfold bind.
    destruct (OpenAQDataSource._generate_mock_openaq_data lat lon s'). reflexivity. }
  assert (Hproc : forall x xs s',
    present (fst (match OpenAQDataSource._process_openaq_data (x :: xs) lat lon with
                  | Returned r => ret r
                  | Raised _ =>
                      bind (OpenAQDataSource._generate_mock_openaq_data lat lon)
                        (fun r => ret (Some r))
                  end s')) = true).
  { intros x xs s'. pose proof (process_nonempty x xs lat lon) as Hne.
    destruct (OpenAQDataSource._process_openaq_data (x :: xs) lat lon) as [msg|[r|]].
    - apply Hmock.
    - reflexivity.
    - contradiction. }
  unfold OpenAQDataSource.get_ground_data.
  destruct (latest lat lon (radius * 1000)%Z 50%Z) as [|status json]; [apply Hmock|].
  destruct (negb (status =? 200)%Z); [apply Hmock|].
  destruct json as [[|x xs]|]; [| apply Hproc | apply Hmock].
  destruct (latest lat lon 100000%Z 20%Z) as [|status2 json2]; [apply Hmock|].
  destruct (negb (status2 =? 200)%Z); [apply Hmock|].
  destruct json2 as [[|y ys]|]; [apply Hmock | apply Hproc | apply Hmock].
Qed.

(** The weather fetch returns a reading on every path. *)
Lemma weather_data_present `{PyLib} cfg current lat lon s :
  present (fst (WeatherDataSource.get_weather_data cfg current lat lon s)) = true.
Proof.
  assert (Hmock : forall s',
    present (fst (bind (WeatherDataSource._get_mock_weather_data lat lon)
                    (fun r => ret (Some r)) s')) = true).
  { intro s'. unfold bind.
    destruct (WeatherDataSource._get_mock_weather_data lat lon s'). reflexivity. }
  unfold WeatherDataSource.get_weather_data.
  destruct (WeatherDataSource.no_weather_key cfg); [apply Hmock|].
  destruct (current lat lon) as [|status json]; [apply Hmock|].
  destruct (negb (status =? 200)%Z); [apply Hmock|].
  destruct json as [data|]; [|apply Hmock].
  destruct (WeatherDataSource._process_weather_data data); [reflexivity | apply Hmock].
Qed.

(** The failure paths of the ground-sensor fetch end in synthesized data:
    a failed first request, or an empty first result followed by a failed
    or empty broader one. *)
Lemma ground_failure_paths `{PyLib} latest lat lon radius s :
  failed (latest lat lon (radius * 1000)%Z 50%Z)
  \/ (holds_nothing (latest lat lon (radius * 1000)%Z 50%Z)
      /\ (failed (latest lat lon 100000%Z 20%Z)
          \/ holds_nothing (latest lat lon 100000%Z 20%Z))) ->
  OpenAQDataSource.get_ground_data latest lat lon radius s
  = synthesized_ground lat lon s.
Proof.
  unfold OpenAQDataSource.get_ground_data. fold (synthesized_ground lat lon).
  intros [Hfirst | [Hempty Hsecond]].
  - destruct (latest lat lon (radius * 1000)%Z 50%Z) as [|status json]; [reflexivity|].
    simpl in Hfirst.
    destruct (status =? 200)%Z eqn:E; simpl; [|reflexivity].
    apply Z.eqb_eq in E. destruct Hfirst as [Hs | ->]; [contradiction | reflexivity].
  - unfold holds_nothing in Hempty. rewrite Hempty. simpl.
    destruct Hsecond as [Hf | Hn].
    + destruct (latest lat lon 100000%Z 20%Z) as [|status json]; [reflexivity|].
      simpl in Hf.
      destruct (status =? 200)%Z eqn:E; simpl; [|reflexivity].
      apply Z.eqb_eq in E. destruct Hf as [Hs | ->]; [contradiction | reflexivity].
    + unfold holds_nothing in Hn. rewrite Hn. reflexivity.
Qed.

(** The failure paths of the weather fetch end in synthesized data: no
    usable key, or a failed request. *)
Lemma weather_failure_paths `{PyLib} cfg current lat lon s :
  WeatherDataSource.no_weather_key cfg = true \/ failed (current lat lon) ->
  WeatherDataSource.get_weather_data cfg current lat lon s
  = synthesized_weather lat lon s.
Proof.
  unfold WeatherDataSource.get_weather_data. fold (synthesized_weather lat lon).
  intros [Hkey | Hf].
  - now rewrite Hkey.
  - destruct (WeatherDataSource.no_weather_key cfg); [reflexivity|].
    destruct (current lat lon) as [|status json]; [reflexivity|].
    simpl in Hf.
    destruct (status =? 200)%Z eqn:E; simpl; [|reflexivity].
    apply Z.eqb_eq in E. destruct Hf as [Hs | ->]; [contradiction | reflexivity].
Qed.

(** ** The gathered results *)

(** Each slot of [gather] is the outcome of its adapter at some generator
    state; the satellite adapter runs at the initial one. *)
Lemma gather_slots `{PyLib} e weather_first lat lon s :
  exists s1 s2 s3,
    fst (gather e weather_first lat lon s)
    = (fst (tempo_source e lat lon s), fst (openaq_source e lat lon s1),
       fst (aqicn_source e lat lon s2), fst (weather_source e lat lon s3)).
Proof.
  unfold gather, bind.
  destruct (tempo_source e lat lon s) as [r0 sa] eqn:E0.
  destruct (aqicn_source e lat lon sa) as [r2 sb] eqn:E2.
  destruct weather_first.
  - destruct (weather_source e lat lon sb) as [r3 sc] eqn:E3.
    destruct (openaq_source e lat lon sc) as [r1 sd] eqn:E1.
    exists sc, sa, sb. simpl. now rewrite E1, E2, E3.
  - destruct (openaq_source e lat lon sb) as [r1 sc] eqn:E1.
    destruct (weather_source e lat lon sc) as [r3 sd] eqn:E3.
    exists sb, sa, sc. simpl. now rewrite E1, E2, E3.
Qed.

Lemma run_comprehensive `{PyLib} e weather_first lat lon s :
  fst (get_comprehensive_air_quality e weather_first lat lon s)
  = fst (fuse_results (fst (gather e weather_first lat lon s)) lat lon
           (snd (gather e weather_first lat lon s))).
Proof.
  unfold get_comprehensive_air_quality, bind.
  destruct (gather e weather_first lat lon s). reflexivity.
Qed.

(** The flags, the quality label, the raw ground reading and the error
    map of the returned dictionary, read off the four slots. *)
Lemma fuse_results_shape `{PyLib} r0 r1 r2 r3 lat lon s :
  let r := fst (fuse_results (r0, r1, r2, r3) lat lon s) in
  let ground := fused_ground r0 r1 r2 r3 lat lon s in
  sources r
  = {| satellite := present (data_of r0);
       ground_sensors := present ground || present (data_of r2);
       aqicn := present (data_of r2);
       weather := present (data_of r3) |}
  /\ data_quality r
     = (if present (data_of r0) && (present ground || present (data_of r2))
           && present (data_of r3)
        then "high" else "medium")%string
  /\ raw_openaq (raw r) = ground
  /\ data_source_errors r
     = (if Dict.truthy (logged_errors r0 r1 r2 r3)
        then Some (logged_errors r0 r1 r2 r3) else None).
Proof.
  unfold fuse_results, fused_ground, logged_errors, bind.
  destruct (all_sources_failed (data_of r0) (data_of r1) (data_of r2) (data_of r3)).
  - destruct (_generate_emergency_fallback_data lat lon s) as [g s1]. simpl.
    unfold _fuse_data_sources, bind.
    destruct (_calculate_primary_aqi _ s1) as [m s2]. simpl.
    destruct (Dict.truthy _); simpl; repeat split; reflexivity.
  - simpl. unfold _fuse_data_sources, bind.
    destruct (_calculate_primary_aqi _ s) as [m s2]. simpl.
    destruct (Dict.truthy _); simpl; repeat split; reflexivity.
Qed.

(** What the four slots hold for the engine of the module. *)
Lemma gather_engine `{PyLib} cfg net weather_first lat lon s :
  exists g a w,
    fst (gather (data_fusion_engine cfg net) weather_first lat lon s)
    = (Returned (fst (TempoDataSource.get_satellite_data cfg lat lon s)),
       Returned (Some g), Returned a, Returned (Some w)).
Proof.
  destruct (gather_slots (data_fusion_engine cfg net) weather_first lat lon s)
    as [s1 [s2 [s3 E]]].
  rewrite E. simpl. unfold bind, ret.
  pose proof (ground_data_present (openaq_latest net) lat lon 50%Z s1) as Hg.
  pose proof (weather_data_present cfg (openweather_current net) lat lon s3) as Hw.
  destruct (OpenAQDataSource.get_ground_data (openaq_latest net) lat lon 50 s1)
    as [[g|] sg]; [|discriminate].
  destruct (WeatherDataSource.get_weather_data cfg (openweather_current net) lat lon s3)
    as [[w|] sw]; [|discriminate].
  destruct (TempoDataSource.get_satellite_data cfg lat lon s) as [t st].
  exists g, (AQICNDataSource.get_aqicn_data cfg (waqi net) lat lon), w.
  reflexivity.
Qed.

(** C10. The ground-sensor fetch and the weather fetch return a reading
    on every path, whatever the configuration and the network do, and
    their failure paths (a request that raises, a status other than 200,
    an unreadable body, empty result sets, no usable weather key) end in
    synthesized data. In [get_comprehensive_air_quality] on the module's
    engine the test for the emergency branch is therefore false, the
    [ground_sensors] and [weather] flags are true, and [data_quality] is
    "high" exactly when the satellite fetch returned a reading, "medium"
    when it returned [None]. *)
Theorem ground_and_weather_never_absent `{PyLib} :
  forall cfg net weather_first lat lon s,
    (forall radius s',
        present (fst (OpenAQDataSource.get_ground_data
                        (openaq_latest net) lat lon radius s')) = true)
    /\ (forall s',
        present (fst (WeatherDataSource.get_weather_data
                        cfg (openweather_current net) lat lon s')) = true)
    /\ (forall radius s',
        failed (openaq_latest net lat lon (radius * 1000)%Z 50%Z)
        \/ (holds_nothing (openaq_latest net lat lon (radius * 1000)%Z 50%Z)
            /\ (failed (openaq_latest net lat lon 100000%Z 20%Z)
                \/ holds_nothing (openaq_latest net lat lon 100000%Z 20%Z))) ->
        OpenAQDataSource.get_ground_data (openaq_latest net) lat lon radius s'
        = synthesized_ground lat lon s')
    /\ (forall s',
        WeatherDataSource.no_weather_key cfg = true
        \/ failed (openweather_current net lat lon) ->
        WeatherDataSource.get_weather_data cfg (openweather_current net) lat lon s'
        = synthesized_weather lat lon s')
    /\ (let '(r0, r1, r2, r3) :=
          fst (gather (data_fusion_engine cfg net) weather_first lat lon s) in
        all_sources_failed (data_of r0) (data_of r1) (data_of r2) (data_of r3) = false)
    /\ (let r := fst (get_comprehensive_air_quality
                        (data_fusion_engine cfg net) weather_first lat lon s) in
        ground_sensors (sources r) = true
        /\ weather (sources r) = true
        /\ (data_quality r = "high"%string
            <-> present (fst (TempoDataSource.get_satellite_data cfg lat lon s)) = true)
        /\ (data_quality r = "medium"%string
            <-> present (fst (TempoDataSource.get_satellite_data cfg lat lon s)) = false)).
Proof.
  intros cfg net weather_first lat lon s.
  split; [intros; apply ground_data_present|].
  split; [intros; apply weather_data_present|].
  split; [intros radius s'; apply ground_failure_paths|].
  split; [intros s'; apply weather_failure_paths|].
  destruct (gather_engine cfg net weather_first lat lon s) as [g [a [w E]]].
  split.
  - rewrite E. unfold all_sources_failed. simpl.
    now rewrite orb_true_r.
  - cbv zeta. rewrite run_comprehensive, E.
    destruct (fuse_results_shape
                (Returned (fst (TempoDataSource.get_satellite_data cfg lat lon s)))
                (Returned (Some g)) (Returned a) (Returned (Some w)) lat lon
                (snd (gather (data_fusion_engine cfg net) weather_first lat lon s)))
      as [Hsrc [Hq _]].
    rewrite Hsrc, Hq. clear Hsrc Hq.
    unfold fused_ground, all_sources_failed. simpl.
    rewrite !orb_true_r. simpl.
    destruct (fst (TempoDataSource.get_satellite_data cfg lat lon s)); simpl.
    + repeat split; auto; discriminate.
    + repeat split; auto; discriminate.
Qed.

(** The failure paths of C10 on a network that is down and without a
    weather key: both fetches return their synthesized readings. *)
Lemma ground_and_weather_never_absent_witness :
  failed (openaq_latest unreachable_network 40.7 (-74.0) (50 * 1000)%Z 50%Z)
  /\ WeatherDataSource.no_weather_key (config_with_token None) = true
  /\ @OpenAQDataSource.get_ground_data Sample.lib
       (openaq_latest unreachable_network) 40.7 (-74.0) 50%Z 7%Z
     = @synthesized_ground Sample.lib 40.7 (-74.0) 7%Z
  /\ @WeatherDataSource.get_weather_data Sample.lib (config_with_token None)
       (openweather_current unreachable_network) 40.7 (-74.0) 7%Z
     = @synthesized_weather Sample.lib 40.7 (-74.0) 7%Z.
Proof.
  assert (Hdown : failed (openaq_latest unreachable_network 40.7 (-74.0)
                            (50 * 1000)%Z 50%Z)) by exact I.
  assert (Hkey : WeatherDataSource.no_weather_key (config_with_token None) = true)
    by reflexivity.
  pose proof (@ground_and_weather_never_absent Sample.lib (config_with_token None)
                unreachable_network false 40.7 (-74.0) 7%Z)
    as [_ [_ [Hground [Hweather _]]]].
  split; [exact Hdown|]. split; [exact Hkey|]. split.
  - apply Hground. left. exact Hdown.
  - apply Hweather. left. exact Hkey.
Defined.

(** ** Satellite coverage *)

Lemma outside_coverage_iff lat lon :
  TempoDataSource.outside_coverage lat lon = true
  <-> lat < 18 \/ 71 < lat \/ lon < -175 \/ -40 < lon.
Proof.
  unfold TempoDataSource.outside_coverage.
  rewrite !orb_true_iff, !PyFacts.ltb_lt.
  setoid_replace 18.0 with 18 by reflexivity.
  setoid_replace 71.0 with 71 by reflexivity.
  setoid_replace (-175.0) with (-175) by reflexivity.
  setoid_replace (-40.0) with (-40) by reflexivity.
  tauto.
Qed.

Lemma satellite_without_token `{PyLib} cfg lat lon s :
  is_set (NASA_TEMPO_TOKEN cfg) = false ->
  present (fst (TempoDataSource.get_satellite_data cfg lat lon s)) = true.
Proof.
  intro Hno. unfold TempoDataSource.get_satellite_data. rewrite Hno. simpl.
  unfold bind. destruct (TempoDataSource._generate_mock_tempo_data lat lon s).
  reflexivity.
Qed.

Lemma satellite_outside_coverage `{PyLib} cfg lat lon s :
  is_set (NASA_TEMPO_TOKEN cfg) = true ->
  TempoDataSource.outside_coverage lat lon = true ->
  fst (TempoDataSource.get_satellite_data cfg lat lon s) = None.
Proof.
  intros Hset Hout. unfold TempoDataSource.get_satellite_data.
  rewrite Hset, Hout. reflexivity.
Qed.

(** The satellite flag and the quality label of the module's engine
    follow the satellite fetch. *)
Lemma engine_satellite_flag `{PyLib} cfg net weather_first lat lon s :
  let r := fst (get_comprehensive_air_quality
                  (data_fusion_engine cfg net) weather_first lat lon s) in
  let fetched := fst (TempoDataSource.get_satellite_data cfg lat lon s) in
  satellite (sources r) = present fetched
  /\ data_quality r = (if present fetched then "high" else "medium")%string.
Proof.
  cbv zeta.
  destruct (gather_engine cfg net weather_first lat lon s) as [g [a [w E]]].
  rewrite run_comprehensive, E.
  destruct (fuse_results_shape
              (Returned (fst (TempoDataSource.get_satellite_data cfg lat lon s)))
              (Returned (Some g)) (Returned a) (Returned (Some w)) lat lon
              (snd (gather (data_fusion_engine cfg net) weather_first lat lon s)))
    as [Hsrc [Hq _]].
  rewrite Hsrc, Hq. clear Hsrc Hq.
  unfold fused_ground, all_sources_failed. simpl.
  rewrite !orb_true_r. simpl.
  destruct (fst (TempoDataSource.get_satellite_data cfg lat lon s)); split; reflexivity.
Qed.

(** C4, as the code has it. With a satellite token configured, for every
    coordinate outside the box lat in [18, 71], lon in [-175, -40] the
    satellite fetch returns [None], the [satellite] flag of the result is
    false and [data_quality] is "medium", while the ground and weather
    flags are true. *)
Theorem no_satellite_outside_coverage `{PyLib} :
  forall cfg net weather_first lat lon s,
    is_set (NASA_TEMPO_TOKEN cfg) = true ->
    lat < 18 \/ 71 < lat \/ lon < -175 \/ -40 < lon ->
    fst (TempoDataSource.get_satellite_data cfg lat lon s) = None
    /\ (let r := fst (get_comprehensive_air_quality
                        (data_fusion_engine cfg net) weather_first lat lon s) in
        satellite (sources r) = false
        /\ ground_sensors (sources r) = true
        /\ weather (sources r) = true
        /\ data_quality r = "medium"%string).
Proof.
  intros cfg net weather_first lat lon s Hset Hout.
  apply outside_coverage_iff in Hout.
  pose proof (satellite_outside_coverage cfg lat lon s Hset Hout) as Hnone.
  split; [exact Hnone|]. cbv zeta.
  destruct (engine_satellite_flag cfg net weather_first lat lon s) as [Hsat Hq].
  rewrite Hsat, Hq, Hnone. simpl.
  destruct (gather_engine cfg net weather_first lat lon s) as [g [a [w E]]].
  rewrite run_comprehensive, E.
  destruct (fuse_results_shape
              (Returned (fst (TempoDataSource.get_satellite_data cfg lat lon s)))
              (Returned (Some g)) (Returned a) (Returned (Some w)) lat lon
              (snd (gather (data_fusion_engine cfg net) weather_first lat lon s)))
    as [Hsrc _].
  rewrite Hsrc. unfold fused_ground, all_sources_failed. simpl.
  rewrite !orb_true_r. simpl. repeat split; reflexivity.
Qed.

(** The coverage rule at (0, 0) with a token set and the network down. *)
Lemma no_satellite_outside_coverage_witness :
  is_set (NASA_TEMPO_TOKEN (config_with_token (Some "token"%string))) = true
  /\ (0 < 18 \/ 71 < 0 \/ 0 < -175 \/ -40 < 0)
  /\ fst (@TempoDataSource.get_satellite_data Sample.lib
            (config_with_token (Some "token"%string)) 0 0 7%Z) = None
  /\ (let r := fst (@get_comprehensive_air_quality Sample.lib
                      (data_fusion_engine (config_with_token (Some "token"%string))
                         unreachable_network) false 0 0 7%Z) in
      satellite (sources r) = false
      /\ ground_sensors (sources r) = true
      /\ weather (sources r) = true
      /\ data_quality r = "medium"%string).
Proof.
  assert (Hset : is_set (NASA_TEMPO_TOKEN (config_with_token (Some "token"%string))) = true)
    by reflexivity.
  assert (Hout : 0 < 18 \/ 71 < 0 \/ 0 < -175 \/ -40 < 0) by (left; reflexivity).
  split; [exact Hset|]. split; [exact Hout|].
  exact (@no_satellite_outside_coverage Sample.lib
           (config_with_token (Some "token"%string)) unreachable_network
           false 0 0 7%Z Hset Hout).
Defined.

(** C4 as stated fails when no satellite token is configured: the token
    test comes before the coverage test, so at (0, 0) the satellite fetch
    returns synthesized data, the flag is true and the quality "high". *)
Lemma satellite_synthesized_outside_coverage :
  TempoDataSource.outside_coverage 0 0 = true
  /\ (forall (L : PyLib) (s : rng),
      present (fst (TempoDataSource.get_satellite_data
                      (config_with_token None) 0 0 s)) = true)
  /\ (forall (L : PyLib) net weather_first (s : rng),
      let r := fst (get_comprehensive_air_quality
                      (data_fusion_engine (config_with_token None) net)
                      weather_first 0 0 s) in
      satellite (sources r) = true /\ data_quality r = "high"%string).
Proof.
  split; [reflexivity|].
  split.
  - intros L s. now apply satellite_without_token.
  - intros L net weather_first s. cbv zeta.
    destruct (engine_satellite_flag (config_with_token None) net weather_first 0 0 s)
      as [Hsat Hq].
    rewrite Hsat, Hq.
    now rewrite (satellite_without_token (config_with_token None) 0 0 s eq_refl).
Qed.

(** ** All adapters failing *)

(** The emergency reading carries the emergency tag and averaged values
    for pm25, pm10 and no2. *)
Lemma emergency_shape `{PyLib} lat lon s :
  let g := fst (_generate_emergency_fallback_data lat lon s) in
  OpenAQDataSource.r_source g = "OpenAQ (Emergency Fallback)"%string
  /\ Dict.keys (OpenAQDataSource.averaged_measurements g)
     = ["pm25"; "pm10"; "no2"]%string.
Proof.
  unfold _generate_emergency_fallback_data, bind, Random.seed.
  set (s0 := rng_seed (OpenAQDataSource.location_seed lat lon)).
  destruct (Random.uniform (-5) 5 s0) as [u1 s1].
  destruct (Random.uniform (-8) 8 s1) as [u2 s2].
  destruct (Random.uniform (-3) 3 s2) as [u3 s3].
  destruct (Random.uniform (-5) 5 s3) as [u4 s4].
  destruct (Random.uniform (-8) 8 s4) as [u5 s5].
  destruct (Random.uniform (-3) 3 s5) as [u6 s6].
  split; reflexivity.
Qed.

(** Two pollutants of the emergency reading are convertible, so its
    confidence is "high". *)
Lemma emergency_confidence `{PyLib} lat lon s s' :
  confidence
    (fst (_calculate_primary_aqi
            (Some (OfOpenAQ (fst (_generate_emergency_fallback_data lat lon s)))) s'))
  = "high"%string.
Proof.
  pose proof (emergency_shape lat lon s) as [_ Hkeys]. cbv zeta in Hkeys.
  set (g := fst (_generate_emergency_fallback_data lat lon s)) in *.
  assert (Hne : OpenAQDataSource.averaged_measurements g <> []).
  { intro E. rewrite E in Hkeys. discriminate. }
  destruct (primary_from_ground g s' Hne) as [_ Hconf]. rewrite Hconf.
  destruct (OpenAQDataSource.averaged_measurements g)
    as [|[k1 v1] [|[k2 v2] [|[k3 v3] [|]]]]; try discriminate.
  injection Hkeys as -> -> ->. reflexivity.
Qed.

(** C3, as the code has it. When all four adapters raise, the result is
    built from the emergency ground reading, its confidence is "high"
    (the emergency reading carries pm25 and no2, two convertible
    pollutants), and the error map has four entries, one per source. *)
Theorem all_adapters_failing `{PyLib} :
  forall e weather_first lat lon s,
    always_raises (tempo_source e) ->
    always_raises (openaq_source e) ->
    always_raises (aqicn_source e) ->
    always_raises (weather_source e) ->
    let r := fst (get_comprehensive_air_quality e weather_first lat lon s) in
    (exists g, raw_openaq (raw r) = Some g
               /\ OpenAQDataSource.r_source g = "OpenAQ (Emergency Fallback)"%string)
    /\ ground_sensors (sources r) = true
    /\ confidence (fused r) = "high"%string
    /\ exists errors,
         data_source_errors r = Some errors
         /\ Dict.keys errors = ["tempo"; "openaq"; "aqicn"; "weather"]%string
         /\ Dict.len errors = 4%nat.
Proof.
  intros e weather_first lat lon s H0 H1 H2 H3. cbv zeta.
  destruct (gather_slots e weather_first lat lon s) as [s1 [s2 [s3 E]]].
  destruct (H0 lat lon s) as [m0 E0]. destruct (H1 lat lon s1) as [m1 E1].
  destruct (H2 lat lon s2) as [m2 E2]. destruct (H3 lat lon s3) as [m3 E3].
  rewrite E0, E1, E2, E3 in E. clear E0 E1 E2 E3.
  rewrite run_comprehensive, E.
  set (s' := snd (gather e weather_first lat lon s)).
  destruct (fuse_results_shape (Raised m0) (Raised m1) (Raised m2) (Raised m3)
              lat lon s') as [Hsrc [_ [Hraw Herr]]].
  rewrite Hsrc, Hraw, Herr. clear Hsrc Hraw Herr.
  unfold fused_ground. cbn [all_sources_failed data_of present orb negb].
  split; [|split; [|split]].
  - eexists. split; [reflexivity|]. apply emergency_shape.
  - reflexivity.
  - rewrite fuse_results_metrics. cbn [all_sources_failed data_of present orb negb].
    rewrite fuse_confidence. simpl preferred_sensor. apply emergency_confidence.
  - eexists. split; [reflexivity|]. split; reflexivity.
Qed.

Lemma failing_engine_raises `{PyLib} :
  always_raises (tempo_source failing_engine)
  /\ always_raises (openaq_source failing_engine)
  /\ always_raises (aqicn_source failing_engine)
  /\ always_raises (weather_source failing_engine).
Proof.
  repeat split; intros lat lon s; eexists; reflexivity.
Qed.

(** The failing engine at (40.7, -74.0). *)
Lemma all_adapters_failing_witness :
  let r := fst (@get_comprehensive_air_quality Sample.lib
                  (@failing_engine Sample.lib) false 40.7 (-74.0) 7%Z) in
  (exists g, raw_openaq (raw r) = Some g
             /\ OpenAQDataSource.r_source g = "OpenAQ (Emergency Fallback)"%string)
  /\ ground_sensors (sources r) = true
  /\ confidence (fused r) = "high"%string
  /\ exists errors,
       data_source_errors r = Some errors
       /\ Dict.keys errors = ["tempo"; "openaq"; "aqicn"; "weather"]%string
       /\ Dict.len errors = 4%nat.
Proof.
  exact (@all_adapters_failing Sample.lib (@failing_engine Sample.lib)
           false 40.7 (-74.0) 7%Z
           (proj1 (@failing_engine_raises Sample.lib))
           (proj1 (proj2 (@failing_engine_raises Sample.lib)))
           (proj1 (proj2 (proj2 (@failing_engine_raises Sample.lib))))
           (proj2 (proj2 (proj2 (@failing_engine_raises Sample.lib))))).
Defined.

(** C3 as stated fails: with every adapter raising, the confidence label
    is "high", not "low", at every coordinate. *)
Lemma emergency_confidence_is_high :
  (forall (L : PyLib) weather_first lat lon (s : rng),
      let r := fst (get_comprehensive_air_quality failing_engine weather_first lat lon s) in
      confidence (fused r) = "high"%string
      /\ primary_source (fused r) = "ground_sensors"%string)
  /\ String.eqb "high" "low" = false.
Proof.
  split; [|reflexivity].
  intros L weather_first lat lon s. cbv zeta.
  rewrite run_comprehensive.
  assert (E : fst (gather failing_engine weather_first lat lon s)
              = (Raised "satellite down"%string, Raised "ground sensors down"%string,
                 Raised "aqicn down"%string, Raised "weather down"%string)).
  { unfold gather, bind, failing_engine, ret. simpl. now destruct weather_first. }
  rewrite E, fuse_results_metrics. cbn [all_sources_failed data_of present orb negb].
  rewrite fuse_metrics. simpl preferred_sensor.
  set (s' := snd (gather failing_engine weather_first lat lon s)).
  split.
  - rewrite weather_keeps_confidence, enhance_keeps_confidence.
    apply emergency_confidence.
  - simpl.
    pose proof (emergency_shape lat lon s') as [_ Hkeys]. cbv zeta in Hkeys.
    set (g := fst (_generate_emergency_fallback_data lat lon s')) in *.
    unfold _calculate_primary_aqi. rewrite aqicn_index_ground.
    simpl get_averaged_measurements.
    destruct (OpenAQDataSource.averaged_measurements g) as [|kv rest];
      [discriminate|].
    simpl Dict.truthy. cbn [negb].
    destruct (convert_present (kv :: rest)). reflexivity.
Qed.

(** ** Spatial averaging *)

Module AveragingFacts.

Import OpenAQDataSource.
Import Averaging.

Lemma string_key_eqb (a b : string) : Dict.key_eqb a b = String.eqb a b.
Proof. reflexivity. Qed.

Lemma accumulate_get weight w k m p :
  Dict.get p (accumulate weight w (k, m))
  = if String.eqb p k
    then Some (add_to weight m (sums_or_zero (Dict.get k w)))
    else Dict.get p w.
Proof.
  unfold accumulate, add_to, Dict.contains.
  destruct (String.eqb p k) eqn:E.
  - apply String.eqb_eq in E. subst p.
    destruct (Dict.get k w) as [acc|] eqn:G.
    + rewrite G. destruct (value m); [apply DictFacts.get_set_same | exact G].
    + rewrite DictFacts.get_set_same.
      destruct (value m); apply DictFacts.get_set_same.
  - apply String.eqb_neq in E.
    assert (N : k <> p) by congruence.
    destruct (Dict.get k w) as [acc|] eqn:G.
    + rewrite G. destruct (value m); [now apply DictFacts.get_set_other | reflexivity].
    + rewrite DictFacts.get_set_same.
      destruct (value m); rewrite ?DictFacts.get_set_other by exact N; reflexivity.
Qed.

Lemma accumulate_wf weight w item : Dict.wf w -> Dict.wf (accumulate weight w item).
Proof.
  intro W. destruct item as [k m]. unfold accumulate.
  set (w1 := if Dict.contains k w then w else Dict.set k _ w).
  assert (W1 : Dict.wf w1).
  { unfold w1. destruct (Dict.contains k w); [exact W | now apply DictFacts.wf_set]. }
  destruct (value m); [|exact W1].
  destruct (Dict.get k w1); [now apply DictFacts.wf_set | exact W1].
Qed.

(** The inner loop over the items of one station. *)
Lemma inner_loop weight (items : dict string measurement) :
  Dict.wf items ->
  forall w p,
    Dict.get p (fold_left (accumulate weight) items w)
    = match Dict.get p items with
      | Some m => Some (add_to weight m (sums_or_zero (Dict.get p w)))
      | None => Dict.get p w
      end.
Proof.
  induction items as [|[k m] rest IH]; intros W w p.
  - reflexivity.
  - unfold Dict.wf in W. simpl in W. inversion W as [|? ? Hnot Hrest]; subst.
    cbn [fold_left Dict.get]. rewrite (IH Hrest), accumulate_get.
    change (Dict.key_eqb p k) with (String.eqb p k).
    destruct (String.eqb p k) eqn:E.
    + apply String.eqb_eq in E. subst p.
      apply DictFacts.get_None_notin in Hnot. now rewrite Hnot.
    + reflexivity.
Qed.

Lemma inner_loop_wf weight (items : dict string measurement) w :
  Dict.wf w -> Dict.wf (fold_left (accumulate weight) items w).
Proof.
  revert w. induction items as [|item rest IH]; intros w W; simpl.
  - exact W.
  - apply IH. now apply accumulate_wf.
Qed.

Lemma weighted_sum_cons p st rest :
  weighted_sum p (st :: rest)
  = match reported p st with
    | Some v => v * weight_of st + weighted_sum p rest
    | None => weighted_sum p rest
    end.
Proof.
  unfold weighted_sum, reports. simpl. destruct (reported p st); reflexivity.
Qed.

Lemma weight_sum_cons p st rest :
  weight_sum p (st :: rest)
  = match reported p st with
    | Some v => weight_of st + weight_sum p rest
    | None => weight_sum p rest
    end.
Proof.
  unfold weight_sum, reports. simpl. destruct (reported p st); reflexivity.
Qed.

Lemma reports_cons p st rest :
  reports p (st :: rest)
  = match reported p st with
    | Some v => (v, weight_of st) :: reports p rest
    | None => reports p rest
    end.
Proof.
  unfold reports. simpl. destruct (reported p st); reflexivity.
Qed.

(** The outer loop: from any running sums [w], the sums after the
    stations [sts] are those of [w] plus the two sums over [sts]. *)
Lemma outer_loop (sts : list station) :
  Forall well_formed sts ->
  forall w,
    exists w',
      fold_left add_station sts (Some w) = Some w'
      /\ (Dict.wf w -> Dict.wf w')
      /\ forall p,
           match Dict.get p w' with
           | Some acc =>
               total_value acc
               == total_value (sums_or_zero (Dict.get p w)) + weighted_sum p sts
               /\ total_weight acc
                  == total_weight (sums_or_zero (Dict.get p w)) + weight_sum p sts
           | None => Dict.get p w = None /\ reports p sts = []
           end.
Proof.
  induction sts as [|st rest IH]; intros Hall w.
  - exists w. split; [reflexivity|]. split; [auto|].
    intro p. destruct (Dict.get p w) as [acc|]; simpl.
    + unfold weighted_sum, weight_sum. simpl. split; ring.
    + split; reflexivity.
  - inversion Hall as [|? ? [Hd Hwf] Hrest]; subst.
    assert (Hnz : Py.eqb (distance_km st + 1) 0 = false).
    { unfold Py.eqb. destruct (Qeq_bool (distance_km st + 1) 0) eqn:E; [|reflexivity].
      apply Qeq_bool_iff in E. lra. }
    set (weight := 1 / (distance_km st + 1)).
    set (w1 := fold_left (accumulate weight) (Dict.items (measurements st)) w).
    assert (Hstep : add_station (Some w) st = Some w1).
    { unfold add_station. rewrite Hnz. reflexivity. }
    cbn [fold_left]. rewrite Hstep.
    destruct (IH Hrest w1) as [w' [Hfold [Hwf' Hsums]]].
    exists w'. split; [exact Hfold|].
    split; [intro W; apply Hwf'; now apply inner_loop_wf|].
    intro p. specialize (Hsums p).
    assert (Hw1 : Dict.get p w1
                  = match Dict.get p (measurements st) with
                    | Some m => Some (add_to weight m (sums_or_zero (Dict.get p w)))
                    | None => Dict.get p w
                    end)
      by (apply inner_loop; exact Hwf).
    rewrite weighted_sum_cons, weight_sum_cons, reports_cons.
    unfold reported. fold weight. change (weight_of st) with weight.
    destruct (Dict.get p w') as [acc|].
    + destruct Hsums as [Hv Hw]. rewrite Hv, Hw, Hw1. clear Hv Hw Hw1.
      destruct (Dict.get p (measurements st)) as [m|]; [|split; reflexivity].
      unfold add_to. destruct (value m) as [v|]; simpl; split; ring.
    + destruct Hsums as [Hnone Hrep]. rewrite Hw1 in Hnone.
      destruct (Dict.get p (measurements st)) as [m|]; [discriminate|].
      split; assumption.
Qed.

Lemma finish_get result k data p :
  Dict.get p (finish result (k, data))
  = if String.eqb p k && Py.ltb 0 (total_weight data) then
      Some {| avg_value := Py.round_n (total_value data / total_weight data) 2;
              confidence := Py.min (total_weight data * 10) 100 |}
    else Dict.get p result.
Proof.
  unfold finish.
  destruct (Py.ltb 0 (total_weight data)); [|now rewrite andb_false_r].
  rewrite andb_true_r.
  destruct (String.eqb p k) eqn:E.
  - apply String.eqb_eq in E. subst p. apply DictFacts.get_set_same.
  - apply String.eqb_neq in E. apply DictFacts.get_set_other. congruence.
Qed.

(** The final loop over the running sums. *)
Lemma final_loop (w : dict string sums) :
  Dict.wf w ->
  forall result p,
    Dict.get p (fold_left finish w result)
    = match Dict.get p w with
      | Some data =>
          if Py.ltb 0 (total_weight data) then
            Some {| avg_value := Py.round_n (total_value data / total_weight data) 2;
                    confidence := Py.min (total_weight data * 10) 100 |}
          else Dict.get p result
      | None => Dict.get p result
      end.
Proof.
  induction w as [|[k data] rest IH]; intros W result p.
  - reflexivity.
  - unfold Dict.wf in W. simpl in W. inversion W as [|? ? Hnot Hrest]; subst.
    cbn [fold_left Dict.get]. rewrite (IH Hrest), finish_get.
    change (Dict.key_eqb p k) with (String.eqb p k).
    destruct (String.eqb p k) eqn:E.
    + apply String.eqb_eq in E. subst p.
      apply DictFacts.get_None_notin in Hnot. rewrite Hnot. reflexivity.
    + simpl. reflexivity.
Qed.

Lemma weight_positive st : well_formed st -> 0 < weight_of st.
Proof.
  intros [Hd _]. unfold weight_of. apply Qlt_shift_div_l; lra.
Qed.

Lemma weight_sum_positive p sts :
  Forall well_formed sts -> reports p sts <> [] -> 0 < weight_sum p sts.
Proof.
  intros Hall. 
  assert (Hnn : forall l, Forall well_formed l -> 0 <= weight_sum p l).
  { induction l as [|st rest IH]; intro Hl.
    - unfold weight_sum. simpl. apply Qle_refl.
    - inversion Hl; subst. rewrite weight_sum_cons.
      pose proof (weight_positive st ltac:(assumption)).
      specialize (IH ltac:(assumption)).
      destruct (reported p st); lra. }
  induction sts as [|st rest IH]; intro Hne.
  - contradiction.
  - inversion Hall; subst. rewrite weight_sum_cons. rewrite reports_cons in Hne.
    pose proof (weight_positive st ltac:(assumption)).
    destruct (reported p st).
    + pose proof (Hnn rest ltac:(assumption)). lra.
    + now apply IH.
Qed.

Lemma weight_sum_none p sts : reports p sts = [] -> weight_sum p sts == 0.
Proof. unfold weight_sum. intros ->. reflexivity. Qed.

Lemma round_n_comp x y n : x == y -> Py.round_n x n = Py.round_n y n.
Proof.
  intro E. unfold Py.round_n.
  assert (R : Py.round (x * Py.pow10 n) = Py.round (y * Py.pow10 n))
    by (apply PyFacts.round_comp; now rewrite E).
  now rewrite R.
Qed.

Lemma min_comp a a' b : a == a' -> Py.min a b == Py.min a' b.
Proof.
  intro E. unfold Py.min.
  destruct (Py.ltb b a) eqn:C; destruct (Py.ltb b a') eqn:C'; try reflexivity;
    try exact E.
  - apply PyFacts.ltb_lt in C. apply PyFacts.ltb_ge in C'. lra.
  - apply PyFacts.ltb_ge in C. apply PyFacts.ltb_lt in C'. lra.
Qed.

(** The averaging over well-formed stations never divides by zero, and
    its result holds, for each pollutant some station reports, the
    rounded quotient of the two sums and the capped confidence; a
    pollutant no station reports a value for is left out. *)
Lemma weighted_average_sums {K} (stations : dict K station) :
  Forall well_formed (Dict.values stations) ->
  exists result,
    _calculate_weighted_average stations = Some result
    /\ forall p,
         let sts := Dict.values stations in
         (reports p sts <> [] ->
          exists a,
            Dict.get p result = Some a
            /\ avg_value a = Py.round_n (weighted_sum p sts / weight_sum p sts) 2
            /\ confidence a == Py.min (weight_sum p sts * 10) 100)
         /\ (reports p sts = [] -> Dict.get p result = None).
Proof.
  intro Hall.
  destruct (outer_loop (Dict.values stations) Hall Dict.empty)
    as [w' [Hfold [Hwf Hsums]]].
  unfold _calculate_weighted_average. rewrite Hfold.
  eexists. split; [reflexivity|].
  intro p. cbv zeta. set (sts := Dict.values stations) in *. unfold Dict.items.
  rewrite (final_loop w' (Hwf DictFacts.wf_empty)).
  specialize (Hsums p).
  destruct (Dict.get p w') as [acc|].
  - destruct Hsums as [Hv Hw]. simpl in Hv, Hw.
    rewrite Qplus_0_l in Hv, Hw.
    split.
    + intro Hne.
      pose proof (weight_sum_positive p sts Hall Hne) as Hpos.
      assert (Hlt : Py.ltb 0 (total_weight acc) = true)
        by (apply PyFacts.ltb_lt; rewrite Hw; exact Hpos).
      rewrite Hlt. eexists. split; [reflexivity|]. simpl. split.
      * apply round_n_comp. now rewrite Hv, Hw.
      * apply min_comp. now rewrite Hw.
    + intro Hnone. apply weight_sum_none in Hnone.
      assert (Hge : Py.ltb 0 (total_weight acc) = false)
        by (apply PyFacts.ltb_ge; rewrite Hw, Hnone; apply Qle_refl).
      rewrite Hge. reflexivity.
  - destruct Hsums as [_ Hrep]. split.
    + intro Hne. contradiction.
    + intros _. reflexivity.
Qed.


(** *** The stations grouped from a response *)

Section Grouping.

Context `{PyLib}.

Lemma values_set_Forall {K V} `{Dict.EqKey K} (P : V -> Prop) k v (d : dict K V) :
  P v -> Forall P (Dict.values d) -> Forall P (Dict.values (Dict.set k v d)).
Proof.
  intros Hv. unfold Dict.values.
  induction d as [|[k0 v0] rest IH]; intro Hall; simpl.
  - constructor; [exact Hv | constructor].
  - inversion Hall; subst. destruct (Dict.key_eqb k k0); simpl.
    + constructor; assumption.
    + constructor; [assumption | now apply IH].
Qed.

Lemma get_Forall {K V} `{Dict.EqKey K} (P : V -> Prop) k v (d : dict K V) :
  Forall P (Dict.values d) -> Dict.get k d = Some v -> P v.
Proof.
  unfold Dict.values. induction d as [|[k0 v0] rest IH]; intros Hall Hget; simpl in *.
  - discriminate.
  - inversion Hall; subst. destruct (Dict.key_eqb k k0).
    + injection Hget as <-. assumption.
    + now apply IH.
Qed.

Lemma distance_nonneg lat1 lon1 lat2 lon2 :
  0 <= _calculate_distance lat1 lon1 lat2 lon2.
Proof.
  unfold _calculate_distance.
  destruct (geodesic_km (lat1, lon1) (lat2, lon2)) as [km|] eqn:E.
  - change 0 with (inject_Z 0). apply PyFacts.round_n_ge_Z.
    change (inject_Z 0) with 0. exact (@geodesic_km_nonneg _ _ _ _ E).
  - discriminate.
Qed.

Lemma add_measure_wf src ms m : Dict.wf ms -> Dict.wf (add_measure src ms m).
Proof.
  intro W. unfold add_measure.
  destruct (parameter m) as [param|]; [|exact W].
  destruct (String.eqb param EmptyString); [exact W | now apply DictFacts.wf_set].
Qed.

Lemma add_measures_wf src measures ms :
  Dict.wf ms -> Dict.wf (fold_left (add_measure src) measures ms).
Proof.
  revert ms. induction measures as [|m rest IH]; intros ms W; simpl.
  - exact W.
  - apply IH. now apply add_measure_wf.
Qed.

Lemma add_result_well_formed lat lon stations r :
  Forall well_formed (Dict.values stations) ->
  Forall well_formed (Dict.values (add_result lat lon stations r)).
Proof.
  intro Hall. unfold add_result.
  set (created := if Dict.contains (api_location r) stations then stations
                  else Dict.set (api_location r) _ stations).
  assert (Hc : Forall well_formed (Dict.values created)).
  { unfold created. destruct (Dict.contains (api_location r) stations); [exact Hall|].
    apply values_set_Forall; [|exact Hall].
    split; [apply distance_nonneg | apply DictFacts.wf_empty]. }
  destruct (Dict.get (api_location r) created) as [st|] eqn:G; [|exact Hc].
  apply values_set_Forall; [|exact Hc].
  destruct (get_Forall well_formed _ _ _ Hc G) as [Hd Hw].
  split; [exact Hd | now apply add_measures_wf].
Qed.

Lemma grouped_well_formed results lat lon :
  Forall well_formed (Dict.values (group_by_station results lat lon)).
Proof.
  unfold group_by_station.
  assert (G : forall stations,
    Forall well_formed (Dict.values stations) ->
    Forall well_formed (Dict.values (fold_left (add_result lat lon) results stations))).
  { induction results as [|r rest IH]; intros stations Hall; simpl.
    - exact Hall.
    - apply IH. now apply add_result_well_formed. }
  apply G. constructor.
Qed.

End Grouping.

End AveragingFacts.

Lemma pm25_station_well_formed distance value_ :
  0 <= distance -> Averaging.well_formed (pm25_station distance value_).
Proof.
  intro Hd. split; [exact Hd|].
  unfold Dict.wf. simpl. constructor; [intros []|constructor].
Qed.




(** ** Determinism of the synthesized data *)

Lemma location_key_of_formats lat1 lon1 lat2 lon2 :
  Py.format_f 3 lat1 = Py.format_f 3 lat2 ->
  Py.format_f 3 lon1 = Py.format_f 3 lon2 ->
  OpenAQDataSource.location_key lat1 lon1 = OpenAQDataSource.location_key lat2 lon2.
Proof.
  intros Hlat Hlon. unfold OpenAQDataSource.location_key. now rewrite Hlat, Hlon.
Qed.

(** The values of the mock reading are those of the three bases drawn
    from the generator seeded with the location. *)
Lemma mock_values `{PyLib} lat lon s :
  pollutant_values (fst (OpenAQDataSource._generate_mock_openaq_data lat lon s))
  = let '(base_pm25, base_pm10, base_no2) :=
      fst (OpenAQDataSource.mock_bases lat lon
             (rng_seed (OpenAQDataSource.location_seed lat lon))) in
    ([ ("pm25"%string, {| OpenAQDataSource.avg_value := Py.round_n base_pm25 1;
                          OpenAQDataSource.confidence := 75 |});
       ("pm10"%string, {| OpenAQDataSource.avg_value := Py.round_n base_pm10 1;
                          OpenAQDataSource.confidence := 75 |});
       ("no2"%string, {| OpenAQDataSource.avg_value := Py.round_n base_no2 1;
                         OpenAQDataSource.confidence := 70 |}) ],
     [ [ ("pm25"%string, OpenAQDataSource.estimate base_pm25);
         ("pm10"%string, OpenAQDataSource.estimate base_pm10);
         ("no2"%string, OpenAQDataSource.estimate base_no2) ] ]).
Proof.
  unfold OpenAQDataSource._generate_mock_openaq_data, bind, Random.seed.
  destruct (OpenAQDataSource.mock_bases lat lon
              (rng_seed (OpenAQDataSource.location_seed lat lon)))
    as [[[b1 b2] b3] s']. reflexivity.
Qed.

Lemma mock_bases_flags `{PyLib} lat1 lon1 lat2 lon2 :
  OpenAQDataSource.is_india lat1 lon1 = OpenAQDataSource.is_india lat2 lon2 ->
  OpenAQDataSource.is_urban lat1 lon1 = OpenAQDataSource.is_urban lat2 lon2 ->
  OpenAQDataSource.mock_bases lat1 lon1 = OpenAQDataSource.mock_bases lat2 lon2.
Proof.
  intros Hi Hu. unfold OpenAQDataSource.mock_bases. now rewrite Hi, Hu.
Qed.

(** The values of the emergency reading, from the six draws of the
    generator seeded with the location. *)
Lemma emergency_values `{PyLib} lat lon :
  exists u1 u2 u3 u4 u5 u6,
    (forall lat' lon' s',
        OpenAQDataSource.location_key lat' lon' = OpenAQDataSource.location_key lat lon ->
        pollutant_values (fst (_generate_emergency_fallback_data lat' lon' s'))
        = ([ ("pm25"%string,
              {| OpenAQDataSource.avg_value := Py.round_n (pm25_base lat' lon' + u4) 1;
                 OpenAQDataSource.confidence := 50 |});
             ("pm10"%string,
              {| OpenAQDataSource.avg_value := Py.round_n (pm10_base lat' lon' + u5) 1;
                 OpenAQDataSource.confidence := 50 |});
             ("no2"%string,
              {| OpenAQDataSource.avg_value := Py.round_n (no2_base lat' + u6) 1;
                 OpenAQDataSource.confidence := 45 |}) ],
           [ [ ("pm25"%string, emergency_estimate (pm25_base lat' lon' + u1));
               ("pm10"%string, emergency_estimate (pm10_base lat' lon' + u2));
               ("no2"%string, emergency_estimate (no2_base lat' + u3)) ] ]))
    /\ -5 <= u4 <= 5.
Proof.
  set (s0 := rng_seed (OpenAQDataSource.location_seed lat lon)).
  destruct (Random.uniform (-5) 5 s0) as [u1 s1] eqn:E1.
  destruct (Random.uniform (-8) 8 s1) as [u2 s2] eqn:E2.
  destruct (Random.uniform (-3) 3 s2) as [u3 s3] eqn:E3.
  pose proof (@RandomFacts.uniform_range _ (-5) 5 s3 ltac:(discriminate)) as Hu4.
  destruct (Random.uniform (-5) 5 s3) as [u4 s4] eqn:E4.
  destruct (Random.uniform (-8) 8 s4) as [u5 s5] eqn:E5.
  destruct (Random.uniform (-3) 3 s5) as [u6 s6] eqn:E6.
  exists u1, u2, u3, u4, u5, u6. split; [|exact Hu4].
  intros lat' lon' s' Hkey.
  unfold _generate_emergency_fallback_data, bind, Random.seed.
  unfold OpenAQDataSource.location_seed. rewrite Hkey.
  fold (OpenAQDataSource.location_seed lat lon). fold s0.
  rewrite E1, E2, E3, E4, E5, E6. reflexivity.
Qed.

Lemma emergency_estimate_comp x y : x == y -> emergency_estimate x = emergency_estimate y.
Proof.
  intro E. unfold emergency_estimate. now rewrite (AveragingFacts.round_n_comp x y 1 E).
Qed.

Lemma format_of_quantized x y :
  same_quantized x y -> Py.format_f 3 x = Py.format_f 3 y.
Proof.
  intros [Hsign Hround]. unfold Py.format_f, Py.abs in *. cbv zeta.
  now rewrite Hsign, Hround.
Qed.

(** C9, as the code has it. The seed is the hash of the text
    [f"{lat:.3f},{lon:.3f}"], which two coordinate inputs share when
    their latitudes and their longitudes have the same sign and, in
    absolute value, round to the same three decimal places. For two such
    inputs both generators draw from the same seeded sequence, whatever
    the generator state before. The ground-data fallback synthesizer then
    produces identical pollutant values when the inputs also agree on the
    [is_india] and [is_urban] tests, which are computed from the
    coordinates as passed in. The emergency generator adds the same six
    offsets for both inputs to the base values [pm25_base], [pm10_base]
    and [no2_base] of each input, which are computed from the coordinates
    as passed in, and rounds the sums to one decimal place. *)
Theorem synthesis_determinism `{PyLib} :
  forall lat1 lon1 lat2 lon2 s1 s2,
    same_quantized lat1 lat2 ->
    same_quantized lon1 lon2 ->
    OpenAQDataSource.location_seed lat1 lon1 = OpenAQDataSource.location_seed lat2 lon2
    /\ (OpenAQDataSource.is_india lat1 lon1 = OpenAQDataSource.is_india lat2 lon2 ->
        OpenAQDataSource.is_urban lat1 lon1 = OpenAQDataSource.is_urban lat2 lon2 ->
        pollutant_values (fst (OpenAQDataSource._generate_mock_openaq_data lat1 lon1 s1))
        = pollutant_values (fst (OpenAQDataSource._generate_mock_openaq_data lat2 lon2 s2)))
    /\ exists u1 u2 u3 u4 u5 u6,
         pollutant_values (fst (_generate_emergency_fallback_data lat1 lon1 s1))
         = emergency_values_at lat1 lon1 u1 u2 u3 u4 u5 u6
         /\ pollutant_values (fst (_generate_emergency_fallback_data lat2 lon2 s2))
            = emergency_values_at lat2 lon2 u1 u2 u3 u4 u5 u6
         /\ -5 <= u1 <= 5 /\ -8 <= u2 <= 8 /\ -3 <= u3 <= 3
         /\ -5 <= u4 <= 5 /\ -8 <= u5 <= 8 /\ -3 <= u6 <= 3.
Proof.
  intros lat1 lon1 lat2 lon2 s1 s2 Hlat Hlon.
  pose proof (location_key_of_formats lat1 lon1 lat2 lon2
                (format_of_quantized lat1 lat2 Hlat)
                (format_of_quantized lon1 lon2 Hlon)) as Hkey.
  assert (Hseed : OpenAQDataSource.location_seed lat1 lon1
                  = OpenAQDataSource.location_seed lat2 lon2)
    by (unfold OpenAQDataSource.location_seed; now rewrite Hkey).
  split; [exact Hseed|]. split.
  - intros Hi Hu. rewrite !mock_values, Hseed.
    now rewrite (mock_bases_flags lat1 lon1 lat2 lon2 Hi Hu).
  - unfold _generate_emergency_fallback_data, bind, Random.seed, ret.
    rewrite Hseed.
    set (s0 := rng_seed (OpenAQDataSource.location_seed lat2 lon2)).
    pose proof (@RandomFacts.uniform_range _ (-5) 5 s0 ltac:(discriminate)) as R1.
    destruct (Random.uniform (-5) 5 s0) as [u1 t1].
    pose proof (@RandomFacts.uniform_range _ (-8) 8 t1 ltac:(discriminate)) as R2.
    destruct (Random.uniform (-8) 8 t1) as [u2 t2].
    pose proof (@RandomFacts.uniform_range _ (-3) 3 t2 ltac:(discriminate)) as R3.
    destruct (Random.uniform (-3) 3 t2) as [u3 t3].
    pose proof (@RandomFacts.uniform_range _ (-5) 5 t3 ltac:(discriminate)) as R4.
    destruct (Random.uniform (-5) 5 t3) as [u4 t4].
    pose proof (@RandomFacts.uniform_range _ (-8) 8 t4 ltac:(discriminate)) as R5.
    destruct (Random.uniform (-8) 8 t4) as [u5 t5].
    pose proof (@RandomFacts.uniform_range _ (-3) 3 t5 ltac:(discriminate)) as R6.
    destruct (Random.uniform (-3) 3 t5) as [u6 t6].
    cbn [fst] in *.
    exists u1, u2, u3, u4, u5, u6.
    split; [reflexivity|]. split; [reflexivity|]. tauto.
Qed.

(** The two generators at latitudes 40.7001 and 40.7002, from different
    generator states. *)
Lemma synthesis_determinism_witness :
  same_quantized 40.7001 40.7002
  /\ OpenAQDataSource.location_key 40.7001 (-74.0) = "40.700,-74.000"%string
  /\ OpenAQDataSource.location_key 40.7002 (-74.0) = "40.700,-74.000"%string
  /\ pollutant_values
       (fst (@OpenAQDataSource._generate_mock_openaq_data Sample.lib 40.7001 (-74.0) 7%Z))
     = pollutant_values
         (fst (@OpenAQDataSource._generate_mock_openaq_data Sample.lib 40.7002 (-74.0) 99%Z))
  /\ exists u1 u2 u3 u4 u5 u6,
       pollutant_values
         (fst (@_generate_emergency_fallback_data Sample.lib 40.7001 (-74.0) 7%Z))
       = emergency_values_at 40.7001 (-74.0) u1 u2 u3 u4 u5 u6
       /\ pollutant_values
            (fst (@_generate_emergency_fallback_data Sample.lib 40.7002 (-74.0) 99%Z))
          = emergency_values_at 40.7002 (-74.0) u1 u2 u3 u4 u5 u6
       /\ -5 <= u1 <= 5 /\ -8 <= u2 <= 8 /\ -3 <= u3 <= 3
       /\ -5 <= u4 <= 5 /\ -8 <= u5 <= 8 /\ -3 <= u6 <= 3.
Proof.
  assert (Hlat : same_quantized 40.7001 40.7002) by (split; reflexivity).
  assert (Hlon : same_quantized (-74.0) (-74.0)) by (split; reflexivity).
  split; [exact Hlat|]. split; [reflexivity|]. split; [reflexivity|].
  destruct (@synthesis_determinism Sample.lib 40.7001 (-74.0) 40.7002 (-74.0)
              7%Z 99%Z Hlat Hlon) as [_ [Hmock Hemergency]].
  split; [exact (Hmock eq_refl eq_refl) | exact Hemergency].
Defined.

(** One draw of [uniform] written out on the underlying [random()]. *)
Lemma uniform_run `{PyLib} a b s :
  Random.uniform a b s = (a + (b - a) * fst (rng_random s), snd (rng_random s)).
Proof.
  unfold Random.uniform, bind, Random.random, ret.
  destruct (rng_random s). reflexivity.
Qed.

(** C9 as stated fails for both generators, whatever the random
    generator is. 5.9996 and 6.0 both format to 6.000, but only the
    second passes the [is_india] test, and the synthesized PM2.5 differs.
    39.9996 and 40.0 both format to 40.000, but at longitude 40 the
    modulus in [pm25_base] wraps between them, and the emergency PM2.5
    differs. And -0.0001 and 0.0001 both round to 0.000 and agree on
    every test and base value, but their texts are "-0.000" and "0.000":
    the seeds are hashes of different texts, and with the sample
    generator the synthesized values differ. *)
Lemma synthesis_depends_on_unrounded_coordinates :
  (Py.format_f 3 5.9996 = Py.format_f 3 6.0
   /\ forall (L : PyLib) (s1 s2 : rng),
        exists a1 a2,
          Dict.get "pm25"%string
            (OpenAQDataSource.averaged_measurements
               (fst (OpenAQDataSource._generate_mock_openaq_data 5.9996 77 s1))) = Some a1
          /\ Dict.get "pm25"%string
               (OpenAQDataSource.averaged_measurements
                  (fst (OpenAQDataSource._generate_mock_openaq_data 6.0 77 s2))) = Some a2
          /\ OpenAQDataSource.avg_value a1 < OpenAQDataSource.avg_value a2)
  /\ (Py.format_f 3 39.9996 = Py.format_f 3 40.0
      /\ forall (L : PyLib) (s1 s2 : rng),
           exists a1 a2,
             Dict.get "pm25"%string
               (OpenAQDataSource.averaged_measurements
                  (fst (_generate_emergency_fallback_data 39.9996 40 s1))) = Some a1
             /\ Dict.get "pm25"%string
                  (OpenAQDataSource.averaged_measurements
                     (fst (_generate_emergency_fallback_data 40.0 40 s2))) = Some a2
             /\ OpenAQDataSource.avg_value a2 < OpenAQDataSource.avg_value a1)
  /\ (Py.round_n (-0.0001) 3 == Py.round_n 0.0001 3
      /\ OpenAQDataSource.is_india (-0.0001) 77 = OpenAQDataSource.is_india 0.0001 77
      /\ OpenAQDataSource.is_urban (-0.0001) 77 = OpenAQDataSource.is_urban 0.0001 77
      /\ pm25_base (-0.0001) 77 == pm25_base 0.0001 77
      /\ no2_base (-0.0001) == no2_base 0.0001
      /\ OpenAQDataSource.location_key (-0.0001) 77 = "-0.000,77.000"%string
      /\ OpenAQDataSource.location_key 0.0001 77 = "0.000,77.000"%string
      /\ pollutant_values
           (fst (@OpenAQDataSource._generate_mock_openaq_data Sample.lib (-0.0001) 77 7%Z))
         <> pollutant_values
              (fst (@OpenAQDataSource._generate_mock_openaq_data Sample.lib 0.0001 77 7%Z))
      /\ pollutant_values
           (fst (@_generate_emergency_fallback_data Sample.lib (-0.0001) 77 7%Z))
         <> pollutant_values
              (fst (@_generate_emergency_fallback_data Sample.lib 0.0001 77 7%Z))).
Proof.
  split; [|split];
    [ split; [reflexivity|]; intros L s1 s2
    | split; [reflexivity|]; intros L s1 s2
    | ].
  - pose proof (f_equal fst (mock_values 5.9996 77 s1)) as V1.
    pose proof (f_equal fst (mock_values 6.0 77 s2)) as V2.
    unfold pollutant_values in V1, V2. cbn [fst] in V1, V2.
    set (g1 := fst (OpenAQDataSource._generate_mock_openaq_data 5.9996 77 s1)) in *.
    set (g2 := fst (OpenAQDataSource._generate_mock_openaq_data 6.0 77 s2)) in *.
    clearbody g1 g2.
    assert (Hkey : OpenAQDataSource.location_seed 5.9996 77
                   = OpenAQDataSource.location_seed 6.0 77) by reflexivity.
    rewrite Hkey in V1.
    set (s0 := rng_seed (OpenAQDataSource.location_seed 6.0 77)) in *.
    unfold OpenAQDataSource.mock_bases in V1, V2.
    change (OpenAQDataSource.is_india 5.9996 77) with false in V1.
    change (OpenAQDataSource.is_urban 5.9996 77) with true in V1.
    change (OpenAQDataSource.is_india 6.0 77) with true in V2.
    change (OpenAQDataSource.is_urban 6.0 77) with true in V2.
    cbv iota in V1, V2. unfold bind in V1, V2.
    rewrite uniform_run in V1, V2.
    pose proof (rng_random_range s0) as [Hu0 Hu1].
    set (u := fst (rng_random s0)) in *. set (s' := snd (rng_random s0)) in *.
    destruct (Random.uniform 1.2 2.0 s') as [k1 sa].
    destruct (Random.uniform 15 40 sa) as [n1 sb].
    destruct (Random.uniform 1.5 2.5 s') as [k2 sc].
    destruct (Random.uniform 20 60 sc) as [n2 sd].
    cbn in V1, V2. rewrite V1, V2.
    eexists. eexists. split; [reflexivity|]. split; [reflexivity|].
    cbn [OpenAQDataSource.avg_value]. clearbody u.
    destruct (Qlt_le_dec u (1 # 2)) as [Hlow | Hhigh].
    + apply Qle_lt_trans with (y := inject_Z 17).
      * apply PyFacts.round_n_le_Z. change (inject_Z 17) with 17. lra.
      * apply Qlt_le_trans with (y := inject_Z 25); [reflexivity|].
        apply PyFacts.round_n_ge_Z. change (inject_Z 25) with 25. lra.
    + apply Qle_lt_trans with (y := inject_Z 25).
      * apply PyFacts.round_n_le_Z. change (inject_Z 25) with 25. lra.
      * apply Qlt_le_trans with (y := inject_Z 45); [reflexivity|].
        apply PyFacts.round_n_ge_Z. change (inject_Z 45) with 45. lra.
  - destruct (emergency_values 40.0 40) as [u1 [u2 [u3 [u4 [u5 [u6 [Hv Hu4]]]]]]].
    pose proof (f_equal fst (Hv 39.9996 40 s1 eq_refl)) as V1.
    pose proof (f_equal fst (Hv 40.0 40 s2 eq_refl)) as V2.
    unfold pollutant_values in V1, V2. cbn [fst] in V1, V2.
    rewrite V1, V2.
    eexists. eexists. split; [reflexivity|]. split; [reflexivity|].
    cbn [OpenAQDataSource.avg_value].
    assert (B1 : pm25_base 39.9996 40 == 64.9998) by (vm_compute; reflexivity).
    assert (B2 : pm25_base 40.0 40 == 25) by (vm_compute; reflexivity).
    apply Qle_lt_trans with (y := inject_Z 30).
    + apply PyFacts.round_n_le_Z. change (inject_Z 30) with 30. rewrite B2. lra.
    + apply Qlt_le_trans with (y := inject_Z 59); [reflexivity|].
      apply PyFacts.round_n_ge_Z. change (inject_Z 59) with 59. rewrite B1. lra.
  - repeat split; try (vm_compute; reflexivity);
      intro E; vm_compute in E; discriminate.
Qed.

(* ================================================================= *)
(** * Further properties of the code *)

(** ** Rounding is monotone *)

Lemma round_mono x y : x <= y -> (Py.round x <= Py.round y)%Z.
Proof.
  intro Hxy.
  assert (Hf : (Qfloor x <= Qfloor y)%Z) by now apply Qfloor_resp_le.
  destruct (Z.eq_dec (Qfloor x) (Qfloor y)) as [E|NE].
  - unfold Py.round. rewrite <- E.
    destruct (x - inject_Z (Qfloor x) ?= 1 # 2) eqn:Cx;
      destruct (y - inject_Z (Qfloor x) ?= 1 # 2) eqn:Cy;
      try (destruct (Z.even (Qfloor x))); try lia;
      repeat match goal with
      | C : (_ ?= _) = Eq |- _ => apply Qeq_alt in C
      | C : (_ ?= _) = Lt |- _ => apply Qlt_alt in C
      | C : (_ ?= _) = Gt |- _ => apply Qgt_alt in C
      end; lra.
  - pose proof (PyFacts.round_floor_bounds x). pose proof (PyFacts.round_floor_bounds y).
    lia.
Qed.

Lemma round_n_mono x y n : x <= y -> Py.round_n x n <= Py.round_n y n.
Proof.
  intro Hxy. unfold Py.round_n. pose proof (PyFacts.pow10_pos n) as Hp.
  apply Qmult_le_compat_r.
  - rewrite <- Zle_Qle. apply round_mono.
    apply Qmult_le_compat_r; [exact Hxy | now apply Qlt_le_weak].
  - apply Qlt_le_weak. now apply Qinv_lt_0_compat.
Qed.

(** [round(x, n)] of a number with at most [n] decimals is the number. *)
Lemma round_n_grid (z : Z) n : Py.round_n (inject_Z z / Py.pow10 n) n == inject_Z z / Py.pow10 n.
Proof.
  unfold Py.round_n. pose proof (PyFacts.pow10_pos n) as Hp.
  assert (E : inject_Z z / Py.pow10 n * Py.pow10 n == inject_Z z) by (field; lra).
  rewrite (PyFacts.round_comp E), PyFacts.round_Z. reflexivity.
Qed.

(** Rounding to [n] decimals never crosses a number with at most [n]
    decimals. *)
Lemma round_n_ge_grid (z : Z) x n :
  inject_Z z / Py.pow10 n <= x -> inject_Z z / Py.pow10 n <= Py.round_n x n.
Proof.
  intro H. rewrite <- (round_n_grid z n). now apply round_n_mono.
Qed.

Lemma round_n_le_grid (z : Z) x n :
  x <= inject_Z z / Py.pow10 n -> Py.round_n x n <= inject_Z z / Py.pow10 n.
Proof.
  intro H. rewrite <- (round_n_grid z n). now apply round_n_mono.
Qed.

(** ** The converters on and off their bands *)

Ltac each_band Hin :=
  unfold breakpoints in Hin; simpl in Hin;
  repeat (destruct Hin as [Hin|Hin]; [injection Hin as <- <- <- <-|]);
  try contradiction.

Lemma pm25_band_range bp_lo bp_hi aqi_lo aqi_hi c :
  In (bp_lo, bp_hi, aqi_lo, aqi_hi) breakpoints ->
  bp_lo <= c <= bp_hi ->
  aqi_lo <= inject_Z (_pm25_to_aqi c) <= aqi_hi.
Proof.
  intros Hin Hc. rewrite (pm25_in_band _ _ _ _ _ Hin Hc).
  each_band Hin;
    match goal with
    | Hc : _ <= c <= ?h |- ?lo <= inject_Z (Py.round (?s * (c - ?b) + ?lo)) <= ?hi =>
        pose proof (interpolate_bounds b h lo hi c
                      ltac:(reflexivity) ltac:(discriminate) Hc) as [B1 B2];
        unfold interpolate in B1, B2;
        set (v := s * (c - b) + lo) in *; clearbody v;
        let zl := eval vm_compute in (Qfloor lo) in
        let zh := eval vm_compute in (Qfloor hi) in
        change lo with (inject_Z zl) in *; change hi with (inject_Z zh) in *;
        rewrite <- !Zle_Qle;
        split; [now apply PyFacts.round_ge_Z | now apply PyFacts.round_le_Z]
    end.
Qed.

Lemma interpolate_mono bp_lo bp_hi aqi_lo aqi_hi c1 c2 :
  bp_lo < bp_hi -> aqi_lo <= aqi_hi -> c1 <= c2 ->
  interpolate (bp_lo, bp_hi, aqi_lo, aqi_hi) c1
  <= interpolate (bp_lo, bp_hi, aqi_lo, aqi_hi) c2.
Proof.
  intros Hbp Haqi Hc. unfold interpolate.
  set (slope := (aqi_hi - aqi_lo) / (bp_hi - bp_lo)).
  assert (Hs : 0 <= slope).
  { unfold slope. apply Qle_shift_div_l; lra. }
  assert (H1 : slope * (c1 - bp_lo) <= slope * (c2 - bp_lo)).
  { rewrite !(Qmult_comm slope). apply Qmult_le_compat_r; lra. }
  clearbody slope. lra.
Qed.

Lemma in_some_band c :
  existsb (fun band => in_band band c) breakpoints = true ->
  exists bp_lo bp_hi aqi_lo aqi_hi,
    In (bp_lo, bp_hi, aqi_lo, aqi_hi) breakpoints /\ bp_lo <= c <= bp_hi.
Proof.
  intro B. apply existsb_exists in B.
  destruct B as [[[[bp_lo bp_hi] aqi_lo] aqi_hi] [Hin B]].
  unfold in_band in B. apply andb_true_iff in B. destruct B as [L U].
  apply PyFacts.leb_le in L, U.
  exists bp_lo, bp_hi, aqi_lo, aqi_hi. auto.
Qed.

Lemma pm25_mono_in_bands lo1 hi1 a1 b1 lo2 hi2 a2 b2 c1 c2 :
  In (lo1, hi1, a1, b1) breakpoints -> lo1 <= c1 <= hi1 ->
  In (lo2, hi2, a2, b2) breakpoints -> lo2 <= c2 <= hi2 ->
  c1 <= c2 ->
  (_pm25_to_aqi c1 <= _pm25_to_aqi c2)%Z.
Proof.
  intros In1 [L1 U1] In2 [L2 U2] Hc.
  pose proof (pm25_band_range _ _ _ _ _ In1 (conj L1 U1)) as R1.
  pose proof (pm25_band_range _ _ _ _ _ In2 (conj L2 U2)) as R2.
  pose proof (pm25_in_band _ _ _ _ _ In1 (conj L1 U1)) as E1.
  pose proof (pm25_in_band _ _ _ _ _ In2 (conj L2 U2)) as E2.
  each_band In1; each_band In2;
    try lra;
    try (rewrite Zle_Qle; lra);
    rewrite E1, E2; apply round_mono;
    match goal with
    | U : c1 <= ?h, R : _ <= _ <= ?hi |- ?s * (c1 - ?b) + ?lo <= _ =>
        exact (interpolate_mono b h lo hi c1 c2 ltac:(reflexivity) ltac:(discriminate) Hc)
    end.
Qed.

(** X1. A PM2.5 concentration that lies in a band gets an index inside
    that band's index range. *)
Theorem pm25_index_within_band c :
  existsb (fun band => in_band band c) breakpoints = true ->
  exists bp_lo bp_hi aqi_lo aqi_hi,
    In (bp_lo, bp_hi, aqi_lo, aqi_hi) breakpoints
    /\ bp_lo <= c <= bp_hi
    /\ aqi_lo <= inject_Z (_pm25_to_aqi c) <= aqi_hi.
Proof.
  intro B. destruct (in_some_band c B) as [bp_lo [bp_hi [aqi_lo [aqi_hi [Hin Hc]]]]].
  exists bp_lo, bp_hi, aqi_lo, aqi_hi.
  split; [exact Hin|]. split; [exact Hc|].
  exact (pm25_band_range _ _ _ _ c Hin Hc).
Qed.

Lemma pm25_index_within_band_witness :
  exists bp_lo bp_hi aqi_lo aqi_hi,
    In (bp_lo, bp_hi, aqi_lo, aqi_hi) breakpoints
    /\ bp_lo <= 40 <= bp_hi
    /\ aqi_lo <= inject_Z (_pm25_to_aqi 40) <= aqi_hi.
Proof.
  apply (pm25_index_within_band 40). reflexivity.
Defined.

(** X2. On concentrations that lie in the bands the PM2.5 index is
    monotone. *)
Theorem pm25_monotone_on_bands c1 c2 :
  existsb (fun band => in_band band c1) breakpoints = true ->
  existsb (fun band => in_band band c2) breakpoints = true ->
  c1 <= c2 ->
  (_pm25_to_aqi c1 <= _pm25_to_aqi c2)%Z.
Proof.
  intros B1 B2 Hc.
  destruct (in_some_band c1 B1) as [lo1 [hi1 [a1 [b1 [In1 R1]]]]].
  destruct (in_some_band c2 B2) as [lo2 [hi2 [a2 [b2 [In2 R2]]]]].
  exact (pm25_mono_in_bands _ _ _ _ _ _ _ _ c1 c2 In1 R1 In2 R2 Hc).
Qed.

Lemma pm25_monotone_on_bands_witness : (_pm25_to_aqi 12 <= _pm25_to_aqi 12.1)%Z.
Proof.
  apply (pm25_monotone_on_bands 12 12.1); [reflexivity | reflexivity | discriminate].
Defined.

(** X3. A PM2.5 concentration below zero or strictly between two bands
    gets the index 500. *)
Theorem pm25_off_bands_is_500 c :
  c < 0 \/ 12.0 < c < 12.1 \/ 35.4 < c < 35.5 \/ 55.4 < c < 55.5
  \/ 150.4 < c < 150.5 \/ 250.4 < c < 250.5 ->
  _pm25_to_aqi c = 500%Z.
Proof.
  intro Hc.
  unfold _pm25_to_aqi, breakpoints, scan_breakpoints, in_band.
  destruct Hc as [Hc|[Hc|[Hc|[Hc|[Hc|Hc]]]]];
    settle_comparisons; rewrite ?andb_false_r; reflexivity.
Qed.

Lemma pm25_off_bands_is_500_witness : _pm25_to_aqi 35.45 = 500%Z.
Proof.
  apply (pm25_off_bands_is_500 35.45).
  right. right. left. split; reflexivity.
Defined.

Lemma tenths_in_a_band (z : Z) :
  (0 <= z <= 5004)%Z ->
  existsb (fun band => in_band band (inject_Z z / 10)) breakpoints = true.
Proof.
  intros [Z0 Z1].
  assert (E : inject_Z z / 10 * 10 == inject_Z z) by (field; discriminate).
  set (q := inject_Z z / 10) in *. clearbody q.
  rewrite Zle_Qle in Z0, Z1.
  change (inject_Z 0) with 0 in Z0. change (inject_Z 5004) with 5004 in Z1.
  unfold breakpoints, existsb, in_band.
  assert (C1 : inject_Z z <= 120 \/ 121 <= inject_Z z).
  { change 120 with (inject_Z 120). change 121 with (inject_Z 121).
    rewrite <- !Zle_Qle. lia. }
  assert (C2 : inject_Z z <= 354 \/ 355 <= inject_Z z).
  { change 354 with (inject_Z 354). change 355 with (inject_Z 355).
    rewrite <- !Zle_Qle. lia. }
  assert (C3 : inject_Z z <= 554 \/ 555 <= inject_Z z).
  { change 554 with (inject_Z 554). change 555 with (inject_Z 555).
    rewrite <- !Zle_Qle. lia. }
  assert (C4 : inject_Z z <= 1504 \/ 1505 <= inject_Z z).
  { change 1504 with (inject_Z 1504). change 1505 with (inject_Z 1505).
    rewrite <- !Zle_Qle. lia. }
  assert (C5 : inject_Z z <= 2504 \/ 2505 <= inject_Z z).
  { change 2504 with (inject_Z 2504). change 2505 with (inject_Z 2505).
    rewrite <- !Zle_Qle. lia. }
  set (iz := inject_Z z) in *. clearbody iz.
  destruct C1 as [C1|C1]; [settle_comparisons; reflexivity|].
  destruct C2 as [C2|C2]; [settle_comparisons; rewrite ?andb_false_r; reflexivity|].
  destruct C3 as [C3|C3]; [settle_comparisons; rewrite ?andb_false_r; reflexivity|].
  destruct C4 as [C4|C4]; [settle_comparisons; rewrite ?andb_false_r; reflexivity|].
  destruct C5 as [C5|C5]; settle_comparisons; rewrite ?andb_false_r; reflexivity.
Qed.

(** A number in [[0, 500.4]] rounded to one decimal is a number of
    tenths between 0 and 5004. *)
Lemma round_n_tenths x :
  0 <= x <= 500.4 ->
  exists z, Py.round_n x 1 = inject_Z z / 10 /\ (0 <= z <= 5004)%Z.
Proof.
  intros [H0 H1]. exists (Py.round (x * Py.pow10 1)). split; [reflexivity|]. split.
  - apply PyFacts.round_ge_Z. change (inject_Z 0) with 0.
    apply Qmult_le_0_compat; [exact H0 | discriminate].
  - apply PyFacts.round_le_Z. change (Py.pow10 1) with 10.
    change (inject_Z 5004) with 5004. lra.
Qed.

(** X4. A concentration rounded to one decimal place, as every
    synthesized reading has it, lies in a band. *)
Theorem one_decimal_in_a_band x :
  0 <= x <= 500.4 ->
  existsb (fun band => in_band band (Py.round_n x 1)) breakpoints = true.
Proof.
  intro Hx. destruct (round_n_tenths x Hx) as [z [E Hz]].
  rewrite E. now apply tenths_in_a_band.
Qed.

Lemma one_decimal_in_a_band_witness :
  existsb (fun band => in_band band (Py.round_n 35.45 1)) breakpoints = true.
Proof.
  apply (one_decimal_in_a_band 35.45). split; discriminate.
Defined.

Lemma o3_mono_off_gaps c1 c2 :
  c1 <= 54 \/ 55 <= c1 <= 70 \/ 71 <= c1 <= 85 \/ 86 <= c1 <= 105 \/ 106 <= c1 ->
  c2 <= 54 \/ 55 <= c2 <= 70 \/ 71 <= c2 <= 85 \/ 86 <= c2 <= 105 \/ 106 <= c2 ->
  c1 <= c2 ->
  _o3_to_aqi c1 <= _o3_to_aqi c2.
Proof.
  intros G1 G2 Hc. unfold _o3_to_aqi, Py.min.
  split_comparisons; fold_quotients; lra.
Qed.

Lemma no2_mono_off_gaps c1 c2 :
  c1 <= 53 \/ 54 <= c1 <= 100 \/ 101 <= c1 <= 360 \/ 361 <= c1 ->
  c2 <= 53 \/ 54 <= c2 <= 100 \/ 101 <= c2 <= 360 \/ 361 <= c2 ->
  c1 <= c2 ->
  _no2_to_aqi c1 <= _no2_to_aqi c2.
Proof.
  intros G1 G2 Hc. unfold _no2_to_aqi, Py.min.
  split_comparisons; fold_quotients; lra.
Qed.

(** X5. The ozone index and the nitrogen dioxide index are monotone on
    concentrations outside the open gaps between their segments: (54, 55),
    (70, 71), (85, 86), (105, 106) for ozone and (53, 54), (100, 101),
    (360, 361) for nitrogen dioxide. *)
Theorem gas_indices_monotone_off_gaps c1 c2 :
  c1 <= c2 ->
  (c1 <= 54 \/ 55 <= c1 <= 70 \/ 71 <= c1 <= 85 \/ 86 <= c1 <= 105 \/ 106 <= c1 ->
   c2 <= 54 \/ 55 <= c2 <= 70 \/ 71 <= c2 <= 85 \/ 86 <= c2 <= 105 \/ 106 <= c2 ->
   _o3_to_aqi c1 <= _o3_to_aqi c2)
  /\ (c1 <= 53 \/ 54 <= c1 <= 100 \/ 101 <= c1 <= 360 \/ 361 <= c1 ->
      c2 <= 53 \/ 54 <= c2 <= 100 \/ 101 <= c2 <= 360 \/ 361 <= c2 ->
      _no2_to_aqi c1 <= _no2_to_aqi c2).
Proof.
  intro Hc. split; intros G1 G2;
    [now apply o3_mono_off_gaps | now apply no2_mono_off_gaps].
Qed.

Lemma gas_indices_monotone_off_gaps_witness :
  _o3_to_aqi 54 <= _o3_to_aqi 55 /\ _no2_to_aqi 53 <= _no2_to_aqi 55.
Proof.
  assert (H : 54 <= 55) by discriminate.
  assert (H' : 53 <= 55) by discriminate.
  split.
  - apply (proj1 (gas_indices_monotone_off_gaps 54 55 H)).
    + left. discriminate.
    + right. left. split; discriminate.
  - apply (proj2 (gas_indices_monotone_off_gaps 53 55 H')).
    + left. discriminate.
    + right. left. split; discriminate.
Defined.

(** ** The weather adapter *)

Lemma int_comp x y : x == y -> Py.int x = Py.int y.
Proof.
  intro E. unfold Py.int, Py.leb.
  assert (B : Qle_bool 0 x = Qle_bool 0 y).
  { destruct (Qle_bool 0 x) eqn:Bx, (Qle_bool 0 y) eqn:By; try reflexivity.
    - apply Qle_bool_iff in Bx. rewrite E in Bx. apply Qle_bool_iff in Bx. congruence.
    - apply Qle_bool_iff in By. rewrite <- E in By. apply Qle_bool_iff in By. congruence. }
  rewrite B. destruct (Qle_bool 0 y); [now apply Qfloor_comp | now apply Qceiling_comp].
Qed.

Lemma assess_cases data :
  match WeatherDataSource.api_weather data with
  | Some [] => WeatherDataSource._assess_weather_impact data = None
  | _ =>
      exists label,
        WeatherDataSource._assess_weather_impact data = Some label
        /\ In label ["good_dispersion"; "cleansing"; "poor_dispersion";
                     "stagnant"; "moderate"]%string
  end.
Proof.
  unfold WeatherDataSource._assess_weather_impact, WeatherDataSource.first_condition.
  destruct (WeatherDataSource.api_weather data) as [[|c rest]|]; [reflexivity| |];
    eexists; (split; [reflexivity|]);
    repeat match goal with
    | |- context [if ?b then _ else _] => destruct b
    end; simpl; auto 10.
Qed.

Lemma process_weather_cases data :
  match WeatherDataSource.api_weather data with
  | Some [] => WeatherDataSource._process_weather_data data = None
  | _ =>
      exists r label,
        WeatherDataSource._process_weather_data data = Some r
        /\ WeatherDataSource._assess_weather_impact data = Some label
        /\ WeatherDataSource.air_quality_impact r = label
        /\ WeatherDataSource.source r = "OpenWeather"%string
        /\ WeatherDataSource.wind_speed r
           = WeatherDataSource.get_wind data WeatherDataSource.speed
        /\ WeatherDataSource.humidity r
           = WeatherDataSource.get_main data WeatherDataSource.api_humidity
  end.
Proof.
  pose proof (assess_cases data) as A.
  unfold WeatherDataSource._process_weather_data, WeatherDataSource.first_condition.
  destruct (WeatherDataSource.api_weather data) as [[|c rest]|].
  - reflexivity.
  - destruct A as [label [A _]]. rewrite A. eexists. exists label.
    repeat split; reflexivity.
  - destruct A as [label [A _]]. rewrite A. eexists. exists label.
    repeat split; reflexivity.
Qed.

(** X6. The weather assessment raises exactly on an empty ["weather"]
    list and otherwise gives one of its five labels. *)
Theorem weather_impact_total data :
  (WeatherDataSource._assess_weather_impact data = None
   <-> WeatherDataSource.api_weather data = Some [])
  /\ (WeatherDataSource._process_weather_data data = None
      <-> WeatherDataSource.api_weather data = Some [])
  /\ forall label,
       WeatherDataSource._assess_weather_impact data = Some label ->
       In label ["good_dispersion"; "cleansing"; "poor_dispersion";
                 "stagnant"; "moderate"]%string.
Proof.
  pose proof (assess_cases data) as A. pose proof (process_weather_cases data) as P.
  destruct (WeatherDataSource.api_weather data) as [[|c rest]|].
  - rewrite A, P. repeat split; auto; discriminate.
  - destruct A as [l [A Hl]]. destruct P as [r [l' [P _]]]. rewrite A, P.
    repeat split; try discriminate. intros label E. congruence.
  - destruct A as [l [A Hl]]. destruct P as [r [l' [P _]]]. rewrite A, P.
    repeat split; try discriminate. intros label E. congruence.
Qed.

Lemma weather_impact_total_witness :
  In "stagnant"%string
     ["good_dispersion"; "cleansing"; "poor_dispersion"; "stagnant"; "moderate"]%string.
Proof.
  apply (proj2 (proj2 (weather_impact_total
                         {| WeatherDataSource.api_main_ := None;
                            WeatherDataSource.api_wind_ := None;
                            WeatherDataSource.api_visibility := None;
                            WeatherDataSource.api_weather := None |}))).
  reflexivity.
Defined.

(** X7. A response without a wind speed counts as wind speed 0: it is
    never assessed as dispersing or moderate. *)
Theorem weather_without_wind_speed data label :
  WeatherDataSource.get_wind data WeatherDataSource.speed = None ->
  WeatherDataSource._assess_weather_impact data = Some label ->
  label = "cleansing"%string \/ label = "poor_dispersion"%string
  \/ label = "stagnant"%string.
Proof.
  unfold WeatherDataSource._assess_weather_impact. intros -> E.
  destruct (WeatherDataSource.first_condition data) as [m|]; [|discriminate].
  cbn [WeatherDataSource.or_else] in E.
  change (Py.ltb 5 0) with false in E. change (Py.ltb 0 2) with true in E.
  injection E as <-.
  repeat match goal with
  | |- context [if ?b then _ else _] => destruct b
  end; auto.
Qed.

Lemma weather_without_wind_speed_witness :
  "stagnant"%string = "cleansing"%string \/ "stagnant"%string = "poor_dispersion"%string
  \/ "stagnant"%string = "stagnant"%string.
Proof.
  apply (weather_without_wind_speed
           {| WeatherDataSource.api_main_ := None;
              WeatherDataSource.api_wind_ := None;
              WeatherDataSource.api_visibility := None;
              WeatherDataSource.api_weather := None |}); reflexivity.
Defined.

(** X8. Wind over 5 decides the assessment before rain and humidity are
    looked at: the corrected index is [int(overall_aqi * 0.9)] whatever
    the condition. *)
Theorem wind_decides_before_rain m data w :
  WeatherDataSource.get_wind data WeatherDataSource.speed = Some w ->
  5 < w ->
  WeatherDataSource.api_weather data <> Some [] ->
  weather_adjusted_aqi
    (_apply_weather_corrections m (WeatherDataSource._process_weather_data data))
  = Some (Py.int (overall_aqi m * 0.9))
  /\ weather_impact
       (_apply_weather_corrections m (WeatherDataSource._process_weather_data data))
     = Some "good_dispersion"%string.
Proof.
  intros Hw H5 Hne.
  unfold WeatherDataSource._process_weather_data, WeatherDataSource._assess_weather_impact.
  rewrite Hw. cbn [WeatherDataSource.or_else].
  rewrite (proj2 (PyFacts.ltb_lt 5 w) H5).
  unfold WeatherDataSource.first_condition.
  destruct (WeatherDataSource.api_weather data) as [[|c rest]|];
    [congruence| |]; split; reflexivity.
Qed.

Lemma wind_decides_before_rain_witness :
  weather_adjusted_aqi
    (_apply_weather_corrections
       (fst (_calculate_primary_aqi (H := Sample.lib)
               (Some (OfAQICN (aqicn_reading (Some 100)))) 0%Z))
       (WeatherDataSource._process_weather_data
          {| WeatherDataSource.api_main_ := None;
             WeatherDataSource.api_wind_ :=
               Some {| WeatherDataSource.speed := Some 7;
                       WeatherDataSource.deg := None |};
             WeatherDataSource.api_visibility := None;
             WeatherDataSource.api_weather :=
               Some [ {| WeatherDataSource.main := Some "Rain"%string |} ] |}))
  = Some 90%Z.
Proof.
  refine (proj1 (wind_decides_before_rain _ _ 7 _ _ _));
    [reflexivity | reflexivity | discriminate].
Defined.

(** X9. With a key and a 200 response whose ["weather"] list is not
    empty, the weather fetch returns the processed response and draws no
    random number. *)
Theorem live_weather_is_returned `{PyLib} cfg current lat lon s data :
  WeatherDataSource.no_weather_key cfg = false ->
  current lat lon = HttpResponse 200 (Some data) ->
  WeatherDataSource.api_weather data <> Some [] ->
  exists r,
    WeatherDataSource.get_weather_data cfg current lat lon s = (Some r, s)
    /\ WeatherDataSource._process_weather_data data = Some r
    /\ WeatherDataSource.source r = "OpenWeather"%string
    /\ WeatherDataSource._assess_weather_impact data
       = Some (WeatherDataSource.air_quality_impact r).
Proof.
  intros Hkey Hresp Hne.
  pose proof (process_weather_cases data) as P.
  unfold WeatherDataSource.get_weather_data. rewrite Hkey, Hresp. cbn [Z.eqb Pos.eqb negb].
  destruct (WeatherDataSource.api_weather data) as [[|c rest]|]; [congruence| |];
    destruct P as [r [label [P [A [I [S _]]]]]]; exists r; rewrite P;
    (split; [reflexivity|]); (split; [reflexivity|]); (split; [exact S|]); congruence.
Qed.

Lemma live_weather_is_returned_witness :
  exists r,
    WeatherDataSource.get_weather_data (H := Sample.lib)
      {| NASA_TEMPO_TOKEN := None; OPENAQ_API_KEY := None; WAQI_API_KEY := None;
         OPENWEATHER_API_KEY := Some "k"%string |}
      (fun _ _ => HttpResponse 200
         (Some {| WeatherDataSource.api_main_ := None;
                  WeatherDataSource.api_wind_ := None;
                  WeatherDataSource.api_visibility := None;
                  WeatherDataSource.api_weather := None |}))
      0 0 7%Z
    = (Some r, 7%Z)
    /\ WeatherDataSource._process_weather_data
         {| WeatherDataSource.api_main_ := None;
            WeatherDataSource.api_wind_ := None;
            WeatherDataSource.api_visibility := None;
            WeatherDataSource.api_weather := None |} = Some r
    /\ WeatherDataSource.source r = "OpenWeather"%string
    /\ WeatherDataSource._assess_weather_impact
         {| WeatherDataSource.api_main_ := None;
            WeatherDataSource.api_wind_ := None;
            WeatherDataSource.api_visibility := None;
            WeatherDataSource.api_weather := None |}
       = Some (WeatherDataSource.air_quality_impact r).
Proof.
  apply (live_weather_is_returned (H := Sample.lib)); [reflexivity | reflexivity | discriminate].
Defined.

(** X10. A 200 response whose ["weather"] list is empty makes the
    processing raise; the fetch catches it and returns synthesized
    weather. *)
Theorem empty_weather_list_is_synthesized `{PyLib} cfg current lat lon s data :
  current lat lon = HttpResponse 200 (Some data) ->
  WeatherDataSource.api_weather data = Some [] ->
  WeatherDataSource.get_weather_data cfg current lat lon s
  = synthesized_weather lat lon s.
Proof.
  intros Hresp Hempty.
  pose proof (process_weather_cases data) as P. rewrite Hempty in P.
  unfold WeatherDataSource.get_weather_data, synthesized_weather.
  rewrite Hresp, P. cbn [Z.eqb Pos.eqb negb].
  destruct (WeatherDataSource.no_weather_key cfg); reflexivity.
Qed.

Lemma empty_weather_list_is_synthesized_witness :
  WeatherDataSource.get_weather_data (H := Sample.lib)
    {| NASA_TEMPO_TOKEN := None; OPENAQ_API_KEY := None; WAQI_API_KEY := None;
       OPENWEATHER_API_KEY := Some "k"%string |}
    (fun _ _ => HttpResponse 200
       (Some {| WeatherDataSource.api_main_ := None;
                WeatherDataSource.api_wind_ := None;
                WeatherDataSource.api_visibility := None;
                WeatherDataSource.api_weather := Some [] |}))
    0 0 7%Z
  = synthesized_weather (H := Sample.lib) 0 0 7%Z.
Proof.
  eapply (empty_weather_list_is_synthesized (H := Sample.lib)); reflexivity.
Defined.

Lemma choice_In `{PyLib} {A} (default : A) (x : A) (xs : list A) s :
  In (fst (Random.choice default (x :: xs) s)) (x :: xs).
Proof.
  unfold Random.choice.
  pose proof (@rng_randbelow_range _ (Z.of_nat (List.length (x :: xs))) s
                ltac:(simpl List.length; lia)) as R.
  destruct (rng_randbelow (Z.of_nat (List.length (x :: xs))) s) as [k s'].
  cbn [fst] in *. apply nth_In. lia.
Qed.

(** X11. Every field of the synthesized weather is inside the range its
    draw is made from, for every state of the generator. *)
Theorem mock_weather_ranges `{PyLib} lat lon s :
  let r := fst (WeatherDataSource._get_mock_weather_data lat lon s) in
  (exists t, WeatherDataSource.temperature r = Some t /\ 5 <= t <= 35)
  /\ (exists h, WeatherDataSource.humidity r = Some h /\ 30 <= h <= 90)
  /\ (exists p, WeatherDataSource.pressure r = Some p /\ 980 <= p <= 1030)
  /\ (exists w, WeatherDataSource.wind_speed r = Some w /\ 0 <= w <= 15)
  /\ (exists d, WeatherDataSource.wind_direction r = Some d /\ 0 <= d <= 360)
  /\ (exists v, WeatherDataSource.visibility r = Some v /\ 5000 <= v <= 15000)
  /\ (exists c, WeatherDataSource.weather_condition r = Some c
                /\ In c ["Clear"; "Clouds"; "Rain"; "Haze"]%string)
  /\ WeatherDataSource.air_quality_impact r = "moderate"%string.
Proof.
  unfold WeatherDataSource._get_mock_weather_data, bind, ret.
  pose proof (@RandomFacts.uniform_range _ (-10) 20 s ltac:(discriminate)) as Rt.
  destruct (Random.uniform (-10) 20 s) as [t s1].
  pose proof (@RandomFacts.randint_range _ 30 90 s1 ltac:(lia)) as Rh.
  destruct (Random.randint 30 90 s1) as [h s2].
  pose proof (@RandomFacts.randint_range _ 980 1030 s2 ltac:(lia)) as Rp.
  destruct (Random.randint 980 1030 s2) as [p s3].
  pose proof (@RandomFacts.uniform_range _ 0 15 s3 ltac:(discriminate)) as Rw.
  destruct (Random.uniform 0 15 s3) as [w s4].
  pose proof (@RandomFacts.randint_range _ 0 360 s4 ltac:(lia)) as Rd.
  destruct (Random.randint 0 360 s4) as [d s5].
  pose proof (@RandomFacts.randint_range _ 5000 15000 s5 ltac:(lia)) as Rv.
  destruct (Random.randint 5000 15000 s5) as [v s6].
  pose proof (choice_In "Clear"%string "Clear"%string
                ["Clouds"; "Rain"; "Haze"]%string s6) as Rc.
  destruct (Random.choice "Clear"%string ["Clear"; "Clouds"; "Rain"; "Haze"]%string s6)
    as [c s7].
  cbn [fst] in *. cbv zeta.
  cbn [WeatherDataSource.temperature WeatherDataSource.humidity
       WeatherDataSource.pressure WeatherDataSource.wind_speed
       WeatherDataSource.wind_direction WeatherDataSource.visibility
       WeatherDataSource.weather_condition WeatherDataSource.air_quality_impact].
  repeat split; try (eexists; split; [reflexivity|]).
  - split.
    + apply (@PyFacts.round_n_ge_Z 5). change (inject_Z 5) with 5. lra.
    + apply (@PyFacts.round_n_le_Z 35). change (inject_Z 35) with 35. lra.
  - change 30 with (inject_Z 30). change 90 with (inject_Z 90).
    rewrite <- !Zle_Qle. exact Rh.
  - change 980 with (inject_Z 980). change 1030 with (inject_Z 1030).
    rewrite <- !Zle_Qle. exact Rp.
  - split.
    + apply (@PyFacts.round_n_ge_Z 0). change (inject_Z 0) with 0. lra.
    + apply (@PyFacts.round_n_le_Z 15). change (inject_Z 15) with 15. lra.
  - change 0 with (inject_Z 0). change 360 with (inject_Z 360).
    rewrite <- !Zle_Qle. exact Rd.
  - change 5000 with (inject_Z 5000). change 15000 with (inject_Z 15000).
    rewrite <- !Zle_Qle. exact Rv.
  - exact Rc.
Qed.

(** ** The engine on its own adapters *)

(** The result of the engine is the fusion of what its four adapters
    return; the emergency branch and the error log stay unused. *)
Lemma engine_result `{PyLib} cfg net weather_first lat lon s :
  exists s1 s3 s',
    fst (get_comprehensive_air_quality
           (data_fusion_engine cfg net) weather_first lat lon s)
    = fst (_fuse_data_sources
             (fst (TempoDataSource.get_satellite_data cfg lat lon s))
             (fst (OpenAQDataSource.get_ground_data (openaq_latest net) lat lon 50 s1))
             (AQICNDataSource.get_aqicn_data cfg (waqi net) lat lon)
             (fst (WeatherDataSource.get_weather_data cfg (openweather_current net)
                     lat lon s3))
             lat lon s').
Proof.
  unfold get_comprehensive_air_quality, gather, data_fusion_engine, bind, ret.
  cbn [tempo_source openaq_source aqicn_source weather_source].
  destruct (TempoDataSource.get_satellite_data cfg lat lon s) as [t s0].
  destruct weather_first.
  - destruct (WeatherDataSource.get_weather_data cfg (openweather_current net)
                lat lon s0) as [w sw] eqn:W.
    pose proof (ground_data_present (openaq_latest net) lat lon 50%Z sw) as G.
    destruct (OpenAQDataSource.get_ground_data (openaq_latest net) lat lon 50 sw)
      as [g sg] eqn:Eg.
    exists sw, s0, sg. rewrite W, Eg. cbn [fst] in *.
    destruct g as [g|]; [|discriminate].
    unfold fuse_results, bind, ret, all_sources_failed.
    cbn [data_of log_failure present Dict.truthy Dict.empty].
    rewrite orb_true_r. cbn [orb negb].
    destruct (_fuse_data_sources t (Some g)
                (AQICNDataSource.get_aqicn_data cfg (waqi net) lat lon) w lat lon sg).
    reflexivity.
  - pose proof (ground_data_present (openaq_latest net) lat lon 50%Z s0) as G.
    destruct (OpenAQDataSource.get_ground_data (openaq_latest net) lat lon 50 s0)
      as [g sg] eqn:Eg.
    destruct (WeatherDataSource.get_weather_data cfg (openweather_current net)
                lat lon sg) as [w sw] eqn:W.
    exists s0, sg, sw. rewrite W, Eg. cbn [fst] in *.
    destruct g as [g|]; [|discriminate].
    unfold fuse_results, bind, ret, all_sources_failed.
    cbn [data_of log_failure present Dict.truthy Dict.empty].
    rewrite orb_true_r. cbn [orb negb].
    destruct (_fuse_data_sources t (Some g)
                (AQICNDataSource.get_aqicn_data cfg (waqi net) lat lon) w lat lon sw).
    reflexivity.
Qed.

Lemma mock_weather_impact `{PyLib} lat lon s :
  WeatherDataSource.air_quality_impact
    (fst (WeatherDataSource._get_mock_weather_data lat lon s)) = "moderate"%string.
Proof.
  unfold WeatherDataSource._get_mock_weather_data, bind, ret.
  repeat match goal with
  | |- context [let (_, _) := ?c in _] => destruct c
  end.
  reflexivity.
Qed.

(** X12. Without a weather key the engine works on synthesized weather,
    whose impact is always "moderate": the weather-adjusted index is the
    overall index, truncated. *)
Theorem synthesized_weather_keeps_index `{PyLib} cfg net weather_first lat lon s :
  WeatherDataSource.no_weather_key cfg = true ->
  let m := fused (fst (get_comprehensive_air_quality
                         (data_fusion_engine cfg net) weather_first lat lon s)) in
  weather_impact m = Some "moderate"%string
  /\ weather_adjusted_aqi m = Some (Py.int (overall_aqi m)).
Proof.
  intros Hkey m. subst m.
  destruct (engine_result cfg net weather_first lat lon s) as [s1 [s3 [s' E]]].
  rewrite E, fuse_metrics.
  rewrite (weather_failure_paths cfg (openweather_current net) lat lon s3 (or_introl Hkey)).
  unfold synthesized_weather, bind, ret.
  pose proof (mock_weather_impact lat lon s3) as I.
  destruct (WeatherDataSource._get_mock_weather_data lat lon s3) as [w sw].
  cbn [fst] in *.
  cbn [_apply_weather_corrections weather_impact weather_adjusted_aqi overall_aqi].
  rewrite I. split; [reflexivity|].
  f_equal. apply int_comp. change (adjustment_factor "moderate") with 1.0. lra.
Qed.

Lemma synthesized_weather_keeps_index_witness :
  let m := fused (fst (get_comprehensive_air_quality (H := Sample.lib)
                         (data_fusion_engine (config_with_token None) unreachable_network)
                         false 0 0 1%Z)) in
  weather_impact m = Some "moderate"%string
  /\ weather_adjusted_aqi m = Some (Py.int (overall_aqi m)).
Proof.
  apply (synthesized_weather_keeps_index (H := Sample.lib)). reflexivity.
Defined.

(** ** Satellite data *)

Lemma mock_tempo_shape `{PyLib} lat lon s :
  let r := fst (TempoDataSource._generate_mock_tempo_data lat lon s) in
  exists no2 o3,
    TempoDataSource.pollutants r = [("no2"%string, no2); ("o3"%string, o3)]
    /\ TempoDataSource.value no2
       = Py.round_n (0.5 + Py.fmod ((Py.abs lat + Py.abs lon) * 0.01) 2.0) 2
    /\ 0.5 <= TempoDataSource.value no2 <= 2.5
    /\ 30 <= TempoDataSource.value o3 <= 45
    /\ TempoDataSource.location r = (lat, lon).
Proof.
  unfold TempoDataSource._generate_mock_tempo_data, bind, ret.
  pose proof (@RandomFacts.uniform_range _ (-5) 10 s ltac:(discriminate)) as Ru.
  destruct (Random.uniform (-5) 10 s) as [u s1]. cbn [fst] in *. cbv zeta.
  cbn [TempoDataSource.pollutants TempoDataSource.location].
  eexists. eexists. split; [reflexivity|]. cbn [TempoDataSource.value].
  split; [reflexivity|].
  pose proof (@PyFacts.fmod_range ((Py.abs lat + Py.abs lon) * 0.01) 2.0
                ltac:(reflexivity)) as [F0 F1].
  set (f := Py.fmod ((Py.abs lat + Py.abs lon) * 0.01) 2.0) in *. clearbody f.
  split; [|split; [|reflexivity]].
  - assert (E1 : inject_Z 50 / Py.pow10 2 == 0.5) by reflexivity.
    assert (E2 : inject_Z 250 / Py.pow10 2 == 2.5) by reflexivity.
    assert (L : inject_Z 50 / Py.pow10 2 <= 0.5 + f) by (rewrite E1; lra).
    assert (U : 0.5 + f <= inject_Z 250 / Py.pow10 2) by (rewrite E2; lra).
    apply round_n_ge_grid in L. apply round_n_le_grid in U.
    rewrite E1 in L. rewrite E2 in U. split; assumption.
  - split.
    + apply (@PyFacts.round_n_ge_Z 30). change (inject_Z 30) with 30. lra.
    + apply (@PyFacts.round_n_le_Z 45). change (inject_Z 45) with 45. lra.
Qed.

Lemma satellite_data_is_mock `{PyLib} cfg lat lon s r :
  fst (TempoDataSource.get_satellite_data cfg lat lon s) = Some r ->
  r = fst (TempoDataSource._generate_mock_tempo_data lat lon s).
Proof.
  unfold TempoDataSource.get_satellite_data, bind, ret.
  destruct (negb (is_set (NASA_TEMPO_TOKEN cfg)));
    [|destruct (TempoDataSource.outside_coverage lat lon); [discriminate|]];
    destruct (TempoDataSource._generate_mock_tempo_data lat lon s);
    cbn [fst]; congruence.
Qed.

(** X13. Every satellite reading the adapter returns holds exactly the
    pollutants no2 and o3, with no2 in [0.5, 2.5] and o3 in [30, 45]. *)
Theorem satellite_reading_ranges `{PyLib} cfg lat lon s r :
  fst (TempoDataSource.get_satellite_data cfg lat lon s) = Some r ->
  exists no2 o3,
    TempoDataSource.pollutants r = [("no2"%string, no2); ("o3"%string, o3)]
    /\ 0.5 <= TempoDataSource.value no2 <= 2.5
    /\ 30 <= TempoDataSource.value o3 <= 45
    /\ TempoDataSource.location r = (lat, lon).
Proof.
  intro E. apply satellite_data_is_mock in E. subst r.
  destruct (mock_tempo_shape lat lon s) as [no2 [o3 [P [_ [R1 [R2 L]]]]]].
  exists no2, o3. auto.
Qed.

Lemma satellite_reading_ranges_witness :
  exists no2 o3,
    TempoDataSource.pollutants
      (fst (TempoDataSource._generate_mock_tempo_data (H := Sample.lib) 10 20 3%Z))
    = [("no2"%string, no2); ("o3"%string, o3)]
    /\ 0.5 <= TempoDataSource.value no2 <= 2.5
    /\ 30 <= TempoDataSource.value o3 <= 45
    /\ TempoDataSource.location
         (fst (TempoDataSource._generate_mock_tempo_data (H := Sample.lib) 10 20 3%Z))
       = (10, 20).
Proof.
  apply (satellite_reading_ranges (H := Sample.lib) (config_with_token None) 10 20 3%Z).
  reflexivity.
Defined.

(** The pollutants after the satellite step, when the satellite reports
    no2. *)
Lemma enhance_pollutants m t no2 :
  Dict.get "no2"%string (TempoDataSource.pollutants t) = Some no2 ->
  pollutants (_enhance_with_satellite_data m (Some t))
  = Dict.set "no2_satellite"%string
      {| Pollutant.value := Some (Py.round_n (TempoDataSource.value no2 * 0.1) 2);
         Pollutant.aqi := None;
         Pollutant.unit := "μg/m³ (estimated)";
         Pollutant.source := "satellite";
         Pollutant.spatial_resolution := Some "2.1km x 4.4km"%string |}
      (pollutants m)
  /\ satellite_enhancement (_enhance_with_satellite_data m (Some t)) = Some true
  /\ data_fusion (_enhance_with_satellite_data m (Some t))
     = Some "ground_satellite_combined"%string.
Proof.
  intro Hno2. unfold _enhance_with_satellite_data.
  assert (T : Dict.truthy (TempoDataSource.pollutants t) = true).
  { destruct (TempoDataSource.pollutants t); [discriminate | reflexivity]. }
  rewrite T, Hno2. repeat split.
Qed.



Lemma primary_flags `{PyLib} sensor s :
  satellite_enhancement (fst (_calculate_primary_aqi sensor s)) = None
  /\ data_fusion (fst (_calculate_primary_aqi sensor s)) = None.
Proof.
  unfold _calculate_primary_aqi, _generate_fallback_aqi, bind, ret.
  destruct sensor as [d|].
  - destruct (aqicn_index d); [split; reflexivity|].
    destruct (get_averaged_measurements d) as [ms|].
    + destruct (negb (Dict.truthy ms)).
      * destruct (Random.randint 25 150 s) as [b s1].
        destruct (Random.uniform (-5) 5 s1). split; reflexivity.
      * destruct (convert_present ms). split; reflexivity.
    + destruct (Random.randint 25 150 s) as [b s1].
      destruct (Random.uniform (-5) 5 s1). split; reflexivity.
  - destruct (Random.randint 25 150 s) as [b s1].
    destruct (Random.uniform (-5) 5 s1). split; reflexivity.
Qed.

Lemma weather_keeps_satellite m w :
  satellite_enhancement (_apply_weather_corrections m w) = satellite_enhancement m
  /\ pollutants (_apply_weather_corrections m w) = pollutants m
  /\ primary_source (_apply_weather_corrections m w) = primary_source m.
Proof. destruct w; repeat split; reflexivity. Qed.

Lemma enhance_keeps_source m t :
  primary_source (_enhance_with_satellite_data m t) = primary_source m.
Proof.
  unfold _enhance_with_satellite_data. destruct t as [t|]; [|reflexivity].
  destruct (Dict.truthy (TempoDataSource.pollutants t)); reflexivity.
Qed.

(** X15. The engine's result carries the satellite entry exactly when
    its satellite flag is set: the flag comes with ["no2_satellite"]
    between 0.05 and 0.25 and with [satellite_enhancement]; without the
    flag there is no [satellite_enhancement]. *)
Theorem engine_satellite_entry `{PyLib} cfg net weather_first lat lon s :
  let r := fst (get_comprehensive_air_quality
                  (data_fusion_engine cfg net) weather_first lat lon s) in
  if satellite (sources r) then
    satellite_enhancement (fused r) = Some true
    /\ exists e v,
         Dict.get "no2_satellite"%string (pollutants (fused r)) = Some e
         /\ Pollutant.value e = Some v
         /\ 0.05 <= v <= 0.25
  else satellite_enhancement (fused r) = None.
Proof.
  intro r. subst r.
  destruct (engine_result cfg net weather_first lat lon s) as [s1 [s3 [s' E]]].
  rewrite E. clear E.
  set (g := fst (OpenAQDataSource.get_ground_data (openaq_latest net) lat lon 50 s1)).
  set (a := AQICNDataSource.get_aqicn_data cfg (waqi net) lat lon).
  set (w := fst (WeatherDataSource.get_weather_data cfg (openweather_current net)
                   lat lon s3)).
  rewrite fuse_metrics.
  destruct (weather_keeps_satellite
              (_enhance_with_satellite_data
                 (fst (_calculate_primary_aqi (preferred_sensor g a) s'))
                 (fst (TempoDataSource.get_satellite_data cfg lat lon s))) w)
    as [-> [-> _]].
  assert (F : satellite
                (sources (fst (_fuse_data_sources
                                 (fst (TempoDataSource.get_satellite_data cfg lat lon s))
                                 g a w lat lon s')))
              = present (fst (TempoDataSource.get_satellite_data cfg lat lon s))).
  { unfold _fuse_data_sources, bind, ret.
    destruct (_calculate_primary_aqi (preferred_sensor g a) s'). reflexivity. }
  rewrite F. clear F.
  destruct (primary_flags (preferred_sensor g a) s') as [P _].
  set (m := fst (_calculate_primary_aqi (preferred_sensor g a) s')) in *. clearbody m.
  destruct (fst (TempoDataSource.get_satellite_data cfg lat lon s)) as [t|] eqn:T.
  - pose proof (satellite_data_is_mock cfg lat lon s t T) as Et.
    destruct (mock_tempo_shape lat lon s) as [no2 [o3 [Pt [_ [R _]]]]].
    rewrite <- Et in Pt.
    cbn [present]. unfold _enhance_with_satellite_data. rewrite Pt.
    cbn [Dict.truthy Dict.get Dict.key_eqb Dict.string_EqKey String.eqb Ascii.eqb
         Bool.eqb andb satellite_enhancement pollutants].
    split; [reflexivity|].
    eexists. eexists. split; [apply DictFacts.get_set_same|].
    cbn [Pollutant.value]. split; [reflexivity|].
    assert (E1 : inject_Z 5 / Py.pow10 2 == 0.05) by reflexivity.
    assert (E2 : inject_Z 25 / Py.pow10 2 == 0.25) by reflexivity.
    assert (L : inject_Z 5 / Py.pow10 2 <= TempoDataSource.value no2 * 0.1)
      by (rewrite E1; lra).
    assert (U : TempoDataSource.value no2 * 0.1 <= inject_Z 25 / Py.pow10 2)
      by (rewrite E2; lra).
    apply round_n_ge_grid in L. apply round_n_le_grid in U.
    rewrite E1 in L. rewrite E2 in U. split; assumption.
  - cbn [present _enhance_with_satellite_data]. exact P.
Qed.

Lemma primary_from_aqicn_metrics `{PyLib} a i s :
  AQICNDataSource.source a = "AQICN (World Air Quality Index)"%string ->
  AQICNDataSource.overall_aqi a = Some i -> ~ i == 0 ->
  _calculate_primary_aqi (Some (OfAQICN a)) s
  = ({| overall_aqi := i;
        pollutants := AQICNDataSource.pollutants a;
        primary_source := "aqicn";
        confidence := "high";
        satellite_enhancement := None;
        data_fusion := None;
        weather_adjusted_aqi := None;
        weather_impact := None;
        weather_data := None |}, s)
  /\ pollutants (fst (_calculate_primary_aqi (Some (OfAQICN a)) s))
     = AQICNDataSource.pollutants a.
Proof.
  intros Hsrc Hidx Hnz.
  assert (P : _calculate_primary_aqi (Some (OfAQICN a)) s
              = ({| overall_aqi := i;
                    pollutants := AQICNDataSource.pollutants a;
                    primary_source := "aqicn";
                    confidence := "high";
                    satellite_enhancement := None;
                    data_fusion := None;
                    weather_adjusted_aqi := None;
                    weather_impact := None;
                    weather_data := None |}, s)).
  { unfold _calculate_primary_aqi, aqicn_index, ret.
    cbn [get_source get_overall_aqi get_pollutants]. rewrite Hsrc, Hidx.
    cbn [String.eqb Ascii.eqb Bool.eqb andb].
    replace (Py.eqb i 0) with false; [reflexivity|].
    unfold Py.eqb. destruct (Qeq_bool i 0) eqn:B; [|reflexivity].
    apply Qeq_bool_iff in B. contradiction. }
  split; [exact P | now rewrite P].
Qed.

(** X16. The satellite step writes into the pollutants dictionary it was
    handed: when the metrics were taken from an AQICN reading, the raw
    AQICN reading of the result shows the ["no2_satellite"] entry as
    well. *)
Theorem satellite_entry_reaches_raw_aqicn `{PyLib} t no2 openaq a i w lat lon s :
  Dict.get "no2"%string (TempoDataSource.pollutants t) = Some no2 ->
  AQICNDataSource.source a = "AQICN (World Air Quality Index)"%string ->
  AQICNDataSource.overall_aqi a = Some i -> ~ i == 0 ->
  let r := fst (_fuse_data_sources (Some t) openaq (Some a) w lat lon s) in
  exists a' e,
    raw_aqicn (raw r) = Some a'
    /\ AQICNDataSource.pollutants a' = pollutants (fused r)
    /\ Dict.get "no2_satellite"%string (AQICNDataSource.pollutants a') = Some e
    /\ Pollutant.source e = "satellite"%string
    /\ forall key, key <> "no2_satellite"%string ->
         Dict.get key (AQICNDataSource.pollutants a')
         = Dict.get key (AQICNDataSource.pollutants a).
Proof.
  intros Hno2 Hsrc Hidx Hnz r. subst r.
  unfold _fuse_data_sources, bind, ret.
  cbn [preferred_sensor].
  destruct (primary_from_aqicn_metrics a i s Hsrc Hidx Hnz) as [P _].
  rewrite P. cbn [fst raw raw_aqicn fused].
  set (m0 := {| overall_aqi := i; pollutants := AQICNDataSource.pollutants a;
                primary_source := "aqicn"; confidence := "high";
                satellite_enhancement := None; data_fusion := None;
                weather_adjusted_aqi := None; weather_impact := None;
                weather_data := None |}).
  destruct (enhance_pollutants m0 t no2 Hno2) as [Ep _].
  destruct (weather_keeps_satellite (_enhance_with_satellite_data m0 (Some t)) w)
    as [_ [Wp Ws]].
  unfold aqicn_after. rewrite Ws, enhance_keeps_source. cbn [primary_source m0].
  cbn [String.eqb Ascii.eqb Bool.eqb andb].
  eexists. eexists. split; [reflexivity|]. cbn [AQICNDataSource.pollutants].
  rewrite Wp, Ep. cbn [pollutants m0].
  split; [reflexivity|]. split; [apply DictFacts.get_set_same|].
  split; [reflexivity|].
  intros key Hkey. apply DictFacts.get_set_other. congruence.
Qed.

Lemma satellite_entry_reaches_raw_aqicn_witness :
  let t := fst (TempoDataSource._generate_mock_tempo_data (H := Sample.lib) 10 20 3%Z) in
  let r := fst (_fuse_data_sources (H := Sample.lib)
                  (Some t) None (Some (aqicn_reading (Some 100))) None 10 20 0%Z) in
  exists a' e,
    raw_aqicn (raw r) = Some a'
    /\ AQICNDataSource.pollutants a' = pollutants (fused r)
    /\ Dict.get "no2_satellite"%string (AQICNDataSource.pollutants a') = Some e
    /\ Pollutant.source e = "satellite"%string
    /\ forall key, key <> "no2_satellite"%string ->
         Dict.get key (AQICNDataSource.pollutants a')
         = Dict.get key (AQICNDataSource.pollutants (aqicn_reading (Some 100))).
Proof.
  refine (satellite_entry_reaches_raw_aqicn (H := Sample.lib) _
            {| TempoDataSource.value := Py.round_n (0.5 + 0.3) 2;
               TempoDataSource.unit := "mol/m²";
               TempoDataSource.quality := "good" |}
            None (aqicn_reading (Some 100)) 100 None 10 20 0%Z _ _ _ _);
    [vm_compute; reflexivity | reflexivity | reflexivity | discriminate].
Defined.

(** ** The AQICN adapter *)

Lemma add_pollutants_get measurements (items : list (string * string)) :
  forall init code,
    Dict.get code (fold_left (AQICNDataSource.add_pollutant measurements) items init)
    = if existsb (String.eqb code) (map fst items) then
        match Dict.get code measurements with
        | Some v =>
            Some {| Pollutant.value := v;
                    Pollutant.aqi := v;
                    Pollutant.unit :=
                      if String.eqb code "pm25" || String.eqb code "pm10"
                      then "AQI" else "μg/m³";
                    Pollutant.source := "AQICN";
                    Pollutant.spatial_resolution := None |}
        | None => Dict.get code init
        end
      else Dict.get code init.
Proof.
  induction items as [|[c n] rest IH]; intros init code; [reflexivity|].
  cbn [fold_left map fst existsb]. rewrite IH.
  unfold AQICNDataSource.add_pollutant.
  destruct (String.eqb code c) eqn:E.
  - apply String.eqb_eq in E. subst c. cbn [orb].
    destruct (Dict.get code measurements) as [v|] eqn:M.
    + rewrite DictFacts.get_set_same.
      destruct (existsb (String.eqb code) (map fst rest)); reflexivity.
    + destruct (existsb (String.eqb code) (map fst rest)); reflexivity.
  - cbn [orb]. apply String.eqb_neq in E.
    destruct (Dict.get c measurements) as [v|].
    + rewrite DictFacts.get_set_other by congruence. reflexivity.
    + reflexivity.
Qed.

(** X17. The processed AQICN reading holds a pollutant exactly for the
    six known codes that the feed reports; value and index of the entry
    are both the feed's ["v"], and only pm25 and pm10 carry the unit
    "AQI". *)
Theorem aqicn_pollutants_lookup data lat lon code :
  let r := AQICNDataSource._process_aqicn_data data lat lon in
  let measurements :=
    match AQICNDataSource.iaqi data with Some m => m | None => [] end in
  let known := In code ["pm25"; "pm10"; "no2"; "so2"; "o3"; "co"]%string in
  match Dict.get code (AQICNDataSource.pollutants r) with
  | Some e =>
      known
      /\ Dict.get code measurements = Some (Pollutant.value e)
      /\ Pollutant.aqi e = Pollutant.value e
      /\ Pollutant.unit e
         = (if String.eqb code "pm25" || String.eqb code "pm10"
            then "AQI" else "μg/m³")%string
      /\ Pollutant.source e = "AQICN"%string
  | None => ~ known \/ Dict.get code measurements = None
  end.
Proof.
  intros r measurements known. subst r measurements known.
  unfold AQICNDataSource._process_aqicn_data.
  cbn [AQICNDataSource.pollutants]. rewrite add_pollutants_get.
  change (Dict.get code Dict.empty) with (@None Pollutant.entry).
  change (@Dict.empty string (option Q)) with (@nil (string * option Q)).
  destruct (existsb (String.eqb code) (map fst AQICNDataSource.pollutant_mapping))
    eqn:X.
  - apply existsb_exists in X. destruct X as [c [Hin Hc]].
    apply String.eqb_eq in Hc. subst c.
    destruct (Dict.get code
                match AQICNDataSource.iaqi data with Some m => m | None => [] end)
      as [v|].
    + repeat split. exact Hin.
    + right. reflexivity.
  - left. intro Hin.
    assert (Y : existsb (String.eqb code)
                  (map fst AQICNDataSource.pollutant_mapping) = true).
    { apply existsb_exists. exists code. split; [exact Hin | apply String.eqb_refl]. }
    congruence.
Qed.

(** X18. The AQICN adapter returns a reading exactly when a key is set
    and a feed reply with status code 200, status text "ok" and data
    held what it processed: the reply of the feed by coordinates or, when
    that reply was not usable, the reply of the feed of the first station
    that a search reply with status code 200, status text "ok" and a
    non-empty station list names. The reading carries the source tag
    that the engine tests and the requested coordinates. *)
Theorem aqicn_reading_origin cfg api lat lon r :
  (AQICNDataSource.get_aqicn_data cfg api lat lon = Some r
   <-> is_set (WAQI_API_KEY cfg) = true
       /\ exists data,
            r = AQICNDataSource._process_aqicn_data data lat lon
            /\ (AQICNDataSource.usable (AQICNDataSource.feed_geo api lat lon)
                = Some (Some data)
                \/ (AQICNDataSource.usable (AQICNDataSource.feed_geo api lat lon)
                    = Some None
                    /\ exists reply first rest id,
                         AQICNDataSource.search api lat lon
                         = HttpResponse 200 (Some reply)
                         /\ AQICNDataSource.search_status reply = Some "ok"%string
                         /\ AQICNDataSource.search_data reply = Some (first :: rest)
                         /\ AQICNDataSource.uid first = Some id
                         /\ AQICNDataSource.usable (AQICNDataSource.feed_station api id)
                            = Some (Some data))))
  /\ (AQICNDataSource.get_aqicn_data cfg api lat lon = Some r ->
      AQICNDataSource.source r = "AQICN (World Air Quality Index)"%string
      /\ AQICNDataSource.location r = (lat, lon)).
Proof.
  assert (Origin :
            AQICNDataSource.get_aqicn_data cfg api lat lon = Some r ->
            is_set (WAQI_API_KEY cfg) = true
            /\ exists data,
                 r = AQICNDataSource._process_aqicn_data data lat lon
                 /\ (AQICNDataSource.usable (AQICNDataSource.feed_geo api lat lon)
                     = Some (Some data)
                     \/ (AQICNDataSource.usable (AQICNDataSource.feed_geo api lat lon)
                         = Some None
                         /\ exists reply first rest id,
                              AQICNDataSource.search api lat lon
                              = HttpResponse 200 (Some reply)
                              /\ AQICNDataSource.search_status reply = Some "ok"%string
                              /\ AQICNDataSource.search_data reply = Some (first :: rest)
                              /\ AQICNDataSource.uid first = Some id
                              /\ AQICNDataSource.usable
                                   (AQICNDataSource.feed_station api id)
                                 = Some (Some data)))).
  { unfold AQICNDataSource.get_aqicn_data.
    destruct (is_set (WAQI_API_KEY cfg)); [|discriminate]. cbn [negb].
    destruct (AQICNDataSource.usable (AQICNDataSource.feed_geo api lat lon))
      as [[data|]|] eqn:U; [| |discriminate].
    - intro E. injection E as <-. split; [reflexivity|]. exists data.
      split; [reflexivity|]. left. reflexivity.
    - destruct (AQICNDataSource.search api lat lon) as [|status [reply|]] eqn:S;
        try discriminate;
        [destruct (status =? 200)%Z eqn:St; [|discriminate]
        | destruct (negb (status =? 200)%Z); discriminate ].
      apply Z.eqb_eq in St. subst status. cbn [negb].
      destruct (AQICNDataSource.search_status reply) as [st|] eqn:Ss; [|discriminate].
      destruct (AQICNDataSource.search_data reply) as [[|first rest]|] eqn:Sd;
        try discriminate.
      destruct (String.eqb st "ok") eqn:Ok; [|discriminate].
      apply String.eqb_eq in Ok. subst st.
      destruct (AQICNDataSource.uid first) as [id|] eqn:Uid; [|discriminate].
      destruct (AQICNDataSource.usable (AQICNDataSource.feed_station api id))
        as [[data|]|] eqn:U2; try discriminate.
      intro E. injection E as <-. split; [reflexivity|]. exists data.
      split; [reflexivity|]. right. split; [reflexivity|].
      exists reply, first, rest, id. auto. }
  split; [split; [exact Origin|] |].
  - intros [Hkey [data [-> [U | [U [reply [first [rest [id [S [Ss [Sd [Uid U2]]]]]]]]]]]]];
      unfold AQICNDataSource.get_aqicn_data; rewrite Hkey, U; [reflexivity|].
    rewrite S, Ss, Sd, Uid, U2. reflexivity.
  - intro E. destruct (Origin E) as [_ [data [-> _]]]. split; reflexivity.
Qed.

Lemma aqicn_reading_origin_witness :
  let feed := {| AQICNDataSource.city := None;
                 AQICNDataSource.iaqi := None;
                 AQICNDataSource.api_aqi := Some 42 |} in
  let ok := fun data => HttpResponse 200
              (Some {| AQICNDataSource.feed_status := Some "ok"%string;
                       AQICNDataSource.feed_data := data |}) in
  let api := {| AQICNDataSource.feed_geo := fun _ _ => ok None;
                AQICNDataSource.search := fun _ _ =>
                  HttpResponse 200
                    (Some {| AQICNDataSource.search_status := Some "ok"%string;
                             AQICNDataSource.search_data :=
                               Some [ {| AQICNDataSource.uid := Some 5%Z |};
                                      {| AQICNDataSource.uid := Some 6%Z |} ] |});
                AQICNDataSource.feed_station := fun id =>
                  if (id =? 5)%Z then ok (Some feed) else HttpRaises |} in
  let cfg := {| NASA_TEMPO_TOKEN := None; OPENAQ_API_KEY := None;
                WAQI_API_KEY := Some "k"%string; OPENWEATHER_API_KEY := None |} in
  AQICNDataSource.get_aqicn_data cfg api 1 2
  = Some (AQICNDataSource._process_aqicn_data feed 1 2).
Proof.
  intros feed ok api cfg.
  apply (proj2 (proj1 (aqicn_reading_origin cfg api 1 2
                         (AQICNDataSource._process_aqicn_data feed 1 2)))).
  split; [reflexivity|]. exists feed. split; [reflexivity|]. right.
  split; [reflexivity|].
  exists {| AQICNDataSource.search_status := Some "ok"%string;
            AQICNDataSource.search_data :=
              Some [ {| AQICNDataSource.uid := Some 5%Z |};
                     {| AQICNDataSource.uid := Some 6%Z |} ] |},
         {| AQICNDataSource.uid := Some 5%Z |},
         [ {| AQICNDataSource.uid := Some 6%Z |} ], 5%Z.
  repeat split.
Defined.

(** X19. An AQICN reading whose index is missing or zero still takes the
    place of the ground reading: whatever the ground sensors reported,
    the metrics come from the fallback model. *)
Theorem aqicn_without_index_shadows_ground `{PyLib} tempo openaq data w lat lon s :
  AQICNDataSource.api_aqi data = None \/ AQICNDataSource.api_aqi data = Some 0 ->
  let m := fused (fst (_fuse_data_sources tempo openaq
                         (Some (AQICNDataSource._process_aqicn_data data lat lon))
                         w lat lon s)) in
  primary_source m = "fallback_model"%string
  /\ confidence m = "low"%string
  /\ exists z, overall_aqi m = inject_Z z /\ (25 <= z <= 150)%Z.
Proof.
  intros Hidx m. subst m. rewrite fuse_metrics.
  destruct (weather_keeps_satellite
              (_enhance_with_satellite_data
                 (fst (_calculate_primary_aqi
                         (preferred_sensor openaq
                            (Some (AQICNDataSource._process_aqicn_data data lat lon))) s))
                 tempo) w) as [_ [_ ->]].
  rewrite weather_keeps_confidence, weather_keeps_index.
  rewrite enhance_keeps_source, enhance_keeps_confidence, enhance_keeps_index.
  cbn [preferred_sensor].
  assert (P : _calculate_primary_aqi
                (Some (OfAQICN (AQICNDataSource._process_aqicn_data data lat lon))) s
              = _generate_fallback_aqi s).
  { unfold _calculate_primary_aqi, aqicn_index.
    cbn [get_source get_overall_aqi get_averaged_measurements
         AQICNDataSource._process_aqicn_data AQICNDataSource.source
         AQICNDataSource.overall_aqi].
    destruct Hidx as [-> | ->]; reflexivity. }
  rewrite P.
  destruct (fallback_metrics s) as [C Z]. split; [|split; assumption].
  unfold _generate_fallback_aqi, bind, ret.
  destruct (Random.randint 25 150 s) as [b s1].
  destruct (Random.uniform (-5) 5 s1). reflexivity.
Qed.

Lemma aqicn_without_index_shadows_ground_witness :
  let m := fused (fst (_fuse_data_sources (H := Sample.lib) None
                         (Some (ground_reading [("pm25"%string, averaged_of 10)]))
                         (Some (AQICNDataSource._process_aqicn_data
                                  {| AQICNDataSource.city := None;
                                     AQICNDataSource.iaqi := None;
                                     AQICNDataSource.api_aqi := None |} 1 2))
                         None 1 2 0%Z)) in
  primary_source m = "fallback_model"%string
  /\ confidence m = "low"%string
  /\ exists z, overall_aqi m = inject_Z z /\ (25 <= z <= 150)%Z.
Proof.
  apply (aqicn_without_index_shadows_ground (H := Sample.lib)). left. reflexivity.
Defined.

(** ** Grouping and averaging of the ground stations *)

Lemma len_set_le {K V} `{Dict.EqKey K} (k : K) (v : V) (d : dict K V) :
  (List.length d <= List.length (Dict.set k v d) <= S (List.length d))%nat.
Proof.
  induction d as [|[k0 v0] rest IH]; simpl.
  - lia.
  - destruct (Dict.key_eqb k k0); simpl; lia.
Qed.

Lemma len_set_present {K V} `{Dict.EqKey K} (k : K) (v v' : V) (d : dict K V) :
  Dict.get k d = Some v -> List.length (Dict.set k v' d) = List.length d.
Proof.
  induction d as [|[k0 v0] rest IH]; [discriminate|].
  simpl. destruct (Dict.key_eqb k k0); simpl; [reflexivity|].
  intro G. now rewrite IH.
Qed.

Lemma get_Some_In {K V} `{Dict.EqKey K} (k : K) (v : V) (d : dict K V) :
  Dict.get k d = Some v -> In k (Dict.keys d).
Proof.
  induction d as [|[k0 v0] rest IH]; [discriminate|].
  simpl. destruct (Dict.key_eqb k k0) eqn:E.
  - apply Dict.key_eqb_eq in E. auto.
  - auto.
Qed.

Lemma contains_existsb {K V} `{Dict.EqKey K} (k : K) (d : dict K V) :
  Dict.contains k d = existsb (Dict.key_eqb k) (Dict.keys d).
Proof.
  unfold Dict.contains, Dict.keys.
  induction d as [|[k0 v0] rest IH]; [reflexivity|].
  simpl. destruct (Dict.key_eqb k k0); [reflexivity | exact IH].
Qed.

Lemma keys_set_order {K V} `{Dict.EqKey K} (k : K) (v : V) (d : dict K V) :
  Dict.keys (Dict.set k v d)
  = if Dict.contains k d then Dict.keys d else Dict.keys d ++ [k].
Proof.
  unfold Dict.contains, Dict.keys.
  induction d as [|[k0 v0] rest IH]; [reflexivity|].
  simpl. destruct (Dict.key_eqb k k0) eqn:E.
  - apply Dict.key_eqb_eq in E. subst. reflexivity.
  - simpl. rewrite IH. destruct (Dict.get k rest); reflexivity.
Qed.

Lemma named_set k st stations :
  OpenAQDataSource.name st = k -> named stations -> named (Dict.set k st stations).
Proof.
  intros Hn. unfold named.
  induction stations as [|[k0 v0] rest IH]; intro N; cbn [Dict.set].
  - constructor; [exact Hn | constructor].
  - apply Forall_cons_iff in N. destruct N as [Hhead Hrest].
    destruct (Dict.key_eqb k k0); constructor; auto.
Qed.

Lemma named_get k st stations :
  named stations -> Dict.get k stations = Some st -> OpenAQDataSource.name st = k.
Proof.
  unfold named. induction stations as [|[k0 v0] rest IH]; intros N G; [discriminate|].
  apply Forall_cons_iff in N. destruct N as [Hhead Hrest]. cbn [Dict.get] in G.
  destruct (Dict.key_eqb k k0) eqn:E.
  - apply Dict.key_eqb_eq in E. injection G as <-. subst k0. exact Hhead.
  - now apply IH.
Qed.

Lemma named_values stations :
  named stations -> map OpenAQDataSource.name (Dict.values stations) = Dict.keys stations.
Proof.
  unfold named, Dict.values, Dict.keys.
  induction 1 as [|[k v] rest Hhead _ IH]; [reflexivity|].
  simpl in *. now rewrite Hhead, IH.
Qed.

Lemma add_result_order `{PyLib} lat lon stations r :
  named stations ->
  named (OpenAQDataSource.add_result lat lon stations r)
  /\ Dict.keys (OpenAQDataSource.add_result lat lon stations r)
     = if existsb (Dict.key_eqb (OpenAQDataSource.api_location r)) (Dict.keys stations)
       then Dict.keys stations
       else Dict.keys stations ++ [OpenAQDataSource.api_location r].
Proof.
  intro N. unfold OpenAQDataSource.add_result. cbv zeta.
  set (id := OpenAQDataSource.api_location r).
  set (fresh := {| OpenAQDataSource.name := id;
                   OpenAQDataSource.coordinates := _;
                   OpenAQDataSource.distance_km := _;
                   OpenAQDataSource.measurements := Dict.empty |}).
  rewrite <- (contains_existsb id stations).
  assert (N' : named (if Dict.contains id stations then stations
                      else Dict.set id fresh stations)).
  { destruct (Dict.contains id stations); [exact N|]. now apply named_set. }
  assert (K' : Dict.keys (if Dict.contains id stations then stations
                          else Dict.set id fresh stations)
               = if Dict.contains id stations then Dict.keys stations
                 else Dict.keys stations ++ [id]).
  { destruct (Dict.contains id stations) eqn:C; [reflexivity|].
    now rewrite keys_set_order, C. }
  set (stations' := if Dict.contains id stations then stations
                    else Dict.set id fresh stations) in *.
  destruct (Dict.get id stations') as [st|] eqn:G; [|split; assumption].
  split.
  - apply named_set; [|exact N']. cbn [OpenAQDataSource.name].
    exact (named_get id st stations' N' G).
  - rewrite keys_set_order. unfold Dict.contains at 1. rewrite G. exact K'.
Qed.

Lemma group_order `{PyLib} lat lon results :
  forall stations,
    named stations ->
    let grouped := fold_left (OpenAQDataSource.add_result lat lon) results stations in
    named grouped
    /\ Dict.keys grouped
       = fold_left (fun seen loc =>
                      if existsb (Dict.key_eqb loc) seen then seen else seen ++ [loc])
           (map OpenAQDataSource.api_location results) (Dict.keys stations).
Proof.
  induction results as [|r rest IH]; intros stations N; cbn [fold_left map].
  - cbv zeta. split; [exact N | reflexivity].
  - destruct (add_result_order lat lon stations r N) as [N1 K1].
    destruct (IH _ N1) as [N2 K2]. cbv zeta in *.
    split; [exact N2|]. rewrite K2, K1. reflexivity.
Qed.

Lemma add_result_keys `{PyLib} lat lon stations r :
  Dict.wf stations ->
  Dict.wf (OpenAQDataSource.add_result lat lon stations r)
  /\ (forall loc,
        In loc (Dict.keys (OpenAQDataSource.add_result lat lon stations r))
        <-> loc = OpenAQDataSource.api_location r \/ In loc (Dict.keys stations))
  /\ (List.length stations
      <= List.length (OpenAQDataSource.add_result lat lon stations r)
      <= S (List.length stations))%nat.
Proof.
  intro W. unfold OpenAQDataSource.add_result. cbv zeta.
  set (id := OpenAQDataSource.api_location r).
  set (fresh := {| OpenAQDataSource.name := id;
                   OpenAQDataSource.coordinates := _;
                   OpenAQDataSource.distance_km := _;
                   OpenAQDataSource.measurements := Dict.empty |}).
  unfold Dict.contains.
  destruct (Dict.get id stations) as [st|] eqn:G.
  - rewrite G. pose proof (get_Some_In _ _ _ G) as Hin.
    split; [now apply DictFacts.wf_set|]. split.
    + intro loc. rewrite DictFacts.keys_set_In. intuition (subst; auto).
    + rewrite (len_set_present _ _ _ _ G). lia.
  - rewrite DictFacts.get_set_same.
    split; [now apply DictFacts.wf_set, DictFacts.wf_set|]. split.
    + intro loc. rewrite !DictFacts.keys_set_In. intuition.
    + rewrite (len_set_present id fresh _ (Dict.set id fresh stations))
        by apply DictFacts.get_set_same.
      apply len_set_le.
Qed.

Lemma group_keys `{PyLib} lat lon results :
  forall stations,
    Dict.wf stations ->
    let grouped := fold_left (OpenAQDataSource.add_result lat lon) results stations in
    Dict.wf grouped
    /\ (forall loc,
          In loc (Dict.keys grouped)
          <-> In loc (map OpenAQDataSource.api_location results)
              \/ In loc (Dict.keys stations))
    /\ (List.length stations <= List.length grouped
        <= List.length results + List.length stations)%nat.
Proof.
  induction results as [|r rest IH]; intros stations W; cbn [fold_left map].
  - cbv zeta. split; [exact W|]. split; [intro loc; simpl; intuition | simpl; lia].
  - destruct (add_result_keys lat lon stations r W) as [W1 [K1 L1]].
    destruct (IH _ W1) as [W2 [K2 L2]]. cbv zeta in *.
    split; [exact W2|]. split.
    + intro loc. rewrite K2, K1. simpl. intuition.
    + simpl. lia.
Qed.

(** X20. A non-empty list of results is always processed into a reading
    (the averaging never divides by zero). Its stations are the distinct
    locations of the results in the order of their first appearance:
    [stations_count] is their number, at least one and at most one per
    result, and [stations_data] lists the first three of them. *)
Theorem openaq_results_grouped_by_location `{PyLib} x xs lat lon :
  let locations := map OpenAQDataSource.api_location (x :: xs) in
  exists r,
    OpenAQDataSource._process_openaq_data (x :: xs) lat lon = Returned (Some r)
    /\ OpenAQDataSource.stations_count r = List.length (first_seen locations)
    /\ map OpenAQDataSource.name (OpenAQDataSource.stations_data r)
       = firstn 3 (first_seen locations)
    /\ (1 <= OpenAQDataSource.stations_count r <= List.length (x :: xs))%nat
    /\ NoDup (first_seen locations)
    /\ forall loc, In loc (first_seen locations) <-> In loc locations.
Proof.
  intro locations. subst locations.
  unfold OpenAQDataSource._process_openaq_data.
  pose proof (AveragingFacts.grouped_well_formed (x :: xs) lat lon) as WF.
  destruct (AveragingFacts.weighted_average_sums _ WF) as [result [E _]].
  rewrite E. eexists. split; [reflexivity|].
  cbn [OpenAQDataSource.stations_count OpenAQDataSource.stations_data].
  destruct (group_keys lat lon (x :: xs) Dict.empty DictFacts.wf_empty) as [W [K L]].
  destruct (group_order lat lon (x :: xs) Dict.empty (Forall_nil _)) as [N O].
  cbv zeta in *. fold (OpenAQDataSource.group_by_station (x :: xs) lat lon) in *.
  set (grouped := OpenAQDataSource.group_by_station (x :: xs) lat lon) in *.
  change (Dict.keys (@Dict.empty (option string) OpenAQDataSource.station))
    with (@nil (option string)) in O.
  fold (first_seen (map OpenAQDataSource.api_location (x :: xs))) in O.
  rewrite <- O.
  assert (Hin : In (OpenAQDataSource.api_location x) (Dict.keys grouped)).
  { apply K. left. simpl. auto. }
  split; [|split; [|split; [|split]]].
  - unfold Dict.len, Dict.keys. now rewrite length_map.
  - rewrite <- firstn_map. now rewrite (named_values grouped N).
  - unfold Dict.len, Dict.keys in *. split.
    + destruct grouped; [destruct Hin | simpl; lia].
    + simpl in L. simpl. lia.
  - exact W.
  - intro loc. rewrite K. simpl. intuition.
Qed.

Lemma openaq_results_grouped_by_location_witness :
  let result location :=
    {| OpenAQDataSource.api_location := Some location;
       OpenAQDataSource.api_coords := None;
       OpenAQDataSource.api_measurements := None;
       OpenAQDataSource.sourceName := None |} in
  exists r,
    OpenAQDataSource._process_openaq_data (H := Sample.lib)
      [ result "d"%string; result "a"%string; result "d"%string;
        result "b"%string; result "c"%string ] 1 2
    = Returned (Some r)
    /\ OpenAQDataSource.stations_count r = 4%nat
    /\ map OpenAQDataSource.name (OpenAQDataSource.stations_data r)
       = [Some "d"; Some "a"; Some "b"]%string.
Proof.
  intro result.
  destruct (openaq_results_grouped_by_location (H := Sample.lib)
              (result "d"%string)
              [ result "a"%string; result "d"%string;
                result "b"%string; result "c"%string ] 1 2)
    as [r [E [C [S _]]]].
  exists r. split; [exact E|]. split; [exact C | exact S].
Defined.

Module AveragingBounds.

Import OpenAQDataSource.
Import Averaging.


Lemma reports_Forall (P : Q * Q -> Prop) p sts :
  (forall st v, In st sts -> reported p st = Some v -> P (v, weight_of st)) ->
  Forall P (reports p sts).
Proof.
  induction sts as [|st rest IH]; intro Hall.
  - constructor.
  - rewrite AveragingFacts.reports_cons.
    assert (Hrest : Forall P (reports p rest)).
    { apply IH. intros st' v Hin. apply Hall. now right. }
    destruct (reported p st) as [v|] eqn:R; [|exact Hrest].
    constructor; [apply Hall; [now left | exact R] | exact Hrest].
Qed.

Lemma weight_le_1 st : well_formed st -> 0 < weight_of st <= 1.
Proof.
  intros [Hd _]. unfold weight_of.
  assert (Hp : 0 < distance_km st + 1) by lra.
  split.
  - apply Qlt_shift_div_l; lra.
  - apply Qle_shift_div_r; lra.
Qed.

Lemma sums_between (lo hi : Q) (vws : list (Q * Q)) :
  Forall (fun vw => lo <= fst vw <= hi /\ 0 < snd vw <= 1) vws ->
  lo * sum_list (map snd vws) <= sum_list (map (fun vw => fst vw * snd vw) vws)
  /\ sum_list (map (fun vw => fst vw * snd vw) vws) <= hi * sum_list (map snd vws).
Proof.
  unfold sum_list.
  induction 1 as [|[v w] rest [[Hlo Hhi] [Hw0 Hw1]] _ IH].
  - simpl. lra.
  - cbn [map fold_right fst snd] in *.
    set (sw := fold_right Qplus 0 (map snd rest)) in *.
    set (sv := fold_right Qplus 0 (map (fun vw => fst vw * snd vw) rest)) in *.
    clearbody sw sv.
    assert (lo * w <= v * w) by (apply Qmult_le_compat_r; lra).
    assert (v * w <= hi * w) by (apply Qmult_le_compat_r; lra).
    lra.
Qed.

Lemma weights_at_most_count (vws : list (Q * Q)) :
  Forall (fun vw => 0 < snd vw <= 1) vws ->
  sum_list (map snd vws) <= inject_Z (Z.of_nat (List.length vws)).
Proof.
  unfold sum_list.
  induction 1 as [|[v w] rest [Hw0 Hw1] _ IH].
  - simpl. apply Qle_refl.
  - cbn [map fold_right snd List.length] in *.
    rewrite Nat2Z.inj_succ, <- Z.add_1_r, inject_Z_plus.
    change (inject_Z 1) with 1. lra.
Qed.

Lemma average_between {K} (stations : dict K station) (lo hi : Q) p result a :
  Forall well_formed (Dict.values stations) ->
  (forall st v, In st (Dict.values stations) -> reported p st = Some v ->
                lo <= v <= hi) ->
  _calculate_weighted_average stations = Some result ->
  Dict.get p result = Some a ->
  let sts := Dict.values stations in
  avg_value a = Py.round_n (weighted_sum p sts / weight_sum p sts) 2
  /\ lo <= weighted_sum p sts / weight_sum p sts <= hi.
Proof.
  intros WF Hrange E G sts.
  destruct (AveragingFacts.weighted_average_sums stations WF) as [result' [E' Hp]].
  assert (result' = result) by congruence. subst result'.
  destruct (Hp p) as [Hsome Hnone]. fold sts in Hsome, Hnone.
  destruct (reports p sts) as [|vw rest] eqn:R.
  { rewrite Hnone in G by reflexivity. discriminate. }
  destruct Hsome as [a' [G' [Ha Hc]]]; [discriminate|].
  assert (a' = a) by congruence. subst a'.
  assert (Hpos : 0 < weight_sum p sts).
  { apply AveragingFacts.weight_sum_positive; [exact WF | rewrite R; discriminate]. }
  assert (Hall : Forall (fun vw => lo <= fst vw <= hi /\ 0 < snd vw <= 1)
                   (reports p sts)).
  { apply reports_Forall. intros st v Hin Hv. cbn [fst snd]. split.
    - exact (Hrange st v Hin Hv).
    - apply weight_le_1. rewrite Forall_forall in WF. now apply WF. }
  destruct (sums_between lo hi _ Hall) as [S1 S2].
  fold (weighted_sum p sts) in S1, S2. fold (weight_sum p sts) in S1, S2.
  split; [exact Ha|]. split.
  - apply Qle_shift_div_l; [exact Hpos | exact S1].
  - apply Qle_shift_div_r; [exact Hpos | exact S2].
Qed.

Lemma weight_sum_at_most p sts :
  Forall well_formed sts ->
  weight_sum p sts <= inject_Z (Z.of_nat (List.length (reports p sts))).
Proof.
  intro WF. apply weights_at_most_count.
  apply reports_Forall. intros st v Hin Hv. cbn [snd].
  apply weight_le_1. rewrite Forall_forall in WF. now apply WF.
Qed.

End AveragingBounds.

(** X21. The distance-weighted average of a pollutant lies between any
    two integers that bound the values the stations report for it. *)
Theorem weighted_average_within_reports {K}
    (stations : dict K OpenAQDataSource.station) (lo hi : Z) p result a :
  Forall Averaging.well_formed (Dict.values stations) ->
  (forall st v, In st (Dict.values stations) -> Averaging.reported p st = Some v ->
                inject_Z lo <= v <= inject_Z hi) ->
  OpenAQDataSource._calculate_weighted_average stations = Some result ->
  Dict.get p result = Some a ->
  inject_Z lo <= OpenAQDataSource.avg_value a <= inject_Z hi.
Proof.
  intros WF Hrange E G.
  destruct (AveragingBounds.average_between stations _ _ p result a WF Hrange E G)
    as [Ha [L U]].
  rewrite Ha. split;
    [now apply PyFacts.round_n_ge_Z | now apply PyFacts.round_n_le_Z].
Qed.

Lemma weighted_average_within_reports_witness :
  exists result a,
    OpenAQDataSource._calculate_weighted_average
      [(1%Z, pm25_station 0 10); (2%Z, pm25_station 3 20)] = Some result
    /\ Dict.get "pm25"%string result = Some a
    /\ inject_Z 10 <= OpenAQDataSource.avg_value a <= inject_Z 20.
Proof.
  eexists. eexists. split; [vm_compute; reflexivity|].
  split; [vm_compute; reflexivity|].
  eapply (weighted_average_within_reports
            [(1%Z, pm25_station 0 10); (2%Z, pm25_station 3 20)] 10 20 "pm25"%string).
  - constructor; [apply pm25_station_well_formed; discriminate|].
    constructor; [apply pm25_station_well_formed; discriminate|]. constructor.
  - intros st v [<-|[<-|[]]] R; vm_compute in R; injection R as <-;
      split; discriminate.
  - vm_compute. reflexivity.
  - vm_compute. reflexivity.
Defined.

(** X22. The confidence of an averaged pollutant is positive, at most
    100 and at most ten times the number of stations that report it:
    full confidence needs ten reporting stations. *)
Theorem confidence_counts_stations {K}
    (stations : dict K OpenAQDataSource.station) p result a :
  Forall Averaging.well_formed (Dict.values stations) ->
  OpenAQDataSource._calculate_weighted_average stations = Some result ->
  Dict.get p result = Some a ->
  0 < OpenAQDataSource.confidence a <= 100
  /\ OpenAQDataSource.confidence a
     <= 10 * inject_Z (Z.of_nat (List.length
                                   (Averaging.reports p (Dict.values stations)))).
Proof.
  intros WF E G.
  destruct (AveragingFacts.weighted_average_sums stations WF) as [result' [E' Hp]].
  assert (result' = result) by congruence. subst result'.
  destruct (Hp p) as [Hsome Hnone]. cbv zeta in *.
  pose proof (AveragingBounds.weight_sum_at_most p (Dict.values stations) WF) as Hle.
  set (sts := Dict.values stations) in *.
  destruct (Averaging.reports p sts) as [|vw rest] eqn:R.
  { rewrite Hnone in G by reflexivity. discriminate. }
  destruct Hsome as [a' [G' [Ha Hc]]]; [discriminate|].
  assert (a' = a) by congruence. subst a'.
  assert (Hpos : 0 < Averaging.weight_sum p sts).
  { apply AveragingFacts.weight_sum_positive; [exact WF | rewrite R; discriminate]. }
  rewrite Hc. unfold Py.min.
  destruct (Py.ltb 100 (Averaging.weight_sum p sts * 10)) eqn:B.
  - apply PyFacts.ltb_lt in B. split; [split; [reflexivity | apply Qle_refl] | lra].
  - apply PyFacts.ltb_ge in B. split; [split|]; lra.
Qed.

Lemma confidence_counts_stations_witness :
  exists result a,
    OpenAQDataSource._calculate_weighted_average [(1%Z, pm25_station 0 10)]
    = Some result
    /\ Dict.get "pm25"%string result = Some a
    /\ 0 < OpenAQDataSource.confidence a <= 100
    /\ OpenAQDataSource.confidence a <= 10 * inject_Z 1.
Proof.
  eexists. eexists. split; [vm_compute; reflexivity|].
  split; [vm_compute; reflexivity|].
  eapply (confidence_counts_stations [(1%Z, pm25_station 0 10)] "pm25"%string).
  - constructor; [apply pm25_station_well_formed; discriminate|]. constructor.
  - vm_compute. reflexivity.
  - vm_compute. reflexivity.
Defined.

(** ** Synthesized ground readings *)

Ltac draw_uniform :=
  match goal with
  | |- context [Random.uniform ?a ?b ?s] =>
      let R := fresh "R" in
      pose proof (@RandomFacts.uniform_range _ a b s ltac:(discriminate)) as R;
      destruct (Random.uniform a b s) as [? ?]; cbn [fst snd] in R
  end.

Lemma mock_bases_range `{PyLib} lat lon s :
  let '(a, b, c) := fst (OpenAQDataSource.mock_bases lat lon s) in
  5 <= a <= 65 /\ a <= b <= 162.5 /\ 5 <= c <= 60
  /\ (if OpenAQDataSource.is_india lat lon
      then 15 <= a /\ 10 <= c else a <= 25 /\ c <= 40).
Proof.
  unfold OpenAQDataSource.mock_bases, bind, ret.
  destruct (OpenAQDataSource.is_india lat lon), (OpenAQDataSource.is_urban lat lon);
    repeat draw_uniform; cbn [fst]; repeat split; try lra; nra.
Qed.

(** X23. The synthesized ground reading holds pm25, pm10 and no2 with
    pm25 in [5, 65], no2 in [5, 60] and pm10 between pm25 and 162.5;
    inside the India box pm25 is at least 15 and no2 at least 10, outside
    it pm25 is at most 25 and no2 at most 40. *)
Theorem synthesized_ground_ranges `{PyLib} lat lon s :
  exists pm25 pm10 no2,
    OpenAQDataSource.averaged_measurements
      (fst (OpenAQDataSource._generate_mock_openaq_data lat lon s))
    = [ ("pm25"%string, {| OpenAQDataSource.avg_value := pm25;
                           OpenAQDataSource.confidence := 75 |});
        ("pm10"%string, {| OpenAQDataSource.avg_value := pm10;
                           OpenAQDataSource.confidence := 75 |});
        ("no2"%string, {| OpenAQDataSource.avg_value := no2;
                          OpenAQDataSource.confidence := 70 |}) ]
    /\ 5 <= pm25 <= 65 /\ pm25 <= pm10 <= 162.5 /\ 5 <= no2 <= 60
    /\ (if OpenAQDataSource.is_india lat lon
        then 15 <= pm25 /\ 10 <= no2 else pm25 <= 25 /\ no2 <= 40).
Proof.
  unfold OpenAQDataSource._generate_mock_openaq_data, bind, ret, Random.seed.
  pose proof (mock_bases_range lat lon
                (rng_seed (OpenAQDataSource.location_seed lat lon))) as B.
  destruct (OpenAQDataSource.mock_bases lat lon
              (rng_seed (OpenAQDataSource.location_seed lat lon)))
    as [[[a b] c] s1].
  cbn [fst] in *. destruct B as [[A0 A1] [[B0 B1] [[C0 C1] I]]].
  cbn [OpenAQDataSource.averaged_measurements].
  eexists. eexists. eexists. split; [reflexivity|].
  assert (E : inject_Z 1625 / Py.pow10 1 == 162.5) by reflexivity.
  assert (U : b <= inject_Z 1625 / Py.pow10 1) by (rewrite E; exact B1).
  apply round_n_le_grid in U. rewrite E in U.
  pose proof (round_n_mono a b 1 B0) as M.
  pose proof (@PyFacts.round_n_ge_Z 5 a 1 A0) as P0.
  pose proof (@PyFacts.round_n_le_Z 65 a 1 A1) as P1.
  pose proof (@PyFacts.round_n_ge_Z 5 c 1 C0) as N0.
  pose proof (@PyFacts.round_n_le_Z 60 c 1 C1) as N1.
  repeat split; try assumption.
  destruct (OpenAQDataSource.is_india lat lon); destruct I as [I1 I2]; split.
  - exact (@PyFacts.round_n_ge_Z 15 a 1 I1).
  - exact (@PyFacts.round_n_ge_Z 10 c 1 I2).
  - exact (@PyFacts.round_n_le_Z 25 a 1 I1).
  - exact (@PyFacts.round_n_le_Z 40 c 1 I2).
Qed.

Lemma emergency_averaged `{PyLib} lat lon s :
  exists v p c,
    OpenAQDataSource.averaged_measurements
      (fst (_generate_emergency_fallback_data lat lon s))
    = [ ("pm25"%string, {| OpenAQDataSource.avg_value := Py.round_n v 1;
                           OpenAQDataSource.confidence := 50 |});
        ("pm10"%string, {| OpenAQDataSource.avg_value := p;
                           OpenAQDataSource.confidence := 50 |});
        ("no2"%string, {| OpenAQDataSource.avg_value := c;
                          OpenAQDataSource.confidence := 45 |}) ]
    /\ 20 <= v <= 70 /\ 7 <= c <= 33.
Proof.
  unfold _generate_emergency_fallback_data, bind, ret, Random.seed.
  repeat draw_uniform.
  cbn [fst OpenAQDataSource.averaged_measurements].
  eexists. eexists. eexists. split; [reflexivity|].
  unfold pm25_base, no2_base.
  pose proof (@PyFacts.fmod_range ((Py.abs lat + Py.abs lon) * 0.5) 40
                ltac:(reflexivity)) as [F0 F1].
  pose proof (@PyFacts.fmod_range (Py.abs lat * 0.3) 20 ltac:(reflexivity)) as [G0 G1].
  set (f := Py.fmod ((Py.abs lat + Py.abs lon) * 0.5) 40) in *.
  set (g := Py.fmod (Py.abs lat * 0.3) 20) in *. clearbody f g.
  split; [lra|]. split.
  - apply (@PyFacts.round_n_ge_Z 7). change (inject_Z 7) with 7. lra.
  - apply (@PyFacts.round_n_le_Z 33). change (inject_Z 33) with 33. lra.
Qed.

Lemma emergency_pm25_index v :
  20 <= v <= 70 -> (68 <= _pm25_to_aqi (Py.round_n v 1) <= 158)%Z.
Proof.
  intros [L U].
  destruct (round_n_tenths v) as [z [E Hz]]; [split; lra|].
  pose proof (tenths_in_a_band z Hz) as B. rewrite <- E in B. clear z E Hz.
  destruct (in_some_band _ B) as [lo [hi [a [b [Hin Hr]]]]].
  assert (E20 : _pm25_to_aqi 20 = 68%Z) by (vm_compute; reflexivity).
  assert (E70 : _pm25_to_aqi 70 = 158%Z) by (vm_compute; reflexivity).
  rewrite <- E20, <- E70. split.
  - apply (pm25_mono_in_bands 12.1 35.4 51 100 lo hi a b); try assumption.
    + unfold breakpoints. simpl. auto.
    + split; discriminate.
    + apply (@PyFacts.round_n_ge_Z 20). exact L.
  - apply (pm25_mono_in_bands lo hi a b 55.5 150.4 151 200); try assumption.
    + unfold breakpoints. simpl. auto 10.
    + split; discriminate.
    + apply (@PyFacts.round_n_le_Z 70). exact U.
Qed.

(** X24. When every source fails, the overall index is the PM2.5 index
    of the emergency reading and lies between 68 and 158; no weather
    adjustment is made. *)
Theorem emergency_index_range `{PyLib} r0 r1 r2 r3 lat lon s :
  all_sources_failed (data_of r0) (data_of r1) (data_of r2) (data_of r3) = true ->
  let m := fused (fst (fuse_results (r0, r1, r2, r3) lat lon s)) in
  exists z,
    overall_aqi m = inject_Z z
    /\ (68 <= z <= 158)%Z
    /\ (exists e, Dict.get "pm25"%string (pollutants m) = Some e
                  /\ Pollutant.aqi e = Some (inject_Z z))
    /\ weather_adjusted_aqi m = None.
Proof.
  intros Hall m. subst m. rewrite fuse_results_metrics, Hall.
  unfold all_sources_failed in Hall. apply negb_true_iff in Hall.
  apply orb_false_iff in Hall. destruct Hall as [Hall H3].
  apply orb_false_iff in Hall. destruct Hall as [Hall H2].
  apply orb_false_iff in Hall. destruct Hall as [H0 H1].
  destruct (data_of r0); [discriminate|]. destruct (data_of r2); [discriminate|].
  destruct (data_of r3); [discriminate|].
  rewrite fuse_metrics. cbn [_apply_weather_corrections _enhance_with_satellite_data
                              preferred_sensor option_map].
  destruct (emergency_averaged lat lon s) as [v [p [c [A [[V0 V1] [C0 C1]]]]]].
  set (g := fst (_generate_emergency_fallback_data lat lon s)) in *. clearbody g.
  set (s' := snd (_generate_emergency_fallback_data lat lon s)). clearbody s'.
  unfold _calculate_primary_aqi. rewrite aqicn_index_ground.
  cbn [get_averaged_measurements]. rewrite A. cbn [Dict.truthy negb].
  unfold convert_present.
  cbn [Dict.get Dict.key_eqb Dict.string_EqKey String.eqb Ascii.eqb Bool.eqb andb
       fst snd app OpenAQDataSource.avg_value Dict.set Dict.empty].
  unfold ret. cbn [fst overall_aqi pollutants weather_adjusted_aqi List.length Nat.leb].
  pose proof (emergency_pm25_index v (conj V0 V1)) as [I0 I1].
  set (z := _pm25_to_aqi (Py.round_n v 1)) in *. clearbody z.
  exists z.
  assert (M : max_or_50 [inject_Z z; _no2_to_aqi c] = inject_Z z).
  { unfold max_or_50, Py.max_list. cbn [fold_left].
    replace (Py.ltb (inject_Z z) (_no2_to_aqi c)) with false; [reflexivity|].
    symmetry. apply PyFacts.ltb_ge.
    assert (N : _no2_to_aqi c <= 50).
    { unfold _no2_to_aqi. rewrite (proj2 (PyFacts.leb_le c 53)) by lra.
      fold_quotients. lra. }
    rewrite Zle_Qle in I0. change (inject_Z 68) with 68 in I0. lra. }
  rewrite M, PyFacts.int_Z.
  split; [reflexivity|]. split; [lia|]. split; [|reflexivity].
  eexists. split; [reflexivity|]. reflexivity.
Qed.

Lemma emergency_index_range_witness :
  let m := fused (fst (fuse_results (H := Sample.lib)
                         (Raised "a", Raised "b", Raised "c", Raised "d") 1 2 0%Z)) in
  exists z,
    overall_aqi m = inject_Z z
    /\ (68 <= z <= 158)%Z
    /\ (exists e, Dict.get "pm25"%string (pollutants m) = Some e
                  /\ Pollutant.aqi e = Some (inject_Z z))
    /\ weather_adjusted_aqi m = None.
Proof.
  apply (emergency_index_range (H := Sample.lib)). reflexivity.
Defined.

(** ** The forecast API *)

Lemma advice_level aqi :
  Main.level (Main.get_health_recommendations aqi) = Main.get_aqi_category aqi.
Proof.
  unfold Main.get_health_recommendations, Main.get_aqi_category.
  repeat match goal with
  | |- context [(aqi <=? ?k)%Z] => destruct (aqi <=? k)%Z
  end; reflexivity.
Qed.

(** X25. The level of the health recommendations is the category of the
    index, for every index; a mask is advised exactly above 100. *)
Theorem advice_level_is_category aqi :
  Main.level (Main.get_health_recommendations aqi) = Main.get_aqi_category aqi
  /\ Main.mask_needed (Main.get_health_recommendations aqi) = (100 <? aqi)%Z.
Proof.
  split; [apply advice_level|].
  unfold Main.get_health_recommendations.
  destruct (aqi <=? 50)%Z eqn:E1; [cbn; lia|].
  destruct (aqi <=? 100)%Z eqn:E2; [cbn; lia|].
  destruct (aqi <=? 150)%Z eqn:E3; [cbn; lia|].
  destruct (aqi <=? 200)%Z eqn:E4; [cbn; lia|].
  destruct (aqi <=? 300)%Z eqn:E5; cbn; lia.
Qed.

Lemma category_below_hazardous aqi :
  (aqi <= 300)%Z -> Main.get_aqi_category aqi <> "Hazardous"%string.
Proof.
  intro H. unfold Main.get_aqi_category.
  repeat match goal with
  | |- context [(aqi <=? ?k)%Z] => destruct (aqi <=? k)%Z eqn:?
  end; try discriminate. lia.
Qed.

Lemma range_In i n : In i (Main.range n) <-> (0 <= i < n)%Z.
Proof.
  unfold Main.range. rewrite in_map_iff. split.
  - intros [k [<- Hk]]. apply in_seq in Hk. lia.
  - intro H. exists (Z.to_nat i). split; [lia|]. apply in_seq. lia.
Qed.

Lemma range_length n : List.length (Main.range n) = Z.to_nat n.
Proof. unfold Main.range. now rewrite length_map, length_seq. Qed.

Lemma collect_Forall2 {A B} (body : A -> option B) (P : A -> B -> Prop) xs :
  (forall x, In x xs -> exists y, body x = Some y /\ P x y) ->
  exists ys, Main.collect body xs = Some ys /\ Forall2 P xs ys.
Proof.
  induction xs as [|x rest IH]; intro Hall.
  - exists []. split; [reflexivity | constructor].
  - destruct (Hall x (or_introl eq_refl)) as [y [E Py]].
    destruct IH as [ys [Er F]]; [intros x' Hin; apply Hall; now right|].
    exists (y :: ys). cbn [Main.collect]. rewrite E, Er. split; [reflexivity|].
    now constructor.
Qed.

Lemma for_each_Forall2 `{PyLib} {A B} (body : A -> M B) (P : A -> B -> Prop) xs :
  (forall x s, In x xs -> P x (fst (body x s))) ->
  forall s, Forall2 P xs (fst (Main.for_each body xs s)).
Proof.
  induction xs as [|x rest IH]; intros Hall s.
  - constructor.
  - cbn [Main.for_each]. unfold bind, ret.
    pose proof (Hall x s (or_introl eq_refl)) as Px.
    destruct (body x s) as [y s1]. cbn [fst] in Px.
    assert (Hrest : forall x' s', In x' rest -> P x' (fst (body x' s')))
      by (intros; apply Hall; now right).
    pose proof (IH Hrest s1) as F.
    destruct (Main.for_each body rest s1) as [ys s2]. cbn [fst] in *.
    now constructor.
Qed.

Lemma Forall2_Forall {A B} (P : A -> B -> Prop) (Q_ : B -> Prop) xs ys :
  Forall2 P xs ys -> (forall x y, In x xs -> P x y -> Q_ y) -> Forall Q_ ys.
Proof.
  induction 1 as [|x y xs ys Pxy _ IH]; intro Himp; constructor.
  - apply (Himp x); [now left | exact Pxy].
  - apply IH. intros x' y' Hin. apply Himp. now right.
Qed.

Lemma max0_nonneg x : 0 <= Main.max0 x.
Proof.
  unfold Main.max0. destruct (Py.ltb 0 x) eqn:E; [|apply Qle_refl].
  apply PyFacts.ltb_lt in E. lra.
Qed.

Lemma realistic_hour_entry utc_hour current_aqi pm rtd i :
  (0 <= i)%Z ->
  exists e,
    Main.realistic_hour utc_hour current_aqi (Some pm) rtd i = Some e
    /\ realistic_entry_ok i e.
Proof.
  intro Hi. unfold Main.realistic_hour. cbv zeta. eexists. split; [reflexivity|].
  unfold realistic_entry_ok.
  cbn [Main.hour Main.aqi Main.aqi_lower Main.aqi_upper Main.pm25 Main.category
       Main.health_recommendations Main.real_time_sources].
  set (truncated := Py.int _). clearbody truncated.
  split; [reflexivity|]. split; [lia|]. split; [lia|]. split; [lia|].
  split.
  { apply (@PyFacts.round_n_ge_Z 0). apply max0_nonneg. }
  split; [reflexivity|].
  split; [apply category_below_hazardous; lia|].
  destruct (i =? 0)%Z eqn:E.
  - apply Z.eqb_eq in E. split; [split; [exact E | apply advice_level] | exact E].
  - apply Z.eqb_neq in E. split; exact E.
Qed.

Lemma realistic_forecast_total utc_hour lat lon current_aqi pm horizon rtd :
  exists entries,
    Main.generate_realistic_forecast utc_hour lat lon current_aqi (Some pm) horizon rtd
    = Some entries
    /\ Forall2 realistic_entry_ok (Main.range horizon) entries.
Proof.
  unfold Main.generate_realistic_forecast.
  apply collect_Forall2.
  intros i Hin. apply range_In in Hin. apply realistic_hour_entry. lia.
Qed.

(** X26. With a PM2.5 value the realistic forecast has one entry per
    hour of the horizon, in order; each index is within 5..300 and
    strictly inside its band [aqi_lower .. aqi_upper] within 0..500, no
    entry is "Hazardous", and hour 0 alone carries the health
    recommendations, whose level is the entry's category. *)
Theorem realistic_forecast_entries utc_hour lat lon current_aqi pm horizon rtd :
  exists entries,
    Main.generate_realistic_forecast utc_hour lat lon current_aqi (Some pm) horizon rtd
    = Some entries
    /\ List.length entries = Z.to_nat horizon
    /\ Forall2 realistic_entry_ok (Main.range horizon) entries.
Proof.
  destruct (realistic_forecast_total utc_hour lat lon current_aqi pm horizon rtd)
    as [entries [E F]].
  exists entries. split; [exact E|]. split; [|exact F].
  rewrite <- (Forall2_length F). apply range_length.
Qed.

Lemma realistic_forecast_raises utc_hour lat lon current_aqi horizon rtd :
  (0 < horizon)%Z ->
  Main.generate_realistic_forecast utc_hour lat lon current_aqi None horizon rtd
  = None.
Proof.
  intro Hh. unfold Main.generate_realistic_forecast, Main.range.
  destruct (Z.to_nat horizon) as [|n] eqn:N; [lia|]. reflexivity.
Qed.

(** X27. Without a PM2.5 value ([None] under ["value"]) the realistic
    forecast raises in its first iteration; for a horizon of 0 or less
    it has no iteration and returns the empty forecast. *)
Theorem realistic_forecast_without_pm25 utc_hour lat lon current_aqi horizon rtd :
  Main.generate_realistic_forecast utc_hour lat lon current_aqi None horizon rtd
  = if (0 <? horizon)%Z then None else Some [].
Proof.
  destruct (0 <? horizon)%Z eqn:E.
  - apply Z.ltb_lt in E. now apply realistic_forecast_raises.
  - apply Z.ltb_ge in E. unfold Main.generate_realistic_forecast, Main.range.
    replace (Z.to_nat horizon) with 0%nat by lia. reflexivity.
Qed.

Lemma mock_hour_entry `{PyLib} base_aqi i s :
  mock_entry_ok i (fst (Main.mock_hour base_aqi i s)).
Proof.
  unfold Main.mock_hour, bind, ret. cbv zeta.
  pose proof (@RandomFacts.uniform_range _ (-0.1) 0.1 s ltac:(discriminate)) as Ru.
  destruct (Random.uniform (-0.1) 0.1 s) as [u s1].
  pose proof (@RandomFacts.randint_range _ 15 25 s1 ltac:(lia)) as Rb.
  destruct (Random.randint 15 25 s1) as [below s2].
  pose proof (@RandomFacts.randint_range _ 15 25 s2 ltac:(lia)) as Ra.
  destruct (Random.randint 15 25 s2) as [above s3].
  pose proof (@RandomFacts.uniform_range _ (-2) 2 s3 ltac:(discriminate)) as Rv.
  destruct (Random.uniform (-2) 2 s3) as [v s4].
  cbn [fst] in *. unfold mock_entry_ok.
  cbn [Main.hour Main.aqi Main.aqi_lower Main.aqi_upper Main.pm25 Main.category
       Main.health_recommendations Main.real_time_sources].
  set (truncated := Py.int _). clearbody truncated.
  set (a := Z.max 5 (Z.min 300 truncated)).
  assert (Ha : (5 <= a <= 300)%Z) by (unfold a; lia). clearbody a.
  split; [reflexivity|]. split; [lia|]. split; [lia|]. split; [lia|]. split; [lia|].
  split.
  { destruct Ha as [A0 A1]. rewrite Zle_Qle in A0, A1.
    change (inject_Z 5) with 5 in A0. change (inject_Z 300) with 300 in A1.
    set (qa := inject_Z a) in *. clearbody qa.
    assert (E : inject_Z (-5) / Py.pow10 1 == -0.5) by reflexivity.
    split.
    - assert (L : inject_Z (-5) / Py.pow10 1 <= qa * 0.3 + v) by (rewrite E; lra).
      apply round_n_ge_grid in L. rewrite E in L. exact L.
    - apply (@PyFacts.round_n_le_Z 92). change (inject_Z 92) with 92. lra. }
  split; [reflexivity|].
  split; [apply category_below_hazardous; lia|].
  split; [reflexivity|].
  destruct (i =? 0)%Z eqn:E.
  - apply Z.eqb_eq in E. split; [exact E | apply advice_level].
  - apply Z.eqb_neq in E. exact E.
Qed.

(** The mock forecast is the loop over the hours, run on some base
    index from the seeded generator. *)
Lemma mock_forecast_run `{PyLib} lat lon horizon s :
  exists base s1,
    fst (Main.generate_mock_forecast lat lon horizon s)
    = {| Main.lat := lat;
         Main.lon := lon;
         Main.forecast :=
           fst (Main.for_each (Main.mock_hour base) (Main.range horizon) s1);
         Main.real_time_data := None;
         Main.model := "mock_data_fallback";
         Main.data_sources := None;
         Main.data_quality := None |}.
Proof.
  unfold Main.generate_mock_forecast, bind, ret, Random.seed.
  destruct (Main.mock_base_aqi lat lon (rng_seed (Main.location_seed lat lon)))
    as [base s1].
  exists base, s1.
  destruct (Main.for_each (Main.mock_hour base) (Main.range horizon) s1).
  reflexivity.
Qed.

(** X28. The mock forecast has one entry per hour of the horizon; each
    index is within 5..300, the lower bound is 5 to 25 below it and not
    negative, the upper bound 15 to 25 above it (the cap at 500 is never
    reached), the PM2.5 value is within -0.5..92, and no entry is
    "Hazardous". *)
Theorem mock_forecast_entries `{PyLib} lat lon horizon s :
  let r := fst (Main.generate_mock_forecast lat lon horizon s) in
  Main.model r = "mock_data_fallback"%string
  /\ Main.real_time_data r = None
  /\ List.length (Main.forecast r) = Z.to_nat horizon
  /\ Forall2 mock_entry_ok (Main.range horizon) (Main.forecast r).
Proof.
  destruct (mock_forecast_run lat lon horizon s) as [base [s1 E]]. rewrite E.
  cbn [Main.model Main.real_time_data Main.forecast].
  pose proof (for_each_Forall2 (Main.mock_hour base) mock_entry_ok (Main.range horizon)
                (fun i s' _ => mock_hour_entry base i s') s1) as F.
  split; [reflexivity|]. split; [reflexivity|]. split; [|exact F].
  rewrite <- (Forall2_length F). apply range_length.
Qed.

(** ** The forecast endpoint on the engine *)

Lemma enhance_keeps_other m t key :
  key <> "no2_satellite"%string ->
  Dict.get key (pollutants (_enhance_with_satellite_data m t))
  = Dict.get key (pollutants m).
Proof.
  intro Hkey. unfold _enhance_with_satellite_data.
  destruct t as [t|]; [|reflexivity].
  destruct (Dict.truthy (TempoDataSource.pollutants t)); [|reflexivity].
  cbn [pollutants].
  destruct (Dict.get "no2"%string (TempoDataSource.pollutants t)); [|reflexivity].
  apply DictFacts.get_set_other. congruence.
Qed.

Lemma fused_pm25 `{PyLib} tempo openaq aqicn w lat lon s :
  Dict.get "pm25"%string
    (pollutants (fused (fst (_fuse_data_sources tempo openaq aqicn w lat lon s))))
  = Dict.get "pm25"%string
      (pollutants (fst (_calculate_primary_aqi (preferred_sensor openaq aqicn) s))).
Proof.
  rewrite fuse_metrics.
  destruct (weather_keeps_satellite
              (_enhance_with_satellite_data
                 (fst (_calculate_primary_aqi (preferred_sensor openaq aqicn) s)) tempo) w)
    as [_ [-> _]].
  apply enhance_keeps_other. discriminate.
Qed.

Lemma ground_pm25_has_value `{PyLib} g s e :
  Dict.get "pm25"%string
    (pollutants (fst (_calculate_primary_aqi (Some (OfOpenAQ g)) s))) = Some e ->
  exists v, Pollutant.value e = Some v.
Proof.
  unfold _calculate_primary_aqi. rewrite aqicn_index_ground.
  cbn [get_averaged_measurements].
  assert (F : forall e',
             Dict.get "pm25"%string (pollutants (fst (_generate_fallback_aqi s)))
             = Some e' -> exists v, Pollutant.value e' = Some v).
  { unfold _generate_fallback_aqi, bind, ret.
    destruct (Random.randint 25 150 s) as [b s1].
    destruct (Random.uniform (-5) 5 s1) as [u s2].
    cbn. intros e' E. injection E as <-. eexists. reflexivity. }
  destruct (negb (Dict.truthy (OpenAQDataSource.averaged_measurements g)));
    [apply F|].
  unfold convert_present.
  destruct (Dict.get "pm25"%string (OpenAQDataSource.averaged_measurements g)),
    (Dict.get "o3"%string (OpenAQDataSource.averaged_measurements g)),
    (Dict.get "no2"%string (OpenAQDataSource.averaged_measurements g));
    cbn; intro E; try discriminate; injection E as <-; eexists; reflexivity.
Qed.

Lemma aqicn_without_key cfg api lat lon :
  is_set (WAQI_API_KEY cfg) = false ->
  AQICNDataSource.get_aqicn_data cfg api lat lon = None.
Proof. intro E. unfold AQICNDataSource.get_aqicn_data. now rewrite E. Qed.

(** X29. Without an AQICN key the [/forecast] endpoint on real data never
    falls back to the mock forecast: it returns the engine's result and a
    realistic forecast of one entry per hour, each index within 5..300. *)
Theorem forecast_on_real_data `{PyLib} cfg net weather_first utc_hour lat lon horizon s :
  is_set (WAQI_API_KEY cfg) = false ->
  let r := fst (Main.get_air_quality_forecast cfg net weather_first utc_hour
                  lat lon horizon true s) in
  let engine := fst (get_comprehensive_air_quality
                       (data_fusion_engine cfg net) weather_first lat lon s) in
  Main.model r = "tempo_openaq_integrated_v1"%string
  /\ Main.real_time_data r = Some engine
  /\ Main.data_quality r = Some (data_quality engine)
  /\ Main.data_sources r = Some (sources engine)
  /\ List.length (Main.forecast r) = Z.to_nat horizon
  /\ Forall2 realistic_entry_ok (Main.range horizon) (Main.forecast r).
Proof.
  intros Hkey r engine. subst r engine.
  unfold Main.get_air_quality_forecast, bind, ret.
  destruct (engine_result cfg net weather_first lat lon s) as [s1 [s3 [s' E]]].
  rewrite (aqicn_without_key cfg (waqi net) lat lon Hkey) in E.
  pose proof (ground_data_present (openaq_latest net) lat lon 50%Z s1) as G.
  destruct (fst (OpenAQDataSource.get_ground_data (openaq_latest net) lat lon 50 s1))
    as [g|]; [|discriminate]. clear G.
  destruct (get_comprehensive_air_quality (data_fusion_engine cfg net)
              weather_first lat lon s) as [rtd s2].
  cbn [fst] in *.
  assert (P : exists pm, Main.current_pm25_of rtd (Main.current_aqi_of rtd) = Some pm).
  { unfold Main.current_pm25_of. rewrite E, fused_pm25. cbn [preferred_sensor option_map].
    destruct (Dict.get "pm25"%string
                (pollutants (fst (_calculate_primary_aqi (Some (OfOpenAQ g)) s'))))
      as [e|] eqn:L.
    - exact (ground_pm25_has_value g s' e L).
    - eexists. reflexivity. }
  destruct P as [pm P]. rewrite P.
  destruct (realistic_forecast_total utc_hour lat lon (Main.current_aqi_of rtd) pm
              horizon rtd) as [entries [F Ok]].
  rewrite F.
  cbn [fst Main.model Main.real_time_data Main.data_quality Main.data_sources
       Main.forecast].
  repeat split; try assumption.
  rewrite <- (Forall2_length Ok). apply range_length.
Qed.

Lemma forecast_on_real_data_witness :
  let r := fst (Main.get_air_quality_forecast (H := Sample.lib)
                  (config_with_token None) unreachable_network false (fun _ => 8%Z)
                  1 2 24 true 0%Z) in
  let engine := fst (get_comprehensive_air_quality (H := Sample.lib)
                       (data_fusion_engine (config_with_token None) unreachable_network)
                       false 1 2 0%Z) in
  Main.model r = "tempo_openaq_integrated_v1"%string
  /\ Main.real_time_data r = Some engine
  /\ Main.data_quality r = Some (data_quality engine)
  /\ Main.data_sources r = Some (sources engine)
  /\ List.length (Main.forecast r) = Z.to_nat 24
  /\ Forall2 realistic_entry_ok (Main.range 24) (Main.forecast r).
Proof.
  apply (forecast_on_real_data (H := Sample.lib)). reflexivity.
Defined.

(** X30. With an AQICN reading whose index is usable and whose ["pm25"]
    entry has no ["v"], the PM2.5 value of the current conditions is
    [None]; for a horizon of at least one hour the forecast raises and
    the endpoint answers with the mock forecast. *)
Theorem forecast_falls_back_on_missing_pm25 `{PyLib}
    cfg net weather_first utc_hour lat lon horizon s data measurements i :
  is_set (WAQI_API_KEY cfg) = true ->
  AQICNDataSource.usable (AQICNDataSource.feed_geo (waqi net) lat lon)
  = Some (Some data) ->
  AQICNDataSource.api_aqi data = Some i -> ~ i == 0 ->
  AQICNDataSource.iaqi data = Some measurements ->
  Dict.get "pm25"%string measurements = Some None ->
  (0 < horizon)%Z ->
  let r := fst (Main.get_air_quality_forecast cfg net weather_first utc_hour
                  lat lon horizon true s) in
  Main.model r = "mock_data_fallback"%string
  /\ Main.real_time_data r = None
  /\ List.length (Main.forecast r) = Z.to_nat horizon.
Proof.
  intros Hkey Hfeed Hidx Hnz Hiaqi Hpm Hh r. subst r.
  unfold Main.get_air_quality_forecast, bind, ret.
  destruct (engine_result cfg net weather_first lat lon s) as [s1 [s3 [s' E]]].
  assert (A : AQICNDataSource.get_aqicn_data cfg (waqi net) lat lon
              = Some (AQICNDataSource._process_aqicn_data data lat lon)).
  { unfold AQICNDataSource.get_aqicn_data. rewrite Hkey, Hfeed. reflexivity. }
  rewrite A in E. clear A.
  destruct (get_comprehensive_air_quality (data_fusion_engine cfg net)
              weather_first lat lon s) as [rtd s2].
  cbn [fst] in *.
  assert (P : Main.current_pm25_of rtd (Main.current_aqi_of rtd) = None).
  { unfold Main.current_pm25_of. rewrite E, fused_pm25. cbn [preferred_sensor].
    set (a := AQICNDataSource._process_aqicn_data data lat lon).
    destruct (primary_from_aqicn_metrics a i s' eq_refl Hidx Hnz) as [_ Pp].
    rewrite Pp. unfold a, AQICNDataSource._process_aqicn_data.
    cbn [AQICNDataSource.pollutants]. rewrite add_pollutants_get, Hiaqi, Hpm.
    reflexivity. }
  rewrite P, realistic_forecast_raises by exact Hh.
  destruct (mock_forecast_run lat lon horizon s2) as [base [s4 M]]. rewrite M.
  cbn [Main.model Main.real_time_data Main.forecast].
  split; [reflexivity|]. split; [reflexivity|].
  pose proof (for_each_Forall2 (Main.mock_hour base) (fun _ _ => True)
                (Main.range horizon) (fun _ _ _ => I) s4) as F.
  rewrite <- (Forall2_length F). apply range_length.
Qed.

Lemma forecast_falls_back_on_missing_pm25_witness :
  let feed := {| AQICNDataSource.city := None;
                 AQICNDataSource.iaqi := Some [("pm25"%string, None)];
                 AQICNDataSource.api_aqi := Some 42 |} in
  let net := {| openaq_latest := fun _ _ _ _ => HttpRaises;
                openweather_current := fun _ _ => HttpRaises;
                waqi := {| AQICNDataSource.feed_geo := fun _ _ =>
                             HttpResponse 200
                               (Some {| AQICNDataSource.feed_status := Some "ok"%string;
                                        AQICNDataSource.feed_data := Some feed |});
                           AQICNDataSource.search := fun _ _ => HttpRaises;
                           AQICNDataSource.feed_station := fun _ => HttpRaises |} |} in
  let cfg := {| NASA_TEMPO_TOKEN := None; OPENAQ_API_KEY := None;
                WAQI_API_KEY := Some "k"%string; OPENWEATHER_API_KEY := None |} in
  let r := fst (Main.get_air_quality_forecast (H := Sample.lib) cfg net false
                  (fun _ => 8%Z) 1 2 24 true 0%Z) in
  Main.model r = "mock_data_fallback"%string
  /\ Main.real_time_data r = None
  /\ List.length (Main.forecast r) = Z.to_nat 24.
Proof.
  intros feed net cfg.
  apply (forecast_falls_back_on_missing_pm25 (H := Sample.lib) cfg net false
           (fun _ => 8%Z) 1 2 24 0%Z feed [("pm25"%string, None)] 42);
    try reflexivity; discriminate.
Defined.
